(** * fbsmslib: session handling and SMS sending against a FRITZ!Box

    A shallow embedding of [fbsmslib.py].  The client object is a record, the
    outside world (device, wall clock, rate limiter, one-time-password
    generator, hashlib) is an environment of oracles, and every call that
    leaves the program is recorded in a trace so that statements about which
    requests were issued, and in which order, can be made. *)

From Stdlib Require Import ZArith List Bool Lia.
From Stdlib.Strings Require Import String Ascii Byte.
Import ListNotations.
Open Scope string_scope.
Open Scope Z_scope.
Set Warnings "-register-all".

(** ** Python values that cross the program's boundary *)

(** A decoded JSON document, as [Response.json()] hands it to the program.
    Numbers are kept as integers; objects keep their items in order and a
    key is looked up at its first occurrence. *)
Inductive json : Type :=
| JNull
| JBool (b : bool)
| JNum (n : Z)
| JStr (s : string)
| JArr (items : list json)
| JObj (items : list (string * json)).

(** A piece of an f-string: literal text or an interpolated value whose
    rendering is left to Python's [str]. *)
Inductive frag : Type :=
| Lit (s : string)
| Val (v : json).

Definition message := list frag.

Inductive exn_class : Type :=
| Exception
| RuntimeError
| NotImplementedError
| RequestException
| BucketFullException
| KeyError
| TypeError
| ValueError
| IndexError
| AttributeError
| JSONDecodeError
| ParseError
| OverflowError
| OtherError (name : string).

(** An exception object: its class, its message and the exception it was
    raised [from]. *)
Inductive exn : Type :=
| Exn (cls : exn_class) (msg : message) (cause : option exn).

Definition exn_cls (e : exn) : exn_class := let 'Exn c _ _ := e in c.
Definition exn_msg (e : exn) : message := let 'Exn _ m _ := e in m.

Inductive Result (A : Type) : Type :=
| Ok (a : A)
| Raise (e : exn).
Arguments Ok {A} a.
Arguments Raise {A} e.

Definition is_ok {A} (r : Result A) : bool :=
  match r with Ok _ => true | Raise _ => false end.

(** The children of the root element of an XML answer: tag and text.  An
    element without text has [None], as [Element.text] does. *)
Definition Xml := list (string * option string).

(** What [requests] returns: the body seen through the two parsers the
    program applies to it.  [None] is a body the parser rejects. *)
Record Response : Type := mkResponse {
  resp_xml : option Xml;
  resp_json : option json
}.

(** pyrate_limiter's [Rate(limit, interval)], the interval in milliseconds. *)
Record Rate : Type := mkRate {
  rate_limit : Z;
  rate_interval : Z
}.

Definition Duration_HOUR : Z := 3600 * 1000.

(** ** Strings and bytes *)

Definition bytes := list byte.

Fixpoint startswith (s p : string) : bool :=
  match p, s with
  | EmptyString, _ => true
  | String a p', String b s' => Ascii.eqb a b && startswith s' p'
  | String _ _, EmptyString => false
  end.

(** [needle in s] for two strings. *)
Fixpoint str_contains (needle s : string) : bool :=
  startswith s needle ||
  match s with
  | EmptyString => false
  | String _ s' => str_contains needle s'
  end.

(** [s.split(sep)] for a one-character separator. *)
Fixpoint py_split (sep : ascii) (s : string) : list string :=
  match s with
  | EmptyString => [EmptyString]
  | String c s' =>
      if Ascii.eqb c sep then EmptyString :: py_split sep s'
      else match py_split sep s' with
           | [] => [String c EmptyString]
           | p :: ps => String c p :: ps
           end
  end.

(** Python list indexing with a non-negative index. *)
Definition py_index {A} (l : list A) (i : nat) : Result A :=
  match nth_error l i with
  | Some x => Ok x
  | None => Raise (Exn IndexError [Lit "list index out of range"] None)
  end.

(** The ASCII white space [int] skips around a number: tab, line feed,
    vertical tab, form feed, carriage return and space. *)
Definition is_space (c : ascii) : bool :=
  let n := N_of_ascii c in
  ((9 <=? n) && (n <=? 13) || (n =? 32))%N.

Fixpoint lstrip (s : string) : string :=
  match s with
  | EmptyString => EmptyString
  | String c s' => if is_space c then lstrip s' else s
  end.

Fixpoint rstrip (s : string) : string :=
  match s with
  | EmptyString => EmptyString
  | String c s' =>
      match rstrip s' with
      | EmptyString => if is_space c then EmptyString else String c EmptyString
      | r => String c r
      end
  end.

Definition strip (s : string) : string := rstrip (lstrip s).

Definition digit_of (c : ascii) : option Z :=
  let n := N_of_ascii c in
  if ((48 <=? n) && (n <=? 57))%N then Some (Z.of_N n - 48) else None.

(** Decimal digits with single underscores between them, as [int] reads
    them. [after_digit] tells whether the previous character was a digit. *)
Fixpoint digits_value (acc : Z) (after_digit : bool) (s : string) : option Z :=
  match s with
  | EmptyString => if after_digit then Some acc else None
  | String c s' =>
      match digit_of c with
      | Some d => digits_value (10 * acc + d) true s'
      | None =>
          if Ascii.eqb c "_" && after_digit then digits_value acc false s'
          else None
      end
  end.

(** An optional sign and what follows it. *)
Definition split_sign (body : string) : bool * string :=
  match body with
  | String c r =>
      if Ascii.eqb c "-" then (true, r)
      else if Ascii.eqb c "+" then (false, r)
      else (false, body)
  | EmptyString => (false, body)
  end.

(** The digits and underscores [s] starts with. *)
Fixpoint leading_run (s : string) : string :=
  match s with
  | EmptyString => EmptyString
  | String c s' =>
      match digit_of c with
      | Some _ => String c (leading_run s')
      | None => if Ascii.eqb c "_" then String c (leading_run s') else EmptyString
      end
  end.

Fixpoint digit_count (s : string) : Z :=
  match s with
  | EmptyString => 0
  | String c s' =>
      match digit_of c with
      | Some _ => 1 + digit_count s'
      | None => digit_count s'
      end
  end.

(** The interpreter's default limit on the digits of a decimal numeral. *)
Definition MAX_STR_DIGITS : Z := 4300.

Definition invalid_literal : exn :=
  Exn ValueError [Lit "invalid literal for int() with base 10"] None.

Definition too_many_digits : exn :=
  Exn ValueError [Lit "Exceeds the limit (4300 digits) for integer string conversion"]
      None.

(** [int(s)] for an ASCII string: surrounding white space, an optional sign,
    decimal digits with single underscores between them, and no more digits
    than the interpreter's limit.  The run of digits is checked first, then
    its length, then that nothing follows it. *)
Definition py_int (s : string) : Result Z :=
  let '(negative, ds) := split_sign (strip s) in
  let run := leading_run ds in
  match digits_value 0 false run with
  | None => Raise invalid_literal
  | Some n =>
      if MAX_STR_DIGITS <? digit_count run then Raise too_many_digits
      else if String.eqb run ds then Ok (if negative then - n else n)
      else Raise invalid_literal
  end.

(** No character of [s] is outside ASCII. *)
Fixpoint is_ascii (s : string) : bool :=
  match s with
  | EmptyString => true
  | String c s' => (N_of_ascii c <? 128)%N && is_ascii s'
  end.

(** [time.sleep(secs)] for an integer: a negative length is refused, and so
    is one whose nanoseconds do not fit in 64 bits. *)
Definition SLEEP_LIMIT : Z := 9223372036.

Definition sleep_result (secs : Z) : Result unit :=
  if secs <? 0
  then Raise (Exn ValueError [Lit "sleep length must be non-negative"] None)
  else if SLEEP_LIMIT <? secs
       then Raise (Exn OverflowError
                       [Lit "timestamp too large to convert to C _PyTime_t"] None)
       else Ok tt.

Definition hexval (c : ascii) : option N :=
  let n := N_of_ascii c in
  if ((48 <=? n) && (n <=? 57))%N then Some (n - 48)%N
  else if ((97 <=? n) && (n <=? 102))%N then Some (n - 87)%N
  else if ((65 <=? n) && (n <=? 70))%N then Some (n - 55)%N
  else None.

(** White space [bytes.fromhex] skips between two bytes. *)
Definition is_hexspace (c : ascii) : bool :=
  let n := N_of_ascii c in
  ((9 <=? n) && (n <=? 13) || (n =? 32))%N.

Definition fromhex_error : exn :=
  Exn ValueError [Lit "non-hexadecimal number found in fromhex() arg"] None.

(** [bytes.fromhex(s)]: two hexadecimal digits of either case per byte,
    white space allowed between bytes only. *)
Fixpoint fromhex (s : string) : Result bytes :=
  match s with
  | EmptyString => Ok []
  | String a r =>
      if is_hexspace a then fromhex r
      else
        match hexval a, r with
        | Some hi, String b r' =>
            match hexval b with
            | Some lo =>
                match fromhex r' with
                | Ok bs => Ok (byte_of_ascii (ascii_of_N (16 * hi + lo)) :: bs)
                | Raise e => Raise e
                end
            | None => Raise fromhex_error
            end
        | _, _ => Raise fromhex_error
        end
  end.

Definition hexdigit (n : N) : ascii :=
  if (n <? 10)%N then ascii_of_N (48 + n) else ascii_of_N (87 + n).

(** [bytes.hex()]: two lower-case digits per byte. *)
Fixpoint hex (bs : bytes) : string :=
  match bs with
  | [] => EmptyString
  | b :: bs' =>
      let n := Byte.to_N b in
      String (hexdigit (n / 16)) (String (hexdigit (n mod 16)) (hex bs'))
  end.

(** [str.encode()]: the strings of this development are byte strings
    already. *)
Definition encode (s : string) : bytes := list_byte_of_string s.

(** ** JSON and XML access *)

Fixpoint assoc {A} (k : string) (l : list (string * A)) : option A :=
  match l with
  | [] => None
  | (k', v) :: l' => if String.eqb k k' then Some v else assoc k l'
  end.

Definition json_is_str (v : json) (s : string) : bool :=
  match v with
  | JStr s' => String.eqb s' s
  | _ => false
  end.

(** [v[k]] with a string key. *)
Definition py_getitem (v : json) (k : string) : Result json :=
  match v with
  | JObj items =>
      match assoc k items with
      | Some x => Ok x
      | None => Raise (Exn KeyError [Lit k] None)
      end
  | JArr _ => Raise (Exn TypeError [Lit "list indices must be integers or slices, not str"] None)
  | JStr _ => Raise (Exn TypeError [Lit "string indices must be integers, not 'str'"] None)
  | _ => Raise (Exn TypeError [Lit "object is not subscriptable"] None)
  end.

(** [v.keys()]. *)
Definition py_keys (v : json) : Result (list string) :=
  match v with
  | JObj items => Ok (map fst items)
  | _ => Raise (Exn AttributeError [Lit "object has no attribute 'keys'"] None)
  end.

(** [needle in v] for a string needle: substring of a string, element of a
    list, key of a dict. *)
Definition py_in (needle : string) (v : json) : Result bool :=
  match v with
  | JStr s => Ok (str_contains needle s)
  | JArr items => Ok (existsb (fun x => json_is_str x needle) items)
  | JObj items => Ok (existsb (fun kv => String.eqb (fst kv) needle) items)
  | _ => Raise (Exn TypeError [Lit "argument is not iterable"] None)
  end.

(** [xml.find(tag).text]; [find] yields [None] when no child has the tag. *)
Definition find_text (tag : string) (xml : Xml) : Result (option string) :=
  match assoc tag xml with
  | Some t => Ok t
  | None => Raise (Exn AttributeError [Lit "'NoneType' object has no attribute 'text'"] None)
  end.

(** [ET.fromstring(response.content)]. *)
Definition fromstring (r : Response) : Result Xml :=
  match resp_xml r with
  | Some x => Ok x
  | None => Raise (Exn ParseError [Lit "not well-formed"] None)
  end.

(** [response.json()]. *)
Definition response_json (r : Response) : Result json :=
  match resp_json r with
  | Some j => Ok j
  | None => Raise (Exn JSONDecodeError [Lit "Expecting value"] None)
  end.

(** [response.json()["data"]] and [response.json()["data"][k]]. *)
Definition json_data (r : Response) : Result json :=
  match response_json r with
  | Ok j => py_getitem j "data"
  | Raise e => Raise e
  end.

Definition data_field (r : Response) (k : string) : Result json :=
  match json_data r with
  | Ok d => py_getitem d k
  | Raise e => Raise e
  end.

(** ** The world outside the program *)

Definition form := list (string * json).
Definition headers := list (string * string).

(** One call that leaves the program. *)
Inductive Event : Type :=
| EvTime
| EvSleep (secs : Z)
| EvGet (url : string)
| EvPost (url : string) (data : form) (hdrs : option headers)
| EvAcquire (name : string)
| EvTotp
| EvPbkdf2 (password salt : bytes) (iterations : Z).

(** The calls made so far, the latest first. *)
Definition Trace := list Event.

(** What [int] makes of a string: a number, or one of its two
    [ValueError]s. *)
Inductive IntReading : Type :=
| IntValue (n : Z)
| IntInvalid
| IntTooLong.

(** The environment answers every call from the calls that came before it.
    The clock is in seconds; hashing is a function of its arguments alone.
    [env_int_unicode] is what [int] makes of a string that has characters
    outside ASCII, which it reads by the interpreter's Unicode tables of
    digits and white space. *)
Record Env : Type := mkEnv {
  env_time : Trace -> Z;
  env_get : Trace -> string -> Result Response;
  env_post : Trace -> string -> form -> option headers -> Result Response;
  env_try_acquire : list Rate -> Trace -> string -> Result bool;
  env_totp : Trace -> string -> Result string;
  env_pbkdf2 : bytes -> bytes -> Z -> Result bytes;
  env_int_unicode : string -> IntReading
}.

(** [int(s)] for any string. *)
Definition py_int_in (env : Env) (s : string) : Result Z :=
  if is_ascii s then py_int s
  else match env_int_unicode env s with
       | IntValue n => Ok n
       | IntInvalid => Raise invalid_literal
       | IntTooLong => Raise too_many_digits
       end.

(** ** The client object *)

Record Client : Type := mkClient {
  rate : list Rate;
  box_url : string;
  username : string;
  password : string;
  totpsecret : string;
  sid : option string;
  sid_timeout : option Z
}.

Definition with_sid (s : option string) (c : Client) : Client :=
  mkClient (rate c) (box_url c) (username c) (password c) (totpsecret c)
           s (sid_timeout c).

Definition with_sid_timeout (t : option Z) (c : Client) : Client :=
  mkClient (rate c) (box_url c) (username c) (password c) (totpsecret c)
           (sid c) t.

Record St : Type := mkSt {
  client : Client;
  trace : Trace
}.

Definition record (e : Event) (st : St) : St :=
  mkSt (client st) (e :: trace st).

(** The calls made between two states, the earliest first. *)
Definition issued (st st' : St) (evs : list Event) : Prop :=
  trace st' = (rev evs ++ trace st)%list.

(** ** A monad for state and exceptions *)

Definition M (A : Type) : Type := St -> Result A * St.

Definition ret {A} (a : A) : M A := fun st => (Ok a, st).

Definition raise {A} (e : exn) : M A := fun st => (Raise e, st).

Definition bind {A B} (m : M A) (k : A -> M B) : M B :=
  fun st =>
    match m st with
    | (Ok a, st') => k a st'
    | (Raise e, st') => (Raise e, st')
    end.

Definition lift {A} (r : Result A) : M A := fun st => (r, st).

(** [try: m / except Exception as e: h e]. *)
Definition try_except {A} (m : M A) (h : exn -> M A) : M A :=
  fun st =>
    match m st with
    | (Ok a, st') => (Ok a, st')
    | (Raise e, st') => h e st'
    end.

(** [try: m / except C as e: h e] for the classes [catches] accepts. *)
Definition try_except_if {A} (catches : exn_class -> bool)
           (m : M A) (h : exn -> M A) : M A :=
  fun st =>
    match m st with
    | (Ok a, st') => (Ok a, st')
    | (Raise e, st') => if catches (exn_cls e) then h e st' else (Raise e, st')
    end.

Definition get_client : M Client := fun st => (Ok (client st), st).

Definition update_client (f : Client -> Client) : M unit :=
  fun st => (Ok tt, mkSt (f (client st)) (trace st)).

Notation "x <- m ;; k" := (bind m (fun x => k))
  (at level 61, m at next level, right associativity).
Notation "m ;;; k" := (bind m (fun _ => k))
  (at level 61, right associativity).

(** ** The program *)

Record LoginState : Type := mkLoginState {
  challenge : string;
  blocktime : Z;
  is_pbkdf2 : bool
}.

(** [LoginState.__init__]; a challenge of [None] has no [startswith]. *)
Definition LoginState_init (challenge : option string) (blocktime : Z)
  : Result LoginState :=
  match challenge with
  | Some c => Ok (mkLoginState c blocktime (startswith c "2$"))
  | None => Raise (Exn AttributeError
                       [Lit "'NoneType' object has no attribute 'startswith'"] None)
  end.

(** [int(text)] where the text of an element may be [None]. *)
Definition py_int_text (env : Env) (t : option string) : Result Z :=
  match t with
  | Some s => py_int_in env s
  | None => Raise (Exn TypeError [Lit "int() argument must be a string"] None)
  end.

Definition LOGIN_SID_ROUTE : string := "/login_sid.lua?version=2".

Definition NO_SESSION : string := "0000000000000000".

Definition is_request_exception (c : exn_class) : bool :=
  match c with
  | RequestException => true
  | _ => false
  end.

Definition json_of_sid (s : option string) : json :=
  match s with
  | Some x => JStr x
  | None => JNull
  end.

Definition failed_to_get_challenge (ex : exn) : exn :=
  Exn Exception [Lit "failed to get challenge"] (Some ex).

Definition no_pbkdf2_support : exn :=
  Exn Exception
      [Lit "FRITZ!Box does not support PBKDF2. Please update your device firmware (v7.24 or later)."]
      None.

Definition failed_to_login (ex : exn) : exn :=
  Exn Exception [Lit "failed to login"] (Some ex).

Definition wrong_credentials : exn :=
  Exn Exception [Lit "wrong username or password"] None.

Definition rate_limit_exceeded (ex : exn) : exn :=
  Exn RuntimeError
      [Lit "Rate limit exceeded. Please wait before sending more SMS."] (Some ex).

Definition request_failed (url : string) (ex : exn) : exn :=
  Exn RuntimeError ([Lit "Request to "; Lit url; Lit " failed: "] ++ exn_msg ex)%list None.

Definition twofactor_not_implemented (method : json) : exn :=
  Exn NotImplementedError
      [Lit "Two-factor authentication method not implemented: "; Val method] None.

Definition second_apply_unexpected (v : json) : exn :=
  Exn NotImplementedError [Lit "second_apply is not two_factor: "; Val v] None.

Section Program.

Variable env : Env.

(** *** Calls into the environment *)

(** [time.time()] *)
Definition time_time : M Z :=
  fun st => (Ok (env_time env (trace st)), record EvTime st).

(** [time.sleep(secs)] *)
Definition time_sleep (secs : Z) : M unit :=
  fun st => (sleep_result secs, record (EvSleep secs) st).

(** [requests.get(url)] *)
Definition requests_get (url : string) : M Response :=
  fun st => (env_get env (trace st) url, record (EvGet url) st).

(** [requests.post(url, data=data, headers=hdrs)] *)
Definition requests_post (url : string) (data : form) (hdrs : option headers)
  : M Response :=
  fun st => (env_post env (trace st) url data hdrs,
             record (EvPost url data hdrs) st).

(** [limiter.try_acquire(name)] on a limiter built from [rates] *)
Definition try_acquire (rates : list Rate) (name : string) : M bool :=
  fun st => (env_try_acquire env rates (trace st) name,
             record (EvAcquire name) st).

(** [pyotp.TOTP(secret).now()] *)
Definition totp_now (secret : string) : M string :=
  fun st => (env_totp env (trace st) secret, record EvTotp st).

(** [hashlib.pbkdf2_hmac("sha256", pw, salt, iterations)] *)
Definition pbkdf2_hmac_sha256 (pw salt : bytes) (iterations : Z) : M bytes :=
  fun st => (env_pbkdf2 env pw salt iterations,
             record (EvPbkdf2 pw salt iterations) st).

(** *** Authentication *)

Definition get_login_state : M LoginState :=
  c <- get_client ;;
  http_response <- requests_get (box_url c ++ LOGIN_SID_ROUTE) ;;
  xml <- lift (fromstring http_response) ;;
  challenge <- lift (find_text "Challenge" xml) ;;
  blocktime_text <- lift (find_text "BlockTime" xml) ;;
  blocktime <- lift (py_int_text env blocktime_text) ;;
  lift (LoginState_init challenge blocktime).

Definition calculate_pbkdf2_response (challenge : string) : M string :=
  let challenge_parts := py_split "$" challenge in
  part1 <- lift (py_index challenge_parts 1) ;;
  iter1 <- lift (py_int_in env part1) ;;
  part2 <- lift (py_index challenge_parts 2) ;;
  salt1 <- lift (fromhex part2) ;;
  part3 <- lift (py_index challenge_parts 3) ;;
  iter2 <- lift (py_int_in env part3) ;;
  part4 <- lift (py_index challenge_parts 4) ;;
  salt2 <- lift (fromhex part4) ;;
  c <- get_client ;;
  hash1 <- pbkdf2_hmac_sha256 (encode (password c)) salt1 iter1 ;;
  hash2 <- pbkdf2_hmac_sha256 hash1 salt2 iter2 ;;
  echoed <- lift (py_index challenge_parts 4) ;;
  ret (echoed ++ "$" ++ hex hash2).

Definition send_response (challenge_response : string) : M (option string) :=
  c <- get_client ;;
  let post_data :=
    [("username", JStr (username c)); ("response", JStr challenge_response)] in
  let hdrs := [("Content-Type", "application/x-www-form-urlencoded")] in
  let url := box_url c ++ LOGIN_SID_ROUTE in
  http_response <- requests_post url post_data (Some hdrs) ;;
  xml <- lift (fromstring http_response) ;;
  lift (find_text "SID" xml).

Definition _get_sid : M (option string) :=
  state <- try_except get_login_state
                      (fun ex => raise (failed_to_get_challenge ex)) ;;
  challenge_response <-
    (if is_pbkdf2 state
     then calculate_pbkdf2_response (challenge state)
     else raise no_pbkdf2_support) ;;
  (if 0 <? blocktime state then time_sleep (blocktime state) else ret tt) ;;;
  sid <- try_except (send_response challenge_response)
                    (fun ex => raise (failed_to_login ex)) ;;
  match sid with
  | Some s => if String.eqb s NO_SESSION then raise wrong_credentials
              else ret sid
  | None => ret sid
  end.

Definition get_current_sid : M (option string) :=
  c <- get_client ;;
  expired <-
    match sid c with
    | None => ret true
    | Some _ =>
        now <- time_time ;;
        match sid_timeout c with
        | Some deadline => ret (deadline <? now)
        | None => raise (Exn TypeError
                             [Lit "'>' not supported between instances of 'float' and 'NoneType'"]
                             None)
        end
    end ;;
  (if expired : bool
   then s <- _get_sid ;; update_client (with_sid s)
   else ret tt) ;;;
  now <- time_time ;;
  update_client (with_sid_timeout (Some (now + 19 * 60))) ;;;
  c' <- get_client ;;
  ret (sid c').

End Program.

Section Sending.

Variable env : Env.

Definition safe_post_request (url : string) (data : form) : M Response :=
  try_except_if is_request_exception
                (requests_post env url data None)
                (fun e => raise (request_failed url e)).

Definition enforce_rate_limit : M unit :=
  c <- get_client ;;
  try_except (try_acquire env (rate c) "sms_send" ;;; ret tt)
             (fun e => raise (rate_limit_exceeded e)).

(** The form of the first request of a send. *)
Definition apply_form (sid : option string) (receiver message : string) : form :=
  [("xhr", JNum 1); ("sid", json_of_sid sid); ("lang", JStr "de");
   ("recipient", JStr receiver); ("page", JStr "smsSendMsg");
   ("apply", JStr "true"); ("newMessage", JStr message)].

(** The form of the confirming request. *)
Definition confirm_form (sid : option string) (receiver : string) (uid : json)
           (message : string) : form :=
  [("xhr", JNum 1); ("sid", json_of_sid sid); ("lang", JStr "de");
   ("receipient", JStr receiver); ("page", JStr "smsSendMsg");
   ("second_apply", JStr ""); ("new_uid", uid); ("newMessage", JStr message)].

(** The form that asks for the second factor's metadata. *)
Definition probe_form (sid : option string) : form :=
  [("xhr", JNum 1); ("sid", json_of_sid sid);
   ("tfa_googleauth_info", JStr ""); ("no_sidrenew", JStr "")].

(** The form that submits the one-time code. *)
Definition code_form (sid : option string) (code : string) : form :=
  [("xhr", JNum 1); ("sid", json_of_sid sid);
   ("tfa_googleauth", JStr code); ("no_sidrenew", JStr "")].

(** The form of the final, confirmed request. *)
Definition final_form (sid : option string) (receiver : string) (uid : json)
           (message : string) : form :=
  [("xhr", JNum 1); ("sid", json_of_sid sid); ("lang", JStr "de");
   ("receipient", JStr receiver); ("page", JStr "smsSendMsg");
   ("second_apply", JStr ""); ("new_uid", uid); ("newMessage", JStr message);
   ("confirmed", JStr ""); ("twofactor", JStr "")].

(** The second-factor branch of [send_sms], entered once the confirming
    request was answered with [second_apply == "twofactor"] and a method
    list that contains ["googleauth"]. *)
Definition send_sms_twofactor (SMS_SEND_URL MFA_URL : string)
           (receiver message : string) (uid : json) : M unit :=
  sid3 <- get_current_sid env ;;
  safe_post_request MFA_URL (probe_form sid3) ;;;
  sid4 <- get_current_sid env ;;
  c <- get_client ;;
  code <- totp_now env (totpsecret c) ;;
  safe_post_request MFA_URL (code_form sid4 code) ;;;
  sid5 <- get_current_sid env ;;
  safe_post_request SMS_SEND_URL (final_form sid5 receiver uid message) ;;;
  ret tt.

(** The confirming phase of [send_sms], entered once the first request
    was answered with [apply == "ok"] and without a redirect. *)
Definition send_sms_confirm (SMS_SEND_URL MFA_URL : string)
           (receiver message : string) (response1 : Response) : M unit :=
  uid <- lift (data_field response1 "new_uid") ;;
  sid2 <- get_current_sid env ;;
  response2 <- safe_post_request SMS_SEND_URL
                                 (confirm_form sid2 receiver uid message) ;;
  second <- lift (data_field response2 "second_apply") ;;
  if json_is_str second "twofactor"
  then
    methods <- lift (data_field response2 "twofactor") ;;
    supported <- lift (py_in "googleauth" methods) ;;
    if supported : bool
    then send_sms_twofactor SMS_SEND_URL MFA_URL receiver message uid
    else
      methods' <- lift (data_field response2 "twofactor") ;;
      raise (twofactor_not_implemented methods')
  else
    second' <- lift (data_field response2 "second_apply") ;;
    raise (second_apply_unexpected second').

(** [send_sms] after the rate limit was enforced. *)
Definition send_sms_protocol (receiver message : string) : M unit :=
  c <- get_client ;;
  let SMS_SEND_URL := box_url c ++ "/data.lua" in
  let MFA_URL := box_url c ++ "/twofactor.lua" in
  sid1 <- get_current_sid env ;;
  response1 <- safe_post_request SMS_SEND_URL (apply_form sid1 receiver message) ;;
  applied <- lift (data_field response1 "apply") ;;
  (if negb (json_is_str applied "ok")
   then
     applied' <- lift (data_field response1 "apply") ;;
     (if json_is_str applied' "valerror"
      then detail <- lift (data_field response1 "valerror") ;;
           raise (Exn RuntimeError [Lit "Validation error: "; Val detail] None)
      else ret tt) ;;;
     data <- lift (json_data response1) ;;
     raise (Exn RuntimeError
                [Lit "Failed to initiate SMS sending. Response: "; Val data] None)
   else ret tt) ;;;
  data <- lift (json_data response1) ;;
  keys <- lift (py_keys data) ;;
  if existsb (String.eqb "redirect") keys
  then ret tt
  else send_sms_confirm SMS_SEND_URL MFA_URL receiver message response1.

Definition send_sms (receiver message : string) : M unit :=
  enforce_rate_limit ;;;
  send_sms_protocol receiver message.

(** [for id, r in enumerate(receiver)] from index [id] on. *)
Fixpoint send_sms_each (id : nat) (receiver : list string) (message : string)
  : M unit :=
  match receiver with
  | [] => ret tt
  | r :: rest =>
      (if (0 <? id)%nat then time_sleep 5 else ret tt) ;;;
      send_sms r message ;;;
      send_sms_each (S id) rest message
  end.

Definition send_sms_multiple (receiver : list string) (message : string)
  : M unit :=
  send_sms_each 0 receiver message.

(** [FBSMSLib(url, username, password, totpsecret, rate)]: the object the
    constructor leaves behind, or the exception it raises. *)
Definition FBSMSLib_init (url username password totpsecret : string)
           (rate : option Rate) (tr : Trace) : Result Client * Trace :=
  let rates :=
    match rate with
    | Some r => [r]
    | None => [mkRate 10 Duration_HOUR]
    end in
  let self := mkClient rates url username password totpsecret None None in
  match get_current_sid env (mkSt self tr) with
  | (Ok _, st') => (Ok (client st'), trace st')
  | (Raise e, st') => (Raise e, trace st')
  end.

End Sending.

(** ** Observing a run *)

Definition is_acquire (e : Event) : bool :=
  match e with EvAcquire _ => true | _ => false end.

Definition is_get (e : Event) : bool :=
  match e with EvGet _ => true | _ => false end.

Definition is_post (e : Event) : bool :=
  match e with EvPost _ _ _ => true | _ => false end.

Definition is_time (e : Event) : bool :=
  match e with EvTime => true | _ => false end.

Definition is_hash (e : Event) : bool :=
  match e with EvPbkdf2 _ _ _ => true | _ => false end.

Definition is_totp (e : Event) : bool :=
  match e with EvTotp => true | _ => false end.

(** A request of the send protocol: a POST to the data or to the
    second-factor endpoint of the box at [base]. *)
Definition is_send_request (base : string) (e : Event) : bool :=
  match e with
  | EvPost url _ _ =>
      String.eqb url (base ++ "/data.lua") || String.eqb url (base ++ "/twofactor.lua")
  | _ => false
  end.

Definition send_requests (base : string) (evs : list Event) : list Event :=
  filter (is_send_request base) evs.

(** A call to the network. *)
Definition is_network (e : Event) : bool := is_get e || is_post e.

Definition count (f : Event -> bool) (evs : list Event) : nat :=
  List.length (filter f evs).

(** Every request among [evs] (the latest first), issued after [base], was
    answered rather than ended by an exception. *)
Fixpoint all_answered (env : Env) (base : Trace) (evs : list Event) : bool :=
  match evs with
  | [] => true
  | e :: older =>
      match e with
      | EvGet url => is_ok (env_get env (older ++ base)%list url)
      | EvPost url data hdrs =>
          is_ok (env_post env (older ++ base)%list url data hdrs)
      | _ => true
      end && all_answered env base older
  end.

(** ** Environments to run the program in *)

(** The [n]-th call of a kind gets the [n]-th of the scripted answers. *)
Definition scripted {A} (kind : Event -> bool) (answers : list A) (default : A)
           (tr : Trace) : A :=
  nth (count kind tr) answers default.

(** Modelled from the spec: the Admission Gate's limiter of section 4.3, a
    capacity of [rate_limit] acquisitions per window of [rate_interval]
    milliseconds, which pyrate_limiter implements outside this repository.
    [admitted] lists the times, in milliseconds, of the acquisitions the
    limiter granted. *)
Definition in_window (now : Z) (items : list Z) (r : Rate) : Z :=
  Z.of_nat (List.length (filter (fun t => now - rate_interval r <? t) items)).

Definition has_room (rates : list Rate) (now : Z) (items : list Z) : bool :=
  forallb (fun r => in_window now items r <? rate_limit r) rates.

Fixpoint admitted (clock : Trace -> Z) (rates : list Rate) (tr : Trace) : list Z :=
  match tr with
  | [] => []
  | EvAcquire _ :: older =>
      let items := admitted clock rates older in
      let now := 1000 * clock older in
      if has_room rates now items then now :: items else items
  | _ :: older => admitted clock rates older
  end.

Definition bucket_full (name : string) : exn :=
  Exn BucketFullException [Lit "Bucket for item="; Lit name; Lit " is already full"] None.

Definition window_limiter (clock : Trace -> Z) (rates : list Rate) (tr : Trace)
           (name : string) : Result bool :=
  if has_room rates (1000 * clock tr) (admitted clock rates tr)
  then Ok true
  else Raise (bucket_full name).

Definition connection_error : exn :=
  Exn RequestException [Lit "Connection refused"] None.

(** A stand-in for PBKDF2 in test environments. *)
Definition toy_pbkdf2 (pw salt : bytes) (iterations : Z) : Result bytes :=
  if 0 <? iterations then Ok (salt ++ pw)%list
  else Raise (Exn ValueError [Lit "iteration value must be greater than 0."] None).

(** A device and a clock that follow a script. *)
Definition mock_env (times : list Z) (gets posts : list (Result Response)) : Env :=
  let clock := scripted is_time times 0 in
  mkEnv clock
        (fun tr _ => scripted is_get gets (Raise connection_error) tr)
        (fun tr _ _ _ => scripted is_post posts (Raise connection_error) tr)
        (window_limiter clock)
        (fun _ _ => Ok "123456")
        toy_pbkdf2
        (fun _ => IntInvalid).

Definition xml_response (x : Xml) : Response := mkResponse (Some x) None.
Definition json_response (j : json) : Response := mkResponse None (Some j).

Definition login_state_answer (challenge blocktime : string) : Result Response :=
  Ok (xml_response [("SID", Some NO_SESSION); ("Challenge", Some challenge);
                    ("BlockTime", Some blocktime)]).

Definition session_answer (sid : option string) : Result Response :=
  Ok (xml_response [("SID", sid); ("BlockTime", Some "0")]).

Definition data_answer (items : list (string * json)) : Result Response :=
  Ok (json_response (JObj [("data", JObj items)])).

Definition demo_client : Client :=
  mkClient [mkRate 1 Duration_HOUR] "http://fritz.box" "smsuser" "secret"
           "JBSWY3DPEHPK3PXP" None None.

Definition demo_sid : string := "a1b2c3d4e5f60718".

Definition logged_in (deadline : Z) : Client :=
  with_sid_timeout (Some deadline) (with_sid (Some demo_sid) demo_client).

(** The challenge string with the four fields [f1] to [f4] after the
    version tag. *)
Definition pbkdf2_challenge (f1 f2 f3 f4 : string) : string :=
  "2$" ++ f1 ++ "$" ++ f2 ++ "$" ++ f3 ++ "$" ++ f4.

(** [s] has no character [sep]. *)
Fixpoint lacks (sep : ascii) (s : string) : bool :=
  match s with
  | EmptyString => true
  | String c s' => negb (Ascii.eqb c sep) && lacks sep s'
  end.

Definition lower_hex_char (c : ascii) : bool :=
  let n := N_of_ascii c in
  ((48 <=? n) && (n <=? 57) || (97 <=? n) && (n <=? 102))%N.

(** [s] is written with the digits [bytes.hex] produces. *)
Fixpoint lower_hex (s : string) : bool :=
  match s with
  | EmptyString => true
  | String c s' => lower_hex_char c && lower_hex s'
  end.

(** The address of the login endpoint. *)
Definition login_url (st : St) : string := box_url (client st) ++ LOGIN_SID_ROUTE.

(** The state after the waiting time the device imposes before the response
    is sent. *)
Definition cooldown (ls : LoginState) (st : St) : St :=
  if 0 <? blocktime ls then record (EvSleep (blocktime ls)) st else st.

(** Whether that wait could be made. *)
Definition cooldown_result (ls : LoginState) : Result unit :=
  if 0 <? blocktime ls then sleep_result (blocktime ls) else Ok tt.

(** The test [_get_sid] applies to the session id the device returned. *)
Definition check_session (s : option string) : Result (option string) :=
  match s with
  | Some x => if String.eqb x NO_SESSION then Raise wrong_credentials else Ok s
  | None => Ok s
  end.

(** The last step of [get_current_sid]: read the clock and move the
    deadline nineteen minutes past the reading. *)
Definition stamp (env : Env) (st : St) : St :=
  mkSt (with_sid_timeout (Some (env_time env (trace st) + 19 * 60)) (client st))
       (EvTime :: trace st).

(** The renewing path of [get_current_sid]: one authentication exchange,
    whose session id is stored before the deadline is moved. *)
Definition renew (env : Env) (st : St) : Result (option string) * St :=
  match _get_sid env st with
  | (Ok s, st') => (Ok s, stamp env (mkSt (with_sid s (client st')) (trace st')))
  | (Raise e, st') => (Raise e, st')
  end.

(** [m] never changes the address of the box [base], and every call it
    makes satisfies [P]. *)
Definition keeps (base : string) (P : Event -> bool) {A} (m : M A) : Prop :=
  forall st r st',
    box_url (client st) = base ->
    m st = (r, st') ->
    box_url (client st') = base
    /\ exists evs, trace st' = (evs ++ trace st)%list /\ forallb P evs = true.

(** Events that are neither a check of the admission gate nor a request of
    the send protocol. *)
Definition session_event (base : string) (e : Event) : bool :=
  negb (is_acquire e) && negb (is_send_request base e).

Definition not_acquire (e : Event) : bool := negb (is_acquire e).

(** The requests of the send protocol that were issued between two states
    of a client of the box at [base]. *)
Definition sends (base : string) (st st' : St) (reqs : list Event) : Prop :=
  box_url (client st) = base
  /\ box_url (client st') = base
  /\ exists evs, issued st st' evs /\ send_requests base evs = reqs.

(** The request that asks for the second factor's metadata. *)
Definition is_probe (e : Event) : bool :=
  match e with
  | EvPost _ data _ =>
      existsb (fun kv => String.eqb (fst kv) "tfa_googleauth_info") data
  | _ => false
  end.

Section SendRun.

Variable env : Env.
Variables receiver message : string.
Variable st : St.

Definition data_url : string := box_url (client st) ++ "/data.lua".
Definition mfa_url : string := box_url (client st) ++ "/twofactor.lua".

Definition apply_request (sid1 : option string) : Event :=
  EvPost data_url (apply_form sid1 receiver message) None.

Definition confirm_request (sid2 : option string) (uid : json) : Event :=
  EvPost data_url (confirm_form sid2 receiver uid message) None.

Definition probe_request (sid3 : option string) : Event :=
  EvPost mfa_url (probe_form sid3) None.

Definition code_request (sid4 : option string) (code : string) : Event :=
  EvPost mfa_url (code_form sid4 code) None.

Definition final_request (sid5 : option string) (uid : json) : Event :=
  EvPost data_url (final_form sid5 receiver uid message) None.

(** The device answers the request [e], issued in state [st0], with
    [resp]. *)
Definition answered (st0 : St) (e : Event) (resp : Response) : Prop :=
  match e with
  | EvPost url data hdrs => env_post env (trace st0) url data hdrs = Ok resp
  | _ => False
  end.

(** The send started in [st] passed the gate, obtained the session id
    [sid1], which left the client in [st2], and its first request was
    answered with a [data] object [items1] whose [apply] is ["ok"]. *)
Definition applied (sid1 : option string) (st2 : St)
           (items1 : list (string * json)) : Prop :=
  exists st1 resp1,
    enforce_rate_limit env st = (Ok tt, st1)
    /\ get_current_sid env st1 = (Ok sid1, st2)
    /\ answered st2 (apply_request sid1) resp1
    /\ json_data resp1 = Ok (JObj items1)
    /\ assoc "apply" items1 = Some (JStr "ok").

(** Moreover the first answer had no redirect but the identifier [uid],
    the session id for the confirming request was [sid2], which left the
    client in [st3], and the confirming request was answered with a
    [data] object [items2] whose [second_apply] is ["twofactor"]. *)
Definition confirmed (sid1 sid2 : option string) (uid : json) (st3 : St)
           (items2 : list (string * json)) : Prop :=
  exists st2 items1 resp2,
    applied sid1 st2 items1
    /\ assoc "redirect" items1 = None
    /\ assoc "new_uid" items1 = Some uid
    /\ get_current_sid env (record (apply_request sid1) st2) = (Ok sid2, st3)
    /\ answered st3 (confirm_request sid2 uid) resp2
    /\ json_data resp2 = Ok (JObj items2)
    /\ assoc "second_apply" items2 = Some (JStr "twofactor").

(** From the state [st4] after the confirming request, the three
    requests of the second factor were all answered: the probe under
    [sid3], the one-time code [code] under [sid4] and the final request
    under [sid5], after which the client is in [st']. *)
Definition factor_submitted (uid : json) (st4 : St)
           (sid3 sid4 sid5 : option string) (code : string) (st' : St) : Prop :=
  exists st5 st6 st7 resp3 resp4 resp5,
    get_current_sid env st4 = (Ok sid3, st5)
    /\ answered st5 (probe_request sid3) resp3
    /\ get_current_sid env (record (probe_request sid3) st5) = (Ok sid4, st6)
    /\ env_totp env (trace st6) (totpsecret (client st6)) = Ok code
    /\ answered (record EvTotp st6) (code_request sid4 code) resp4
    /\ get_current_sid env (record (code_request sid4 code) (record EvTotp st6))
       = (Ok sid5, st7)
    /\ answered st7 (final_request sid5 uid) resp5
    /\ st' = record (final_request sid5 uid) st7.

End SendRun.

(** ** The schedule of a send to several receivers, in the words of the
    specification: every receiver in list order, with a pause between two
    successive receivers and none before the first. *)

Inductive Action : Type :=
| Send (receiver : string)
| Pause.

(** A pause before each of the receivers. *)
Definition pause_each (receivers : list string) : list Action :=
  flat_map (fun r => [Pause; Send r]) receivers.

Definition schedule (receivers : list string) : list Action :=
  match receivers with
  | [] => []
  | r :: rest => Send r :: pause_each rest
  end.

(** Carrying out a schedule: each action in turn, up to the first one that
    raises. *)
Fixpoint run_schedule (env : Env) (message : string) (acts : list Action)
  : M unit :=
  match acts with
  | [] => ret tt
  | a :: rest =>
      match a with
      | Send r => send_sms env r message
      | Pause => time_sleep 5
      end ;;;
      run_schedule env message rest
  end.

Definition sends_of (acts : list Action) : list string :=
  flat_map (fun a => match a with Send r => [r] | Pause => [] end) acts.

Definition pauses_of (acts : list Action) : nat :=
  List.length (filter (fun a => match a with Pause => true | Send _ => false end) acts).

(** Every pause of [acts] stands directly between two sends; [after_send]
    tells whether the action before [acts] was a send. *)
Fixpoint between_sends (after_send : bool) (acts : list Action) : bool :=
  match acts with
  | [] => true
  | Send _ :: rest => between_sends true rest
  | Pause :: rest =>
      after_send
      && match rest with Send _ :: _ => true | _ => false end
      && between_sends false rest
  end.

Definition is_sleep (e : Event) : bool :=
  match e with EvSleep _ => true | _ => false end.

(** ** Reading messages *)

(** The values a [for] loop draws from [v]: the elements of a list, the keys
    of a dict, the characters of a string. *)
Definition py_iter (v : json) : Result (list json) :=
  match v with
  | JArr items => Ok items
  | JObj items => Ok (map (fun kv => JStr (fst kv)) items)
  | JStr s => Ok (map (fun c => JStr (String c EmptyString)) (list_ascii_of_string s))
  | _ => Raise (Exn TypeError [Lit "object is not iterable"] None)
  end.

(** [[i for i in items if i["status_name"] == "received"]], element by
    element; the first element without the key ends the comprehension. *)
Fixpoint received_only (items : list json) : Result (list json) :=
  match items with
  | [] => Ok []
  | i :: rest =>
      match py_getitem i "status_name" with
      | Raise e => Raise e
      | Ok status =>
          match received_only rest with
          | Raise e => Raise e
          | Ok kept => Ok (if json_is_str status "received" then i :: kept else kept)
          end
      end
  end.

(** The form that asks for the message list. *)
Definition sms_list_form (sid : option string) : form :=
  [("xhr", JNum 1); ("sid", json_of_sid sid); ("lang", JStr "de");
   ("page", JStr "smsList"); ("xhrId", JStr "all")].

(** [response.json()["data"]["smsListData"]["messages"]]. *)
Definition messages_of (r : Response) : Result json :=
  match data_field r "smsListData" with
  | Ok l => py_getitem l "messages"
  | Raise e => Raise e
  end.

Section Messages.

Variable env : Env.

Definition get_sms : M json :=
  c <- get_client ;;
  let SMS_GET_URL := box_url c ++ "/data.lua" in
  sid0 <- get_current_sid env ;;
  sms_response <-
    try_except_if is_request_exception
                  (requests_post env SMS_GET_URL (sms_list_form sid0) None)
                  (fun e => raise (Exn RuntimeError (exn_msg e) None)) ;;
  lift (messages_of sms_response).

Definition get_sms_incoming : M (list json) :=
  messages <- get_sms ;;
  items <- lift (py_iter messages) ;;
  lift (received_only items).

End Messages.

(** ** Further notions for stating properties *)

(** [m] keeps the invariant [I] of the client, and every call it makes
    satisfies [P]. *)
Definition holds (I : Client -> Prop) (P : Event -> bool) {A} (m : M A) : Prop :=
  forall st r st',
    I (client st) ->
    m st = (r, st') ->
    I (client st')
    /\ exists evs, trace st' = (evs ++ trace st)%list /\ forallb P evs = true.

(** What the constructor is given and no operation is meant to change. *)
Definition same_config (c c' : Client) : Prop :=
  rate c' = rate c /\ box_url c' = box_url c /\ username c' = username c
  /\ password c' = password c /\ totpsecret c' = totpsecret c.

(** A client that holds a session id also holds a deadline for it. *)
Definition deadline_set (c : Client) : Prop :=
  sid c <> None -> sid_timeout c <> None.

(** A call of the login endpoint: the GET for the login state or the POST
    of the response, the only POST that carries headers. *)
Definition is_login_call (e : Event) : bool :=
  match e with
  | EvGet _ => true
  | EvPost _ _ (Some _) => true
  | _ => false
  end.

Definition no_login_call (e : Event) : bool := negb (is_login_call e).

Definition anything (e : Event) : bool := true.

(** The session [s] is cached with a deadline of at least [horizon]. *)
Definition session_until (s : string) (horizon : Z) (c : Client) : Prop :=
  sid c = Some s /\ exists d, sid_timeout c = Some d /\ horizon <= d.

(** The send started in [st] passed the gate, obtained the session id
    [sid1], which left the client in [st2], and its first request was
    answered with [resp1]. *)
Definition first_answer (env : Env) (receiver message : string) (st : St)
           (sid1 : option string) (st2 : St) (resp1 : Response) : Prop :=
  exists st1,
    enforce_rate_limit env st = (Ok tt, st1)
    /\ get_current_sid env st1 = (Ok sid1, st2)
    /\ answered env st2 (apply_request receiver message st sid1) resp1.

(** Moreover the first answer had [apply] equal to ["ok"], no redirect but
    the identifier [uid], and the confirming request, sent under [sid2]
    from the state [st3], was answered with [resp2]. *)
Definition second_answer (env : Env) (receiver message : string) (st : St)
           (sid1 sid2 : option string) (uid : json) (st3 : St)
           (resp2 : Response) : Prop :=
  exists st2 items1,
    applied env receiver message st sid1 st2 items1
    /\ assoc "redirect" items1 = None
    /\ assoc "new_uid" items1 = Some uid
    /\ get_current_sid env (record (apply_request receiver message st sid1) st2)
       = (Ok sid2, st3)
    /\ answered env st3 (confirm_request receiver message st sid2 uid) resp2.

(** The message [i] has a [status_name] equal to ["received"]. *)
Definition is_received (i : json) : bool :=
  match py_getitem i "status_name" with
  | Ok status => json_is_str status "received"
  | Raise _ => false
  end.

(** The request for the message list. *)
Definition list_request (st : St) (sid0 : option string) : Event :=
  EvPost (data_url st) (sms_list_form sid0) None.

(** Messages for test environments. *)
Definition demo_message (id status : string) : json :=
  JObj [("id", JStr id); ("status_name", JStr status)].

Definition messages_answer (messages : list json) : Result Response :=
  data_answer [("smsListData", JObj [("messages", JArr messages)])].

(** * Properties *)

(** ** The monad *)

Lemma bind_ok {A B} (m : M A) (k : A -> M B) st a st' :
  m st = (Ok a, st') -> bind m k st = k a st'.
Proof. intros H. unfold bind. now rewrite H. Qed.

Lemma bind_raise {A B} (m : M A) (k : A -> M B) st e st' :
  m st = (Raise e, st') -> bind m k st = (Raise e, st').
Proof. intros H. unfold bind. now rewrite H. Qed.

Lemma bind_lift_ok {A B} (r : Result A) (k : A -> M B) st a :
  r = Ok a -> bind (lift r) k st = k a st.
Proof. intros ->. reflexivity. Qed.

Lemma bind_inv {A B} (m : M A) (k : A -> M B) st r st' :
  bind m k st = (r, st') ->
  (exists a st1, m st = (Ok a, st1) /\ k a st1 = (r, st'))
  \/ (exists e, m st = (Raise e, st') /\ r = Raise e).
Proof.
  unfold bind. destruct (m st) as [[a | e] st1]; intros H.
  - left. now exists a, st1.
  - right. injection H as <- <-. now exists e.
Qed.

(** ** Strings *)

Lemma py_split_lacks sep s : lacks sep s = true -> py_split sep s = [s].
Proof.
  induction s as [| c s IH]; simpl; [reflexivity |].
  intros H. apply andb_prop in H as [Hc Hs].
  apply negb_true_iff in Hc. rewrite Hc, (IH Hs). reflexivity.
Qed.

Lemma py_split_field sep a b :
  lacks sep a = true ->
  py_split sep (a ++ String sep b) = a :: py_split sep b.
Proof.
  induction a as [| c a IH]; simpl.
  - intros _. now rewrite Ascii.eqb_refl.
  - intros H. apply andb_prop in H as [Hc Ha].
    apply negb_true_iff in Hc. rewrite Hc, (IH Ha). reflexivity.
Qed.

Lemma py_split_challenge f1 f2 f3 f4 :
  lacks "$" f1 = true -> lacks "$" f2 = true ->
  lacks "$" f3 = true -> lacks "$" f4 = true ->
  py_split "$" (pbkdf2_challenge f1 f2 f3 f4) = ["2"; f1; f2; f3; f4].
Proof.
  intros H1 H2 H3 H4. unfold pbkdf2_challenge.
  change ("2$" ++ f1 ++ "$" ++ f2 ++ "$" ++ f3 ++ "$" ++ f4)
    with ("2" ++ String "$" (f1 ++ String "$" (f2 ++ String "$" (f3 ++ String "$" f4)))).
  rewrite py_split_field by reflexivity.
  rewrite !py_split_field by assumption.
  now rewrite py_split_lacks.
Qed.

Lemma hexdigit_hexval c :
  lower_hex_char c = true ->
  exists n, hexval c = Some n /\ (n < 16)%N /\ hexdigit n = c.
Proof.
  destruct c as [[] [] [] [] [] [] [] []]; intros H;
    try discriminate H; eexists; (split; [reflexivity | split; reflexivity]).
Qed.

Lemma byte_of_nibbles hi lo :
  (hi < 16)%N -> (lo < 16)%N ->
  let n := Byte.to_N (byte_of_ascii (ascii_of_N (16 * hi + lo))) in
  (n / 16 = hi /\ n mod 16 = lo)%N.
Proof.
  intros Hhi Hlo.
  assert (Hn : Byte.to_N (byte_of_ascii (ascii_of_N (16 * hi + lo)))
               = (16 * hi + lo)%N).
  { assert (E : forall k, (k < 256)%N ->
                          Byte.to_N (byte_of_ascii (ascii_of_N k)) = k).
    { intros k Hk. rewrite <- (N_ascii_embedding k) at 2 by exact Hk.
      generalize (ascii_of_N k). intros a.
      destruct a as [[] [] [] [] [] [] [] []]; reflexivity. }
    apply E. lia. }
  cbv zeta. rewrite Hn. split.
  - rewrite N.mul_comm, N.div_add_l by discriminate.
    rewrite (N.div_small lo 16) by exact Hlo. lia.
  - rewrite N.add_comm, N.mul_comm, N.Div0.mod_add.
    now apply N.mod_small.
Qed.

Lemma fromhex_pair a b r :
  fromhex (String a (String b r)) =
  if is_hexspace a then fromhex (String b r)
  else match hexval a with
       | Some hi =>
           match hexval b with
           | Some lo =>
               match fromhex r with
               | Ok bs => Ok (byte_of_ascii (ascii_of_N (16 * hi + lo)) :: bs)
               | Raise e => Raise e
               end
           | None => Raise fromhex_error
           end
       | None => Raise fromhex_error
       end.
Proof. reflexivity. Qed.

Lemma hex_cons b bs :
  hex (b :: bs) =
  String (hexdigit (Byte.to_N b / 16)) (String (hexdigit (Byte.to_N b mod 16)) (hex bs)).
Proof. reflexivity. Qed.

(** Lower-case hexadecimal text is what [hex] gives back for the bytes it
    denotes. *)
Lemma hex_fromhex s bs :
  lower_hex s = true -> fromhex s = Ok bs -> hex bs = s.
Proof.
  remember (String.length s) as n eqn:Hn. revert s bs Hn.
  induction n as [n IH] using lt_wf_ind. intros s bs Hn Hlow Hfrom.
  destruct s as [| a [| b r]].
  - injection Hfrom as <-. reflexivity.
  - simpl in Hlow. apply andb_prop in Hlow as [Ha _].
    destruct (hexdigit_hexval a Ha) as (hi & Ehi & _ & _).
    simpl in Hfrom. rewrite Ehi in Hfrom.
    destruct (is_hexspace a) eqn:Es.
    + destruct a as [[] [] [] [] [] [] [] []]; discriminate.
    + discriminate.
  - simpl in Hlow. apply andb_prop in Hlow as [Ha Hlow].
    apply andb_prop in Hlow as [Hb Hr].
    destruct (hexdigit_hexval a Ha) as (hi & Ehi & Hhi & Da).
    destruct (hexdigit_hexval b Hb) as (lo & Elo & Hlo & Db).
    assert (Es : is_hexspace a = false).
    { destruct a as [[] [] [] [] [] [] [] []]; try reflexivity; discriminate. }
    rewrite fromhex_pair, Es, Ehi, Elo in Hfrom.
    destruct (fromhex r) as [bs' |] eqn:Er; [| discriminate].
    assert (Ebs : bs = byte_of_ascii (ascii_of_N (16 * hi + lo)) :: bs')
      by congruence.
    subst bs. rewrite hex_cons. destruct (byte_of_nibbles hi lo Hhi Hlo) as [E1 E2].
    cbv zeta in E1, E2. rewrite E1, E2.
    rewrite Da, Db. f_equal. f_equal.
    apply (IH (String.length r)); [subst n; simpl; lia | reflexivity | exact Hr | exact Er].
Qed.

(** ** Reading numbers *)

Lemma is_space_ascii c : is_space c = true -> (N_of_ascii c <? 128)%N = true.
Proof. destruct c as [[] [] [] [] [] [] [] []]; intros H; try reflexivity; discriminate H. Qed.

Lemma lstrip_ascii s : is_ascii (lstrip s) = true -> is_ascii s = true.
Proof.
  induction s as [| c s IH]; [reflexivity |]. cbn [lstrip].
  destruct (is_space c) eqn:Hc; [| exact (fun H => H)].
  intros H. cbn [is_ascii]. now rewrite (is_space_ascii c Hc), (IH H).
Qed.

Lemma rstrip_ascii s : is_ascii (rstrip s) = true -> is_ascii s = true.
Proof.
  induction s as [| c s IH]; [reflexivity |]. cbn [rstrip is_ascii].
  destruct (rstrip s) as [| c' r].
  - destruct (is_space c) eqn:Hc; intros H.
    + now rewrite (is_space_ascii c Hc), IH.
    + cbn [is_ascii] in H. apply andb_prop in H as [Hc' _]. now rewrite Hc', IH.
  - intros H. change (is_ascii (String c (String c' r)))
      with ((N_of_ascii c <? 128)%N && is_ascii (String c' r)) in H.
    apply andb_prop in H as [Hc Hr]. now rewrite Hc, (IH Hr).
Qed.

Lemma leading_run_ascii s : is_ascii (leading_run s) = true.
Proof.
  induction s as [| c s IH]; [reflexivity |]. cbn [leading_run].
  destruct (digit_of c) eqn:Hd.
  - cbn [is_ascii]. rewrite IH, andb_true_r.
    destruct c as [[] [] [] [] [] [] [] []]; try reflexivity; discriminate Hd.
  - destruct (Ascii.eqb c "_") eqn:Hu; [| reflexivity].
    apply Ascii.eqb_eq in Hu. subst c. cbn [is_ascii]. now rewrite IH.
Qed.

Lemma split_sign_ascii body negative ds :
  split_sign body = (negative, ds) -> is_ascii ds = true -> is_ascii body = true.
Proof.
  destruct body as [| c r]; cbn [split_sign].
  - intros H. now injection H as _ <-.
  - destruct (Ascii.eqb c "-") eqn:Hm.
    + apply Ascii.eqb_eq in Hm. subst c. intros H. injection H as _ <-.
      intros Hr. cbn [is_ascii]. now rewrite Hr.
    + destruct (Ascii.eqb c "+") eqn:Hp.
      * apply Ascii.eqb_eq in Hp. subst c. intros H. injection H as _ <-.
        intros Hr. cbn [is_ascii]. now rewrite Hr.
      * intros H. now injection H as _ <-.
Qed.

(** A string [py_int] accepts has no character outside ASCII, so [int]
    reads it without the Unicode tables. *)
Lemma py_int_in_ok env s n : py_int s = Ok n -> py_int_in env s = Ok n.
Proof.
  intros H. unfold py_int_in.
  assert (Ha : is_ascii s = true); [| now rewrite Ha].
  unfold py_int in H.
  destruct (split_sign (strip s)) as [negative ds] eqn:Hsign.
  destruct (digits_value 0 false (leading_run ds)); [| discriminate].
  destruct (MAX_STR_DIGITS <? digit_count (leading_run ds)); [discriminate |].
  destruct (String.eqb (leading_run ds) ds) eqn:Hrun; [| discriminate].
  apply String.eqb_eq in Hrun.
  apply lstrip_ascii, rstrip_ascii.
  apply (split_sign_ascii _ _ _ Hsign). rewrite <- Hrun. apply leading_run_ascii.
Qed.

Lemma py_int_raises s e : py_int s = Raise e -> exn_cls e = ValueError.
Proof.
  unfold py_int. destruct (split_sign (strip s)) as [negative ds].
  destruct (digits_value 0 false (leading_run ds));
    [| intros H; now injection H as <-].
  destruct (MAX_STR_DIGITS <? digit_count (leading_run ds));
    [intros H; now injection H as <- |].
  destruct (String.eqb (leading_run ds) ds); [discriminate |].
  intros H; now injection H as <-.
Qed.

Lemma py_int_in_raises env s e : py_int_in env s = Raise e -> exn_cls e = ValueError.
Proof.
  unfold py_int_in. destruct (is_ascii s); [apply py_int_raises |].
  destruct (env_int_unicode env s); [discriminate | |];
    intros H; now injection H as <-.
Qed.

(** ** Challenge response *)

Section ChallengeResponse.

Variable env : Env.

(** The response to a well-formed challenge, computed step by step. *)
Lemma calculate_pbkdf2_response_run st f1 f2 f3 f4 iter1 salt1 iter2 salt2
      hash1 hash2 :
  py_split "$" (pbkdf2_challenge f1 f2 f3 f4) = ["2"; f1; f2; f3; f4] ->
  py_int f1 = Ok iter1 -> fromhex f2 = Ok salt1 ->
  py_int f3 = Ok iter2 -> fromhex f4 = Ok salt2 ->
  env_pbkdf2 env (encode (password (client st))) salt1 iter1 = Ok hash1 ->
  env_pbkdf2 env hash1 salt2 iter2 = Ok hash2 ->
  calculate_pbkdf2_response env (pbkdf2_challenge f1 f2 f3 f4) st =
  (Ok (f4 ++ "$" ++ hex hash2),
   mkSt (client st)
        (EvPbkdf2 hash1 salt2 iter2
           :: EvPbkdf2 (encode (password (client st))) salt1 iter1
           :: trace st)).
Proof.
  intros Hs H1 H2 H3 H4 Hh1 Hh2.
  unfold calculate_pbkdf2_response. rewrite Hs.
  cbn [py_index nth_error].
  rewrite (bind_lift_ok _ _ _ _ eq_refl),
    (bind_lift_ok _ _ _ _ (py_int_in_ok env _ _ H1)).
  rewrite (bind_lift_ok _ _ _ _ eq_refl), (bind_lift_ok _ _ _ _ H2).
  rewrite (bind_lift_ok _ _ _ _ eq_refl),
    (bind_lift_ok _ _ _ _ (py_int_in_ok env _ _ H3)).
  rewrite (bind_lift_ok _ _ _ _ eq_refl), (bind_lift_ok _ _ _ _ H4).
  unfold bind, get_client, pbkdf2_hmac_sha256, lift, ret.
  cbn [record client trace]. rewrite Hh1. cbn [record client trace].
  rewrite Hh2. reflexivity.
Qed.

End ChallengeResponse.

(** C2, as amended: for a challenge ["2$f1$f2$f3$f4"] whose fields read as
    [iter1], [salt1], [iter2] and [salt2], the response is the field [f4] as
    the device wrote it, then ["$"], then the lower-case hexadecimal text of
    [hash2], where [hash1] is PBKDF2 of the password under [salt1] and
    [hash2] is PBKDF2 of [hash1] under [salt2].  The computation only calls
    the hash function twice and leaves the client as it was.  The echoed
    field is [hex salt2] when it is written in lower-case digits. *)
Theorem calculate_pbkdf2_response_value env st f1 f2 f3 f4 iter1 salt1 iter2
        salt2 hash1 hash2 :
  lacks "$" f1 = true -> lacks "$" f2 = true ->
  lacks "$" f3 = true -> lacks "$" f4 = true ->
  py_int f1 = Ok iter1 -> fromhex f2 = Ok salt1 ->
  py_int f3 = Ok iter2 -> fromhex f4 = Ok salt2 ->
  env_pbkdf2 env (encode (password (client st))) salt1 iter1 = Ok hash1 ->
  env_pbkdf2 env hash1 salt2 iter2 = Ok hash2 ->
  calculate_pbkdf2_response env (pbkdf2_challenge f1 f2 f3 f4) st =
  (Ok (f4 ++ "$" ++ hex hash2),
   mkSt (client st)
        (EvPbkdf2 hash1 salt2 iter2
           :: EvPbkdf2 (encode (password (client st))) salt1 iter1
           :: trace st))
  /\ (lower_hex f4 = true -> f4 = hex salt2).
Proof.
  intros L1 L2 L3 L4 H1 H2 H3 H4 Hh1 Hh2. split.
  - apply calculate_pbkdf2_response_run with (salt2 := salt2); auto.
    now apply py_split_challenge.
  - intros Hlow. symmetry. now apply hex_fromhex.
Qed.

Lemma calculate_pbkdf2_response_value_witness :
  calculate_pbkdf2_response (mock_env [] [] [])
                            (pbkdf2_challenge "60000" "ab01" "6000" "cd02")
                            (mkSt demo_client []) =
  (Ok ("cd02" ++ "$" ++ hex [xcd; x02; xab; x01; x73; x65; x63; x72; x65; x74]),
   mkSt demo_client
        [EvPbkdf2 [xab; x01; x73; x65; x63; x72; x65; x74] [xcd; x02] 6000;
         EvPbkdf2 (encode "secret") [xab; x01] 60000])
  /\ (lower_hex "cd02" = true -> "cd02" = hex [xcd; x02]).
Proof.
  apply (calculate_pbkdf2_response_value
           (mock_env [] [] []) (mkSt demo_client [])
           "60000" "ab01" "6000" "cd02" 60000 [xab; x01] 6000 [xcd; x02]);
    reflexivity.
Defined.

(** C2, as stated, fails: the device may write the second salt in upper
    case.  The response then starts with the field as written (["CD"]),
    not with the hexadecimal text of the salt's bytes (["cd"]). *)
Lemma calculate_pbkdf2_response_upper_case_salt :
  fromhex "CD" = Ok [xcd]
  /\ toy_pbkdf2 (encode "secret") [xab] 1 = Ok [xab; x73; x65; x63; x72; x65; x74]
  /\ toy_pbkdf2 [xab; x73; x65; x63; x72; x65; x74] [xcd] 1
     = Ok [xcd; xab; x73; x65; x63; x72; x65; x74]
  /\ fst (calculate_pbkdf2_response (mock_env [] [] [])
                                    (pbkdf2_challenge "1" "AB" "1" "CD")
                                    (mkSt demo_client []))
     = Ok "CD$cdab736563726574"
  /\ hex [xcd] ++ "$" ++ hex [xcd; xab; x73; x65; x63; x72; x65; x74]
     = "cd$cdab736563726574"
  /\ fst (calculate_pbkdf2_response (mock_env [] [] [])
                                    (pbkdf2_challenge "1" "AB" "1" "CD")
                                    (mkSt demo_client []))
     <> Ok (hex [xcd] ++ "$" ++ hex [xcd; xab; x73; x65; x63; x72; x65; x74]).
Proof.
  repeat split; try reflexivity. vm_compute. discriminate.
Qed.

(** ** Authentication *)

Section Authentication.

Variable env : Env.

(** Fetching the login state is one GET, whatever comes back. *)
Lemma get_login_state_state st :
  snd (get_login_state env st) = record (EvGet (login_url st)) st.
Proof.
  unfold get_login_state, bind, get_client, requests_get, lift, login_url.
  cbn [record client trace].
  destruct (env_get env (trace st) _) as [resp |]; [| reflexivity].
  destruct (fromstring resp); [| reflexivity].
  destruct (find_text "Challenge" _); [| reflexivity].
  destruct (find_text "BlockTime" _); [| reflexivity].
  destruct (py_int_text _); reflexivity.
Qed.

Lemma get_login_state_is_pbkdf2 st ls st1 :
  get_login_state env st = (Ok ls, st1) ->
  is_pbkdf2 ls = startswith (challenge ls) "2$".
Proof.
  unfold get_login_state, bind, get_client, requests_get, lift.
  destruct (env_get env (trace st) _) as [resp |]; [| discriminate].
  destruct (fromstring resp); [| discriminate].
  destruct (find_text "Challenge" _) as [[c |] |]; try discriminate;
    destruct (find_text "BlockTime" _); try discriminate;
    destruct (py_int_text _); try discriminate.
  cbn [LoginState_init]. intros H. injection H as <- _. reflexivity.
Qed.

(** Submitting the response is one POST; its answer decides the result. *)
Lemma send_response_run cr st :
  send_response env cr st =
  (match env_post env (trace st) (login_url st)
                   [("username", JStr (username (client st))); ("response", JStr cr)]
                   (Some [("Content-Type", "application/x-www-form-urlencoded")])
   with
   | Ok resp =>
       match fromstring resp with
       | Ok xml => find_text "SID" xml
       | Raise e => Raise e
       end
   | Raise e => Raise e
   end,
   record (EvPost (login_url st)
                  [("username", JStr (username (client st))); ("response", JStr cr)]
                  (Some [("Content-Type", "application/x-www-form-urlencoded")]))
          st).
Proof.
  unfold send_response, bind, get_client, requests_post, lift, login_url.
  destruct (env_post env (trace st) _ _ _) as [resp |]; [| reflexivity].
  destruct (fromstring resp); reflexivity.
Qed.

(** Computing the response touches nothing but the hash function. *)
Lemma calculate_pbkdf2_response_events c st r st' :
  calculate_pbkdf2_response env c st = (r, st') ->
  client st' = client st
  /\ exists evs, trace st' = (evs ++ trace st)%list
                 /\ forallb is_hash evs = true
                 /\ (is_ok r = true -> List.length evs = 2%nat).
Proof.
  unfold calculate_pbkdf2_response, bind, lift, get_client, pbkdf2_hmac_sha256, ret.
  repeat match goal with
         | |- context [match ?x with Ok _ => _ | Raise _ => _ end] =>
             destruct x
         end;
    intros H; injection H as <- <-; cbn [record client trace];
    (split; [reflexivity |]);
    first [ exists []; repeat split; (reflexivity || discriminate)
          | eexists [_]; repeat split; (reflexivity || discriminate)
          | eexists [_; _]; repeat split; (reflexivity || discriminate) ].
Qed.

(** The authentication exchange, phase by phase. *)
Lemma get_sid_unfold st :
  _get_sid env st =
  match get_login_state env st with
  | (Raise e, st1) => (Raise (failed_to_get_challenge e), st1)
  | (Ok ls, st1) =>
      if is_pbkdf2 ls then
        match calculate_pbkdf2_response env (challenge ls) st1 with
        | (Raise e, st2) => (Raise e, st2)
        | (Ok cr, st2) =>
            match cooldown_result ls with
            | Raise e => (Raise e, cooldown ls st2)
            | Ok _ =>
                match send_response env cr (cooldown ls st2) with
                | (Raise e, st3) => (Raise (failed_to_login e), st3)
                | (Ok s, st3) => (check_session s, st3)
                end
            end
        end
      else (Raise no_pbkdf2_support, st1)
  end.
Proof.
  unfold _get_sid, bind, try_except, raise, ret, cooldown, cooldown_result,
    check_session.
  destruct (get_login_state env st) as [[ls | e] st1]; [| reflexivity].
  destruct (is_pbkdf2 ls); [| reflexivity].
  destruct (calculate_pbkdf2_response env (challenge ls) st1) as [[cr | e] st2];
    [| reflexivity].
  unfold time_sleep.
  destruct (0 <? blocktime ls);
    [destruct (sleep_result (blocktime ls)) as [[] | e]; [| reflexivity] |];
    destruct (send_response env cr _) as [[[s |] | e] st3]; try reflexivity;
    destruct (String.eqb s NO_SESSION); reflexivity.
Qed.

End Authentication.

(** C3: when the device's challenge does not start with ["2$"], the
    authentication exchange ends with the exception that reports the
    missing PBKDF2 support, and the login-state request is the only call it
    has made: nothing was hashed and nothing was submitted. *)
Theorem get_sid_unsupported_challenge env st ls st1 :
  get_login_state env st = (Ok ls, st1) ->
  startswith (challenge ls) "2$" = false ->
  _get_sid env st = (Raise no_pbkdf2_support, st1)
  /\ st1 = record (EvGet (login_url st)) st
  /\ count is_hash (trace st1) = count is_hash (trace st).
Proof.
  intros Hls Hstart.
  rewrite get_sid_unfold, Hls.
  rewrite (get_login_state_is_pbkdf2 env st ls st1 Hls), Hstart.
  pose proof (get_login_state_state env st) as Hst. rewrite Hls in Hst.
  cbn [snd] in Hst. subst st1. repeat split.
Qed.

Lemma get_sid_unsupported_challenge_witness :
  let env := mock_env [] [login_state_answer "1234567z-abc" "0"] [] in
  let st := mkSt demo_client [] in
  let st1 := record (EvGet "http://fritz.box/login_sid.lua?version=2") st in
  _get_sid env st = (Raise no_pbkdf2_support, st1)
  /\ st1 = record (EvGet (login_url st)) st
  /\ count is_hash (trace st1) = count is_hash (trace st).
Proof.
  intros env st st1.
  apply (get_sid_unsupported_challenge env st (mkLoginState "1234567z-abc" 0 false));
    reflexivity.
Defined.

(** C4: when the answer to the login submission carries the session id of
    sixteen zeros, the authentication exchange ends with the exception for
    wrong credentials, which differs from those for a failed challenge
    fetch, a failed submission and an unsupported challenge; and no
    exchange ever returns the sixteen zeros as a session id. *)
Theorem get_sid_null_session env st r st' url data hdrs h resp xml :
  _get_sid env st = (r, st') ->
  trace st' = EvPost url data hdrs :: h ->
  env_post env h url data hdrs = Ok resp ->
  resp_xml resp = Some xml ->
  assoc "SID" xml = Some (Some NO_SESSION) ->
  r = Raise wrong_credentials
  /\ (forall e, wrong_credentials <> failed_to_login e)
  /\ (forall e, wrong_credentials <> failed_to_get_challenge e)
  /\ wrong_credentials <> no_pbkdf2_support
  /\ (forall st0 st0', _get_sid env st0 <> (Ok (Some NO_SESSION), st0')).
Proof.
  intros Hrun Htr Hpost Hxml Hsid.
  split; [| repeat split; try discriminate].
  - rewrite get_sid_unfold in Hrun.
    pose proof (get_login_state_state env st) as Hst.
    destruct (get_login_state env st) as [[ls | e] st1]; cbn [snd] in Hst.
    2:{ injection Hrun as <- <-. subst st1. discriminate Htr. }
    destruct (is_pbkdf2 ls).
    2:{ injection Hrun as <- <-. subst st1. discriminate Htr. }
    destruct (calculate_pbkdf2_response env (challenge ls) st1) as [[cr | e] st2] eqn:Hcalc.
    2:{ injection Hrun as <- <-.
        destruct (calculate_pbkdf2_response_events env _ _ _ _ Hcalc)
          as (_ & evs & Hevs & Hhash & _).
        rewrite Hevs in Htr. subst st1.
        destruct evs as [| e' evs]; [discriminate Htr |].
        cbn in Hhash. apply andb_prop in Hhash as [Hh _].
        injection Htr as -> _. discriminate Hh. }
    destruct (cooldown_result ls) as [[] | e] eqn:Hcool.
    2:{ injection Hrun as <- <-. unfold cooldown_result in Hcool.
        unfold cooldown in Htr.
        destruct (0 <? blocktime ls); [discriminate Htr | discriminate Hcool]. }
    destruct (send_response env cr (cooldown ls st2)) as [res st3] eqn:Hsend.
    rewrite send_response_run in Hsend.
    injection Hsend as Hres Hst3.
    assert (Hst' : st' = st3) by (destruct res; congruence).
    subst st' st3. cbn [record trace] in Htr.
    injection Htr as <- <- <- <-.
    rewrite Hpost in Hres. unfold fromstring, find_text in Hres.
    rewrite Hxml, Hsid in Hres. subst res.
    cbn [check_session] in Hrun. rewrite String.eqb_refl in Hrun.
    congruence.
  - intros st0 st0' Hrun0. rewrite get_sid_unfold in Hrun0.
    destruct (get_login_state env st0) as [[ls | e] st1]; [| discriminate].
    destruct (is_pbkdf2 ls); [| discriminate].
    destruct (calculate_pbkdf2_response env _ st1) as [[cr | e] st2];
      [| discriminate].
    destruct (cooldown_result ls); [| discriminate].
    destruct (send_response env cr _) as [[[s |] | e] st3]; try discriminate.
    cbn [check_session] in Hrun0.
    destruct (String.eqb s NO_SESSION) eqn:E; [discriminate |].
    assert (Es : s = NO_SESSION) by congruence.
    subst s. discriminate E.
Qed.

Lemma get_sid_null_session_witness :
  let env := mock_env [] [login_state_answer "2$1$ab$1$cd" "3"]
                      [session_answer (Some NO_SESSION)] in
  fst (_get_sid env (mkSt demo_client [])) = Raise wrong_credentials
  /\ (forall e, wrong_credentials <> failed_to_login e)
  /\ (forall e, wrong_credentials <> failed_to_get_challenge e)
  /\ wrong_credentials <> no_pbkdf2_support
  /\ (forall st0 st0', _get_sid env st0 <> (Ok (Some NO_SESSION), st0')).
Proof.
  intros env.
  apply (get_sid_null_session
           env (mkSt demo_client []) _ (snd (_get_sid env (mkSt demo_client [])))
           "http://fritz.box/login_sid.lua?version=2"
           [("username", JStr "smsuser"); ("response", JStr "cd$cdab736563726574")]
           (Some [("Content-Type", "application/x-www-form-urlencoded")])
           [EvSleep 3;
            EvPbkdf2 [xab; x73; x65; x63; x72; x65; x74] [xcd] 1;
            EvPbkdf2 (encode "secret") [xab] 1;
            EvGet "http://fritz.box/login_sid.lua?version=2"]
           (xml_response [("SID", Some NO_SESSION); ("BlockTime", Some "0")])
           [("SID", Some NO_SESSION); ("BlockTime", Some "0")]);
    reflexivity.
Defined.

(** ** Session renewal *)

Lemma count_app f (a b : list Event) :
  count f (a ++ b)%list = (count f a + count f b)%nat.
Proof. unfold count. now rewrite filter_app, length_app. Qed.

Lemma count_rev f (l : list Event) : count f (rev l) = count f l.
Proof.
  induction l as [| e l IH]; [reflexivity |].
  cbn [rev]. rewrite count_app, IH. unfold count. cbn [filter].
  destruct (f e); cbn [List.length]; lia.
Qed.

Lemma count_none f (l : list Event) :
  forallb (fun e => negb (f e)) l = true -> count f l = 0%nat.
Proof.
  induction l as [| e l IH]; [reflexivity |].
  cbn [forallb]. intros H. apply andb_prop in H as [He Hl].
  unfold count in *. cbn [filter]. apply negb_true_iff in He. rewrite He.
  now apply IH.
Qed.

Lemma hashes_are_no_requests (l : list Event) :
  forallb is_hash l = true -> count is_get l = 0%nat /\ count is_post l = 0%nat.
Proof.
  intros H. split; apply count_none; rewrite forallb_forall in *; intros e He;
    specialize (H e He); destruct e; try discriminate; reflexivity.
Qed.

Section Renewal.

Variable env : Env.

(** What [get_current_sid] does, by the state of the session. *)
Lemma get_current_sid_unfold st :
  get_current_sid env st =
  match sid (client st) with
  | None => renew env st
  | Some s =>
      match sid_timeout (client st) with
      | Some deadline =>
          if deadline <? env_time env (trace st)
          then renew env (record EvTime st)
          else (Ok (Some s), stamp env (record EvTime st))
      | None =>
          (Raise (Exn TypeError
                      [Lit "'>' not supported between instances of 'float' and 'NoneType'"]
                      None),
           record EvTime st)
      end
  end.
Proof.
  unfold get_current_sid, renew, stamp, bind, get_client, time_time, ret,
    raise, update_client.
  destruct (sid (client st)) as [s |] eqn:Hs.
  - destruct (sid_timeout (client st)) as [d |]; [| reflexivity].
    destruct (d <? env_time env (trace st)).
    + destruct (_get_sid env _) as [[s' | e] st2]; reflexivity.
    + cbn [record with_sid_timeout sid client trace]. now rewrite Hs.
  - destruct (_get_sid env _) as [[s' | e] st2]; reflexivity.
Qed.

(** One authentication exchange: the login-state request first, then
    hashing, a cool-down and the submission, as far as it gets. *)
Lemma get_sid_exchange st r st' :
  _get_sid env st = (r, st') ->
  client st' = client st
  /\ exists evs, issued st st' (EvGet (login_url st) :: evs)
                 /\ count is_get evs = 0%nat
                 /\ (count is_post evs <= 1)%nat
                 /\ (is_ok r = true -> count is_post evs = 1%nat).
Proof.
  intros Hrun. rewrite get_sid_unfold in Hrun.
  pose proof (get_login_state_state env st) as Hst.
  destruct (get_login_state env st) as [[ls | e] st1]; cbn [snd] in Hst.
  2:{ injection Hrun as <- <-. subst st1. split; [reflexivity |].
      exists []. repeat split; try reflexivity; try discriminate. cbn; lia. }
  destruct (is_pbkdf2 ls).
  2:{ injection Hrun as <- <-. subst st1. split; [reflexivity |].
      exists []. repeat split; try reflexivity; try discriminate. cbn; lia. }
  destruct (calculate_pbkdf2_response env (challenge ls) st1)
    as [[cr | e] st2] eqn:Hcalc;
    destruct (calculate_pbkdf2_response_events env _ _ _ _ Hcalc)
      as (Hc & hs & Hhs & Hhash & _);
    destruct (hashes_are_no_requests hs Hhash) as [Hg Hp].
  2:{ injection Hrun as <- <-. subst st1. split; [exact Hc |].
      exists (rev hs). unfold issued. cbn [rev]. rewrite rev_involutive, Hhs.
      rewrite <- app_assoc. rewrite !count_rev.
      repeat split; try reflexivity; try discriminate; lia. }
  assert (Hcool : exists p, trace (cooldown ls st2) = (p ++ trace st2)%list
                            /\ client (cooldown ls st2) = client st2
                            /\ count is_get p = 0%nat /\ count is_post p = 0%nat).
  { unfold cooldown. destruct (0 <? blocktime ls).
    - exists [EvSleep (blocktime ls)]. repeat split.
    - exists []. repeat split. }
  destruct Hcool as (p & Hp1 & Hp2 & Hpg & Hpp).
  destruct (cooldown_result ls) as [[] | e].
  2:{ injection Hrun as <- <-. subst st1. cbn [record client trace] in *.
      split; [congruence |].
      exists (rev hs ++ rev p)%list. unfold issued. cbn [rev].
      rewrite !rev_app_distr, !rev_involutive. rewrite Hp1, Hhs.
      rewrite <- !app_assoc. cbn [app].
      rewrite !count_app, !count_rev, Hg, Hp, Hpg, Hpp.
      repeat split; try reflexivity; try discriminate; cbn; lia. }
  destruct (send_response env cr (cooldown ls st2)) as [res st3] eqn:Hsend.
  rewrite send_response_run in Hsend. injection Hsend as _ Hst3.
  assert (Hst' : st' = st3) by (destruct res; congruence).
  subst st' st3 st1.
  cbn [record client trace] in *. split; [congruence |].
  eexists (rev hs ++ rev p ++ [EvPost _ _ _])%list.
  unfold issued. cbn [rev]. rewrite !rev_app_distr, !rev_involutive.
  cbn [rev app record trace]. rewrite Hp1, Hhs.
  rewrite <- !app_assoc. cbn [app].
  rewrite !count_app, !count_rev, Hg, Hp, Hpg, Hpp.
  repeat split; cbn; lia.
Qed.

End Renewal.

(** C1, as amended: with a session id cached, a call of [get_current_sid]
    made while the clock has not passed the stored deadline returns the
    cached id without an authentication exchange; a call made after the
    deadline performs exactly one exchange (one login-state request and at
    most one submission).  Every call that returns, renewing or not, moves
    the deadline to nineteen minutes after the clock reading it takes at
    its end. *)
Theorem get_current_sid_renewal env st s deadline r st' :
  sid (client st) = Some s ->
  sid_timeout (client st) = Some deadline ->
  get_current_sid env st = (r, st') ->
  (env_time env (trace st) <= deadline ->
   r = Ok (Some s)
   /\ issued st st' [EvTime; EvTime]
   /\ sid (client st') = Some s
   /\ sid_timeout (client st') = Some (env_time env (EvTime :: trace st) + 19 * 60))
  /\ (deadline < env_time env (trace st) ->
      exists evs,
        issued st st' (EvTime :: evs)
        /\ count is_get evs = 1%nat
        /\ (count is_post evs <= 1)%nat
        /\ (forall s', r = Ok s' ->
              count is_post evs = 1%nat
              /\ sid (client st') = s'
              /\ exists older,
                  trace st' = EvTime :: older
                  /\ sid_timeout (client st') = Some (env_time env older + 19 * 60))).
Proof.
  intros Hs Hd Hrun. rewrite get_current_sid_unfold, Hs, Hd in Hrun.
  destruct (deadline <? env_time env (trace st)) eqn:Hlt.
  - apply Z.ltb_lt in Hlt. split; [lia |]. intros _.
    unfold renew in Hrun.
    destruct (_get_sid env (record EvTime st)) as [[s1 | e] st1] eqn:Hg;
      destruct (get_sid_exchange env _ _ _ Hg) as (Hc & evs & Hiss & Hget & Hle & Hok);
      injection Hrun as <- <-; unfold issued in Hiss; cbn [rev record trace] in Hiss.
    + exists (EvGet (login_url (record EvTime st)) :: evs ++ [EvTime])%list.
      unfold issued, stamp. cbn [rev client trace]. rewrite Hiss.
      rewrite !rev_app_distr. cbn [rev app]. rewrite <- !app_assoc. cbn [app].
      split; [reflexivity |].
      change (EvGet (login_url (record EvTime st)) :: evs ++ [EvTime])%list
        with ([EvGet (login_url (record EvTime st))] ++ evs ++ [EvTime])%list.
      rewrite !count_app, Hget, (Hok eq_refl).
      repeat split; try (cbn; lia).
      * cbn [sid with_sid_timeout with_sid]. congruence.
      * eexists. split; reflexivity.
    + exists (EvGet (login_url (record EvTime st)) :: evs).
      unfold issued. cbn [rev]. rewrite Hiss, <- !app_assoc. cbn [app].
      split; [reflexivity |].
      change (EvGet (login_url (record EvTime st)) :: evs)
        with ([EvGet (login_url (record EvTime st))] ++ evs)%list.
      rewrite !count_app, Hget.
      repeat split; try (cbn; lia); discriminate.
  - apply Z.ltb_ge in Hlt. split; [| lia]. intros _.
    injection Hrun as <- <-. unfold stamp, issued.
    cbn [record client trace with_sid_timeout sid sid_timeout rev app].
    repeat split. exact Hs.
Qed.

Lemma get_current_sid_renewal_witness :
  let env := mock_env [600; 601] [] [] in
  let st := mkSt (logged_in 1140) [] in
  let st' := mkSt (logged_in (601 + 19 * 60)) [EvTime; EvTime] in
  (env_time env (trace st) <= 1140 ->
   Ok (Some demo_sid) = Ok (Some demo_sid)
   /\ issued st st' [EvTime; EvTime]
   /\ sid (client st') = Some demo_sid
   /\ sid_timeout (client st') = Some (env_time env (EvTime :: trace st) + 19 * 60))
  /\ (1140 < env_time env (trace st) ->
      exists evs,
        issued st st' (EvTime :: evs)
        /\ count is_get evs = 1%nat
        /\ (count is_post evs <= 1)%nat
        /\ (forall s', Ok (Some demo_sid) = Ok s' ->
              count is_post evs = 1%nat
              /\ sid (client st') = s'
              /\ exists older,
                  trace st' = EvTime :: older
                  /\ sid_timeout (client st') = Some (env_time env older + 19 * 60))).
Proof.
  intros env st st'.
  apply (get_current_sid_renewal env st demo_sid 1140); reflexivity.
Defined.

(** C1, as stated, fails.  The session is authenticated at time 0.  A call
    at time 600 re-uses it and nevertheless moves the deadline from 1140 to
    1740; a call at time 1200, past the nineteen-minute mark of the
    authentication, therefore re-uses the session too and starts no
    authentication exchange. *)
Lemma get_current_sid_deadline_slides :
  let env := mock_env [0; 600; 600; 1200; 1200]
                      [login_state_answer "2$1$ab$1$cd" "0"]
                      [session_answer (Some demo_sid)] in
  let run1 := get_current_sid env (mkSt demo_client []) in
  let run2 := get_current_sid env (snd run1) in
  let run3 := get_current_sid env (snd run2) in
  fst run1 = Ok (Some demo_sid)
  /\ sid_timeout (client (snd run1)) = Some (0 + 19 * 60)
  /\ env_time env (trace (snd run1)) = 600
  /\ fst run2 = Ok (Some demo_sid)
  /\ issued (snd run1) (snd run2) [EvTime; EvTime]
  /\ sid_timeout (client (snd run2)) = Some (600 + 19 * 60)
  /\ env_time env (trace (snd run2)) = 1200
  /\ 0 + 19 * 60 < 1200
  /\ fst run3 = Ok (Some demo_sid)
  /\ issued (snd run2) (snd run3) [EvTime; EvTime]
  /\ count is_network (trace (snd run3)) = count is_network (trace (snd run1)).
Proof.
  cbv zeta. repeat split.
Qed.

(** ** Construction *)

(** The constructor is one call of [get_current_sid] on a client without a
    session: it runs the authentication exchange at once and passes on
    whatever the exchange raises. *)
Lemma FBSMSLib_init_run env url user pw secret rate0 tr :
  let self :=
    mkClient (match rate0 with Some r => [r] | None => [mkRate 10 Duration_HOUR] end)
             url user pw secret None None in
  FBSMSLib_init env url user pw secret rate0 tr =
  match _get_sid env (mkSt self tr) with
  | (Ok s, st') =>
      (Ok (with_sid_timeout (Some (env_time env (trace st') + 19 * 60))
                            (with_sid s (client st'))),
       EvTime :: trace st')
  | (Raise e, st') => (Raise e, trace st')
  end.
Proof.
  intros self. unfold FBSMSLib_init. fold self.
  rewrite get_current_sid_unfold. cbn [client sid self]. unfold renew.
  destruct (_get_sid env (mkSt self tr)) as [[s | e] st']; reflexivity.
Qed.

(** C10 at a device whose answer to the login submission has an empty
    [SID] element: the constructor returns normally, and the client it
    returns holds no session id. *)
Lemma FBSMSLib_init_empty_sid :
  let env := mock_env [0] [login_state_answer "2$1$ab$1$cd" "0"]
                      [session_answer None] in
  let made := FBSMSLib_init env "http://fritz.box" "smsuser" "secret"
                            "JBSWY3DPEHPK3PXP" None [] in
  fst made =
  Ok (mkClient [mkRate 10 Duration_HOUR] "http://fritz.box" "smsuser" "secret"
               "JBSWY3DPEHPK3PXP" None (Some (0 + 19 * 60)))
  /\ count is_get (snd made) = 1%nat
  /\ count is_post (snd made) = 1%nat.
Proof.
  cbv zeta. repeat split.
Qed.

(** ** Which calls an operation can make *)

Section Keeps.

Variable env : Env.
Variable base : string.
Variable P : Event -> bool.

Lemma keeps_ret {A} (a : A) : keeps base P (ret a).
Proof.
  intros st r st' Hb H. injection H as <- <-. split; [exact Hb |].
  now exists [].
Qed.

Lemma keeps_raise {A} e : keeps base P (@raise A e).
Proof.
  intros st r st' Hb H. injection H as <- <-. split; [exact Hb |].
  now exists [].
Qed.

Lemma keeps_lift {A} (x : Result A) : keeps base P (lift x).
Proof.
  intros st r st' Hb H. injection H as <- <-. split; [exact Hb |].
  now exists [].
Qed.

Lemma keeps_bind {A B} (m : M A) (k : A -> M B) :
  keeps base P m -> (forall a, keeps base P (k a)) -> keeps base P (bind m k).
Proof.
  intros Hm Hk st r st' Hb H.
  apply bind_inv in H as [(a & st1 & H1 & H2) | (e & H1 & ->)].
  - destruct (Hm _ _ _ Hb H1) as (Hb1 & evs1 & Ht1 & Hp1).
    destruct (Hk a _ _ _ Hb1 H2) as (Hb2 & evs2 & Ht2 & Hp2).
    split; [exact Hb2 |]. exists (evs2 ++ evs1)%list.
    rewrite Ht2, Ht1, app_assoc, forallb_app, Hp1, Hp2. now split.
  - exact (Hm _ _ _ Hb H1).
Qed.

Lemma keeps_get_client {B} (k : Client -> M B) :
  (forall c, box_url c = base -> keeps base P (k c)) ->
  keeps base P (bind get_client k).
Proof.
  intros Hk st r st' Hb H. unfold bind, get_client in H.
  exact (Hk (client st) Hb st r st' Hb H).
Qed.

Lemma keeps_try_except {A} (m : M A) h :
  keeps base P m -> (forall e, keeps base P (h e)) ->
  keeps base P (try_except m h).
Proof.
  intros Hm Hh st r st' Hb H. unfold try_except in H.
  destruct (m st) as [[a | e] st1] eqn:H1.
  - injection H as <- <-. exact (Hm _ _ _ Hb H1).
  - destruct (Hm _ _ _ Hb H1) as (Hb1 & evs1 & Ht1 & Hp1).
    destruct (Hh e _ _ _ Hb1 H) as (Hb2 & evs2 & Ht2 & Hp2).
    split; [exact Hb2 |]. exists (evs2 ++ evs1)%list.
    rewrite Ht2, Ht1, app_assoc, forallb_app, Hp1, Hp2. now split.
Qed.

Lemma keeps_try_except_if {A} c (m : M A) h :
  keeps base P m -> (forall e, keeps base P (h e)) ->
  keeps base P (try_except_if c m h).
Proof.
  intros Hm Hh st r st' Hb H. unfold try_except_if in H.
  destruct (m st) as [[a | e] st1] eqn:H1.
  - injection H as <- <-. exact (Hm _ _ _ Hb H1).
  - destruct (c (exn_cls e)).
    + destruct (Hm _ _ _ Hb H1) as (Hb1 & evs1 & Ht1 & Hp1).
      destruct (Hh e _ _ _ Hb1 H) as (Hb2 & evs2 & Ht2 & Hp2).
      split; [exact Hb2 |]. exists (evs2 ++ evs1)%list.
      rewrite Ht2, Ht1, app_assoc, forallb_app, Hp1, Hp2. now split.
    + injection H as <- <-. exact (Hm _ _ _ Hb H1).
Qed.

Lemma keeps_update_client f :
  (forall c, box_url (f c) = box_url c) -> keeps base P (update_client f).
Proof.
  intros Hf st r st' Hb H. injection H as <- <-. cbn [client trace].
  split; [now rewrite Hf |]. now exists [].
Qed.

(** A call into the environment is one event. *)
Lemma keeps_call {A} (e : Event) (answer : Trace -> Result A) :
  P e = true -> keeps base P (fun st => (answer (trace st), record e st)).
Proof.
  intros He st r st' Hb H. injection H as <- <-. split; [exact Hb |].
  exists [e]. cbn. now rewrite He.
Qed.

Lemma keeps_time_time : P EvTime = true -> keeps base P (time_time env).
Proof. intros H. exact (keeps_call EvTime (fun tr => Ok (env_time env tr)) H). Qed.

Lemma keeps_time_sleep n : P (EvSleep n) = true -> keeps base P (time_sleep n).
Proof. intros H. exact (keeps_call (EvSleep n) (fun _ => sleep_result n) H). Qed.

Lemma keeps_requests_get url :
  P (EvGet url) = true -> keeps base P (requests_get env url).
Proof. intros H. exact (keeps_call (EvGet url) (fun tr => env_get env tr url) H). Qed.

Lemma keeps_requests_post url data hdrs :
  P (EvPost url data hdrs) = true -> keeps base P (requests_post env url data hdrs).
Proof.
  intros H.
  exact (keeps_call (EvPost url data hdrs) (fun tr => env_post env tr url data hdrs) H).
Qed.

Lemma keeps_try_acquire rates name :
  P (EvAcquire name) = true -> keeps base P (try_acquire env rates name).
Proof.
  intros H.
  exact (keeps_call (EvAcquire name) (fun tr => env_try_acquire env rates tr name) H).
Qed.

Lemma keeps_totp_now secret : P EvTotp = true -> keeps base P (totp_now env secret).
Proof. intros H. exact (keeps_call EvTotp (fun tr => env_totp env tr secret) H). Qed.

Lemma keeps_pbkdf2 pw salt n :
  P (EvPbkdf2 pw salt n) = true -> keeps base P (pbkdf2_hmac_sha256 env pw salt n).
Proof.
  intros H.
  exact (keeps_call (EvPbkdf2 pw salt n) (fun _ => env_pbkdf2 env pw salt n) H).
Qed.

End Keeps.

Lemma append_eqb a x y : String.eqb (a ++ x) (a ++ y) = String.eqb x y.
Proof.
  induction a as [| c a IH]; [reflexivity |].
  cbn. now rewrite Ascii.eqb_refl.
Qed.

Ltac keeps_step :=
  first
    [ apply keeps_ret
    | apply keeps_raise
    | apply keeps_lift
    | apply keeps_update_client; reflexivity
    | apply keeps_get_client; intros ? ?
    | apply keeps_bind; [| intros ?]
    | apply keeps_try_except; [| intros ?]
    | apply keeps_try_except_if; [| intros ?]
    | match goal with
      | |- keeps _ _ (match ?x with _ => _ end) => destruct x
      end ].

Section KeepsProgram.

Variable env : Env.
Variable base : string.

Lemma login_url_is_no_send_request data hdrs :
  is_send_request base (EvPost (base ++ LOGIN_SID_ROUTE) data hdrs) = false.
Proof. cbn [is_send_request]. now rewrite !append_eqb. Qed.

(** Fetching or renewing the session id neither checks the admission
    gate nor issues a request of the send protocol. *)
Lemma get_current_sid_keeps :
  keeps base (session_event base) (get_current_sid env).
Proof.
  unfold get_current_sid, _get_sid, get_login_state, calculate_pbkdf2_response,
    send_response.
  repeat keeps_step;
    first [ apply keeps_time_time | apply keeps_time_sleep | apply keeps_pbkdf2
          | apply keeps_requests_get | apply keeps_requests_post ];
    try reflexivity.
  unfold session_event.
  match goal with
  | H : box_url ?c = base |- _ => rewrite H
  end.
  now rewrite login_url_is_no_send_request.
Qed.

End KeepsProgram.

(** ** Sending *)

Section SendingFacts.

Variable env : Env.

(** The admission gate is one call to the limiter; an exception of the
    limiter becomes the rate-limit error. *)
Lemma enforce_rate_limit_run st :
  enforce_rate_limit env st =
  (match env_try_acquire env (rate (client st)) (trace st) "sms_send" with
   | Ok _ => Ok tt
   | Raise e => Raise (rate_limit_exceeded e)
   end,
   record (EvAcquire "sms_send") st).
Proof.
  unfold enforce_rate_limit, bind, get_client, try_except, try_acquire, ret, raise.
  destruct (env_try_acquire env _ _ _); reflexivity.
Qed.

(** A guarded POST is one request; only a transport error is rewrapped. *)
Lemma safe_post_request_run url data st :
  safe_post_request env url data st =
  (match env_post env (trace st) url data None with
   | Ok resp => Ok resp
   | Raise e =>
       if is_request_exception (exn_cls e) then Raise (request_failed url e)
       else Raise e
   end,
   record (EvPost url data None) st).
Proof.
  unfold safe_post_request, try_except_if, requests_post, raise.
  destruct (env_post env _ _ _ _) as [resp | e]; [reflexivity |].
  destruct (is_request_exception (exn_cls e)); reflexivity.
Qed.

Lemma safe_post_request_ok url data st resp :
  env_post env (trace st) url data None = Ok resp ->
  safe_post_request env url data st = (Ok resp, record (EvPost url data None) st).
Proof. intros H. now rewrite safe_post_request_run, H. Qed.

Lemma safe_post_request_inv url data st resp st' :
  safe_post_request env url data st = (Ok resp, st') ->
  env_post env (trace st) url data None = Ok resp
  /\ st' = record (EvPost url data None) st.
Proof.
  rewrite safe_post_request_run.
  destruct (env_post env _ _ _ _) as [resp' | e].
  - intros H. injection H as <- <-. now split.
  - destruct (is_request_exception _); discriminate.
Qed.

Lemma safe_post_request_keeps base P url data :
  P (EvPost url data None) = true ->
  keeps base P (safe_post_request env url data).
Proof.
  intros H. unfold safe_post_request.
  apply keeps_try_except_if; [now apply keeps_requests_post |].
  intros e. apply keeps_raise.
Qed.

Lemma keeps_weaken base (P Q : Event -> bool) {A} (m : M A) :
  (forall e, P e = true -> Q e = true) -> keeps base P m -> keeps base Q m.
Proof.
  intros HPQ Hm st r st' Hb H.
  destruct (Hm st r st' Hb H) as (Hb' & evs & Ht & Hp).
  split; [exact Hb' |]. exists evs. split; [exact Ht |].
  rewrite forallb_forall in *. auto.
Qed.

Lemma get_current_sid_not_acquire base :
  keeps base not_acquire (get_current_sid env).
Proof.
  apply keeps_weaken with (P := session_event base);
    [| apply get_current_sid_keeps].
  intros e He. unfold session_event in He.
  now apply andb_prop in He as [He _].
Qed.

(** After the gate, a send never asks the limiter again. *)
Lemma send_sms_protocol_keeps base receiver message :
  keeps base not_acquire (send_sms_protocol env receiver message).
Proof.
  unfold send_sms_protocol, send_sms_confirm, send_sms_twofactor.
  repeat first [ apply get_current_sid_not_acquire
               | apply safe_post_request_keeps; reflexivity
               | apply keeps_totp_now; reflexivity
               | keeps_step ].
Qed.

End SendingFacts.

(** C5: a send asks the limiter exactly once, and does so before anything
    else: the first call of every [send_sms] is the acquisition under the
    name ["sms_send"], and no later call of that send is an acquisition.
    When the limiter refuses, the send ends with the rate-limit error and
    the acquisition is the only call it has made, so no request reached the
    network. *)
Theorem send_sms_admission_gate env receiver message st r st' :
  send_sms env receiver message st = (r, st') ->
  exists rest,
    issued st st' (EvAcquire "sms_send" :: rest)
    /\ count is_acquire rest = 0%nat
    /\ (forall e,
          env_try_acquire env (rate (client st)) (trace st) "sms_send" = Raise e ->
          r = Raise (rate_limit_exceeded e)
          /\ rest = []
          /\ count is_network (trace st') = count is_network (trace st)
          /\ client st' = client st).
Proof.
  unfold send_sms. intros Hrun.
  apply bind_inv in Hrun as [([] & st1 & Hgate & Hsend) | (e & Hgate & ->)];
    rewrite enforce_rate_limit_run in Hgate.
  - destruct (env_try_acquire env _ _ _) as [b | e] eqn:Hacq; [| discriminate].
    injection Hgate as <-.
    destruct (send_sms_protocol_keeps env _ receiver message _ _ _ eq_refl Hsend)
      as (_ & evs & Ht & Hp).
    exists (rev evs). unfold issued. cbn [rev].
    rewrite rev_involutive, <- app_assoc, Ht. cbn [record trace app].
    split; [reflexivity |]. split; [| discriminate].
    rewrite count_rev. apply count_none. exact Hp.
  - destruct (env_try_acquire env _ _ _) as [b | e'] eqn:Hacq; [discriminate |].
    injection Hgate as <- <-. exists []. repeat split. congruence.
Qed.

Lemma bind_get_client {B} (k : Client -> M B) st :
  bind get_client k st = k (client st) st.
Proof. reflexivity. Qed.

Lemma bind_ret {A B} (a : A) (k : A -> M B) st : bind (ret a) k st = k a st.
Proof. reflexivity. Qed.

Lemma assoc_keys {A} k (l : list (string * A)) :
  existsb (String.eqb k) (map fst l) =
  match assoc k l with Some _ => true | None => false end.
Proof.
  induction l as [| [k' v] l IH]; [reflexivity |].
  cbn [map fst existsb assoc]. destruct (String.eqb k k'); [reflexivity | exact IH].
Qed.

Lemma data_field_items r items k v :
  json_data r = Ok (JObj items) -> assoc k items = Some v ->
  data_field r k = Ok v.
Proof. intros Hd Hk. unfold data_field. rewrite Hd. cbn. now rewrite Hk. Qed.

Ltac run_ok H := rewrite (bind_ok _ _ _ _ _ H); cbv beta.
Ltac run_lift H := rewrite (bind_lift_ok _ _ _ _ H); cbv beta.

Section Requests.

Variable env : Env.
Variable base : string.

Lemma sends_refl st : box_url (client st) = base -> sends base st st [].
Proof. intros Hb. repeat split; try exact Hb. now exists []. Qed.

Lemma sends_trans st1 st2 st3 r1 r2 :
  sends base st1 st2 r1 -> sends base st2 st3 r2 ->
  sends base st1 st3 (r1 ++ r2).
Proof.
  intros (Hb1 & _ & e1 & Hi1 & <-) (_ & Hb3 & e2 & Hi2 & <-).
  repeat split; try assumption. exists (e1 ++ e2)%list. split.
  - unfold issued in *. now rewrite Hi2, Hi1, rev_app_distr, app_assoc.
  - unfold send_requests. now rewrite filter_app.
Qed.

Lemma sends_request st e :
  box_url (client st) = base -> is_send_request base e = true ->
  sends base st (record e st) [e].
Proof.
  intros Hb He. repeat split; try exact Hb. exists [e]. split; [reflexivity |].
  unfold send_requests. cbn [filter]. now rewrite He.
Qed.

Lemma sends_other st e :
  box_url (client st) = base -> is_send_request base e = false ->
  sends base st (record e st) [].
Proof.
  intros Hb He. repeat split; try exact Hb. exists [e]. split; [reflexivity |].
  unfold send_requests. cbn [filter]. now rewrite He.
Qed.

Lemma sends_sid st r st' :
  box_url (client st) = base -> get_current_sid env st = (r, st') ->
  sends base st st' [].
Proof.
  intros Hb Hrun.
  destruct (get_current_sid_keeps env base st r st' Hb Hrun) as (Hb' & evs & Ht & Hp).
  repeat split; try assumption. exists (rev evs). split.
  - unfold issued. now rewrite rev_involutive.
  - unfold send_requests. rewrite filter_rev.
    replace (filter (is_send_request base) evs) with (@nil Event); [reflexivity |].
    symmetry. clear Ht. induction evs as [| e evs IH]; [reflexivity |].
    cbn [forallb] in Hp. apply andb_prop in Hp as [He Hp].
    unfold session_event in He. apply andb_prop in He as [_ He].
    apply negb_true_iff in He. cbn [filter]. rewrite He. now apply IH.
Qed.

Lemma data_url_is_send_request data :
  is_send_request base (EvPost (base ++ "/data.lua") data None) = true.
Proof. cbn [is_send_request]. now rewrite String.eqb_refl. Qed.

Lemma mfa_url_is_send_request data :
  is_send_request base (EvPost (base ++ "/twofactor.lua") data None) = true.
Proof. cbn [is_send_request]. now rewrite String.eqb_refl, orb_true_r. Qed.

End Requests.

Section Handshake.

Variable env : Env.
Variables receiver message : string.
Variable st : St.

Local Abbreviation base := (box_url (client st)).

(** The first phase: after the gate and the first request, a redirect
    ends the send and anything else leads to the confirming phase. *)
Lemma send_sms_applied sid1 st2 items1 :
  applied env receiver message st sid1 st2 items1 ->
  exists resp1,
    json_data resp1 = Ok (JObj items1)
    /\ send_sms env receiver message st =
       (if existsb (String.eqb "redirect") (map fst items1)
        then ret tt
        else send_sms_confirm env (data_url st) (mfa_url st) receiver message resp1)
         (record (apply_request receiver message st sid1) st2)
    /\ sends base st (record (apply_request receiver message st sid1) st2)
             [apply_request receiver message st sid1].
Proof.
  intros (st1 & resp1 & Hgate & Hsid & Hpost & Hdata & Happly).
  exists resp1. split; [exact Hdata |].
  assert (Hst1 : st1 = record (EvAcquire "sms_send") st).
  { rewrite enforce_rate_limit_run in Hgate. now injection Hgate. }
  split.
  - unfold send_sms. run_ok Hgate. unfold send_sms_protocol.
    rewrite bind_get_client. cbv zeta. run_ok Hsid.
    subst st1. cbn [record client].
    cbn [answered apply_request] in Hpost.
    run_ok (safe_post_request_ok env _ _ _ _ Hpost).
    run_lift (data_field_items _ _ _ _ Hdata Happly).
    change (json_is_str (JStr "ok") "ok") with true. cbn [negb].
    rewrite bind_ret. run_lift Hdata.
    change (py_keys (JObj items1)) with (Ok (map fst items1)).
    rewrite (bind_lift_ok _ _ _ _ eq_refl). reflexivity.
  - change [apply_request receiver message st sid1]
      with ([] ++ [] ++ [apply_request receiver message st sid1])%list.
    assert (B1 : box_url (client st1) = base) by now subst st1.
    pose proof (sends_sid env base st1 (Ok sid1) st2 B1 Hsid) as S2.
    assert (B2 : box_url (client st2) = base) by apply S2.
    apply sends_trans with (st2 := st1).
    { subst st1. apply sends_other; reflexivity. }
    apply sends_trans with (st2 := st2); [exact S2 |].
    apply sends_request; [exact B2 | apply data_url_is_send_request].
Qed.

(** The confirming phase, up to the branch on the second factor. *)
Lemma send_sms_confirm_run resp1 items1 uid stA sid2 st3 resp2 items2
      methods supported :
  json_data resp1 = Ok (JObj items1) ->
  assoc "new_uid" items1 = Some uid ->
  get_current_sid env stA = (Ok sid2, st3) ->
  answered env st3 (confirm_request receiver message st sid2 uid) resp2 ->
  json_data resp2 = Ok (JObj items2) ->
  assoc "second_apply" items2 = Some (JStr "twofactor") ->
  assoc "twofactor" items2 = Some methods ->
  py_in "googleauth" methods = Ok supported ->
  send_sms_confirm env (data_url st) (mfa_url st) receiver message resp1 stA =
  (if supported
   then send_sms_twofactor env (data_url st) (mfa_url st) receiver message uid
   else raise (twofactor_not_implemented methods))
    (record (confirm_request receiver message st sid2 uid) st3).
Proof.
  intros Hdata1 Huid Hsid Hpost Hdata2 Hsecond Hmethods Hin.
  unfold send_sms_confirm.
  run_lift (data_field_items _ _ _ _ Hdata1 Huid). run_ok Hsid.
  cbn [answered confirm_request] in Hpost.
  run_ok (safe_post_request_ok env _ _ _ _ Hpost).
  run_lift (data_field_items _ _ _ _ Hdata2 Hsecond).
  change (json_is_str (JStr "twofactor") "twofactor") with true. cbv iota.
  run_lift (data_field_items _ _ _ _ Hdata2 Hmethods). run_lift Hin.
  destruct supported; [reflexivity |].
  run_lift (data_field_items _ _ _ _ Hdata2 Hmethods). reflexivity.
Qed.

(** The second-factor phase succeeds when its three requests are
    answered. *)
Lemma send_sms_twofactor_ok uid st4 sid3 sid4 sid5 code st' :
  factor_submitted env receiver message st uid st4 sid3 sid4 sid5 code st' ->
  send_sms_twofactor env (data_url st) (mfa_url st) receiver message uid st4 =
  (Ok tt, st').
Proof.
  intros (st5 & st6 & st7 & resp3 & resp4 & resp5
          & Hs3 & Hp3 & Hs4 & Htotp & Hp4 & Hs5 & Hp5 & ->).
  unfold send_sms_twofactor. run_ok Hs3.
  cbn [answered probe_request code_request final_request] in Hp3, Hp4, Hp5.
  run_ok (safe_post_request_ok env _ _ _ _ Hp3). run_ok Hs4.
  rewrite bind_get_client.
  assert (Ht : totp_now env (totpsecret (client st6)) st6
               = (Ok code, record EvTotp st6))
    by (unfold totp_now; now rewrite Htotp).
  run_ok Ht. run_ok (safe_post_request_ok env _ _ _ _ Hp4). run_ok Hs5.
  run_ok (safe_post_request_ok env _ _ _ _ Hp5). reflexivity.
Qed.

(** ... and only then. *)
Lemma send_sms_twofactor_inv uid st4 st' :
  send_sms_twofactor env (data_url st) (mfa_url st) receiver message uid st4 =
  (Ok tt, st') ->
  exists sid3 sid4 sid5 code,
    factor_submitted env receiver message st uid st4 sid3 sid4 sid5 code st'.
Proof.
  unfold send_sms_twofactor. intros H.
  apply bind_inv in H as [(sid3 & st5 & Hs3 & H) | (? & _ & ?)]; [| discriminate].
  apply bind_inv in H as [(resp3 & st5' & Hp3 & H) | (? & _ & ?)]; [| discriminate].
  apply safe_post_request_inv in Hp3 as [Hp3 ->].
  apply bind_inv in H as [(sid4 & st6 & Hs4 & H) | (? & _ & ?)]; [| discriminate].
  rewrite bind_get_client in H.
  apply bind_inv in H as [(code & st6' & Ht & H) | (? & _ & ?)]; [| discriminate].
  unfold totp_now in Ht. injection Ht as Ht <-.
  apply bind_inv in H as [(resp4 & st6' & Hp4 & H) | (? & _ & ?)]; [| discriminate].
  apply safe_post_request_inv in Hp4 as [Hp4 ->].
  apply bind_inv in H as [(sid5 & st7 & Hs5 & H) | (? & _ & ?)]; [| discriminate].
  apply bind_inv in H as [(resp5 & st7' & Hp5 & H) | (? & _ & ?)]; [| discriminate].
  apply safe_post_request_inv in Hp5 as [Hp5 ->].
  injection H as <-.
  exists sid3, sid4, sid5, code, st5, st6, st7, resp3, resp4, resp5.
  repeat split; assumption.
Qed.

(** The requests of the second-factor phase. *)
Lemma factor_submitted_sends uid st4 sid3 sid4 sid5 code st' :
  box_url (client st4) = base ->
  factor_submitted env receiver message st uid st4 sid3 sid4 sid5 code st' ->
  sends base st4 st'
        [probe_request st sid3; code_request st sid4 code;
         final_request receiver message st sid5 uid].
Proof.
  intros Hb (st5 & st6 & st7 & resp3 & resp4 & resp5
             & Hs3 & Hp3 & Hs4 & Htotp & Hp4 & Hs5 & Hp5 & ->).
  pose proof (sends_sid env base _ _ _ Hb Hs3) as S1.
  assert (B5 : box_url (client st5) = base) by apply S1.
  pose proof (sends_request base st5 (probe_request st sid3) B5
                            (mfa_url_is_send_request base _)) as S2.
  pose proof (sends_sid env base (record (probe_request st sid3) st5) _ _ B5 Hs4)
    as S3.
  assert (B6 : box_url (client st6) = base) by apply S3.
  pose proof (sends_other base st6 EvTotp B6 eq_refl) as S4.
  pose proof (sends_request base (record EvTotp st6) (code_request st sid4 code)
                            B6 (mfa_url_is_send_request base _)) as S5.
  pose proof (sends_sid env base
                        (record (code_request st sid4 code) (record EvTotp st6))
                        _ _ B6 Hs5) as S6.
  assert (B7 : box_url (client st7) = base) by apply S6.
  pose proof (sends_request base st7 (final_request receiver message st sid5 uid)
                            B7 (data_url_is_send_request base _)) as S7.
  pose proof (sends_trans base _ _ _ _ _ S1
                (sends_trans base _ _ _ _ _ S2
                   (sends_trans base _ _ _ _ _ S3
                      (sends_trans base _ _ _ _ _ S4
                         (sends_trans base _ _ _ _ _ S5
                            (sends_trans base _ _ _ _ _ S6 S7)))))) as S.
  exact S.
Qed.

End Handshake.

Lemma window_limiter_exhausted clock r tr name :
  rate_limit r <= in_window (1000 * clock tr) (admitted clock [r] tr) r ->
  window_limiter clock [r] tr name = Raise (bucket_full name).
Proof.
  intros H. unfold window_limiter, has_room. cbn [forallb].
  apply Z.ltb_ge in H. now rewrite H.
Qed.

Lemma send_sms_admission_gate_witness :
  let env := mock_env [] [] [] in
  let st := mkSt (logged_in 1140) [EvAcquire "sms_send"] in
  exists rest,
    issued st (record (EvAcquire "sms_send") st) (EvAcquire "sms_send" :: rest)
    /\ count is_acquire rest = 0%nat
    /\ (forall e,
          env_try_acquire env (rate (client st)) (trace st) "sms_send" = Raise e ->
          Raise (rate_limit_exceeded (bucket_full "sms_send"))
          = Raise (A := unit) (rate_limit_exceeded e)
          /\ rest = []
          /\ count is_network (trace (record (EvAcquire "sms_send") st))
             = count is_network (trace st)
          /\ client (record (EvAcquire "sms_send") st) = client st).
Proof.
  intros env st.
  apply (send_sms_admission_gate env "0123456" "hello" st).
  reflexivity.
Defined.

(** C6: when the answer to the first request of a send has [apply] equal
    to ["ok"] and carries a [redirect] field, [send_sms] returns normally
    right after that request, which is the only request of the send
    protocol it has issued. *)
Theorem send_sms_redirect env receiver message st sid1 st2 items1 target :
  applied env receiver message st sid1 st2 items1 ->
  assoc "redirect" items1 = Some target ->
  send_sms env receiver message st =
  (Ok tt, record (apply_request receiver message st sid1) st2)
  /\ sends (box_url (client st)) st
           (record (apply_request receiver message st sid1) st2)
           [apply_request receiver message st sid1].
Proof.
  intros Happlied Hredirect.
  destruct (send_sms_applied env receiver message st sid1 st2 items1 Happlied)
    as (resp1 & _ & Hrun & Hsends).
  split; [| exact Hsends].
  rewrite Hrun, assoc_keys, Hredirect. reflexivity.
Qed.

Lemma send_sms_redirect_witness :
  let env := mock_env [] []
                      [data_answer [("apply", JStr "ok"); ("redirect", JStr "/sms")]] in
  let st := mkSt (logged_in 1140) [] in
  let st2 := mkSt (logged_in 1140) [EvTime; EvTime; EvAcquire "sms_send"] in
  send_sms env "0123456" "hello" st =
  (Ok tt, record (apply_request "0123456" "hello" st (Some demo_sid)) st2)
  /\ sends (box_url (client st)) st
           (record (apply_request "0123456" "hello" st (Some demo_sid)) st2)
           [apply_request "0123456" "hello" st (Some demo_sid)].
Proof.
  intros env st st2.
  apply (send_sms_redirect env "0123456" "hello" st (Some demo_sid) st2
                           [("apply", JStr "ok"); ("redirect", JStr "/sms")]
                           (JStr "/sms")).
  - do 2 eexists. repeat split; reflexivity.
  - reflexivity.
Defined.

(** C8, as amended: when the answer to the confirming request has
    [second_apply] equal to ["twofactor"] and a [twofactor] field in which
    ["googleauth"] does not occur (as a piece of text when the field is a
    string, as an element when it is a list, as a key when it is an
    object), [send_sms] raises the not-implemented error that carries that
    field, right after the confirming request: the first and the confirming
    request are the only requests of the send protocol it has issued. *)
Theorem send_sms_unsupported_factor env receiver message st sid1 sid2 uid st3
        items2 methods :
  confirmed env receiver message st sid1 sid2 uid st3 items2 ->
  assoc "twofactor" items2 = Some methods ->
  py_in "googleauth" methods = Ok false ->
  send_sms env receiver message st =
  (Raise (twofactor_not_implemented methods),
   record (confirm_request receiver message st sid2 uid) st3)
  /\ sends (box_url (client st)) st
           (record (confirm_request receiver message st sid2 uid) st3)
           [apply_request receiver message st sid1;
            confirm_request receiver message st sid2 uid].
Proof.
  intros (st2 & items1 & resp2 & Happlied & Hnored & Huid & Hsid & Hpost & Hdata2 & Hsecond)
         Hmethods Hin.
  destruct (send_sms_applied env receiver message st sid1 st2 items1 Happlied)
    as (resp1 & Hdata1 & Hrun & Hsends).
  rewrite Hrun, assoc_keys, Hnored.
  rewrite (send_sms_confirm_run env receiver message st resp1 items1 uid _ sid2 st3
             resp2 items2 methods false Hdata1 Huid Hsid Hpost Hdata2 Hsecond
             Hmethods Hin).
  split; [reflexivity |].
  assert (BA : box_url (client (record (apply_request receiver message st sid1) st2))
               = box_url (client st)) by apply Hsends.
  pose proof (sends_sid env _ _ _ _ BA Hsid) as S3.
  assert (B3 : box_url (client st3) = box_url (client st)) by apply S3.
  pose proof (sends_request _ st3 (confirm_request receiver message st sid2 uid) B3
                            (data_url_is_send_request _ _)) as S4.
  exact (sends_trans _ _ _ _ _ _ Hsends (sends_trans _ _ _ _ _ _ S3 S4)).
Qed.

Lemma send_sms_unsupported_factor_witness :
  let env := mock_env [] []
                      [data_answer [("apply", JStr "ok"); ("new_uid", JStr "u1")];
                       data_answer [("second_apply", JStr "twofactor");
                                    ("twofactor", JStr "button,dtmf;3170")]] in
  let st := mkSt (logged_in 1140) [] in
  let st3 := mkSt (logged_in 1140)
                  [EvTime; EvTime;
                   apply_request "0123456" "hello" st (Some demo_sid);
                   EvTime; EvTime; EvAcquire "sms_send"] in
  send_sms env "0123456" "hello" st =
  (Raise (twofactor_not_implemented (JStr "button,dtmf;3170")),
   record (confirm_request "0123456" "hello" st (Some demo_sid) (JStr "u1")) st3)
  /\ sends (box_url (client st)) st
           (record (confirm_request "0123456" "hello" st (Some demo_sid) (JStr "u1")) st3)
           [apply_request "0123456" "hello" st (Some demo_sid);
            confirm_request "0123456" "hello" st (Some demo_sid) (JStr "u1")].
Proof.
  intros env st st3.
  apply (send_sms_unsupported_factor
           env "0123456" "hello" st (Some demo_sid) (Some demo_sid) (JStr "u1") st3
           [("second_apply", JStr "twofactor"); ("twofactor", JStr "button,dtmf;3170")]
           (JStr "button,dtmf;3170")).
  - exists (mkSt (logged_in 1140) [EvTime; EvTime; EvAcquire "sms_send"]).
    exists [("apply", JStr "ok"); ("new_uid", JStr "u1")].
    eexists. repeat split; try reflexivity.
    do 2 eexists. repeat split; reflexivity.
  - reflexivity.
  - reflexivity.
Defined.

(** C8, as stated, fails.  A device that names the method ["googleauth2"],
    which is not the supported ["googleauth"], is not refused: the name
    contains the text ["googleauth"], so the send goes through the whole
    one-time-password exchange, issues three more requests after the
    confirming one and returns normally. *)
Lemma send_sms_similar_factor_accepted :
  let env := mock_env [] []
                      [data_answer [("apply", JStr "ok"); ("new_uid", JStr "u1")];
                       data_answer [("second_apply", JStr "twofactor");
                                    ("twofactor", JStr "googleauth2")];
                       data_answer []; data_answer []; data_answer []] in
  let st := mkSt (logged_in 1140) [] in
  let sid0 := Some demo_sid in
  let run := send_sms env "0123456" "hello" st in
  json_is_str (JStr "googleauth2") "googleauth" = false
  /\ fst run = Ok tt
  /\ fst run <> Raise (twofactor_not_implemented (JStr "googleauth2"))
  /\ sends (box_url (client st)) st (snd run)
           [apply_request "0123456" "hello" st sid0;
            confirm_request "0123456" "hello" st sid0 (JStr "u1");
            probe_request st sid0;
            code_request st sid0 "123456";
            final_request "0123456" "hello" st sid0 (JStr "u1")].
Proof.
  intros env st sid0 run.
  split; [reflexivity |]. split; [reflexivity |]. split; [discriminate |].
  split; [reflexivity |]. split; [reflexivity |].
  exists (rev (trace (snd run))). split; reflexivity.
Qed.

(** C7: when the answer to the confirming request has [second_apply] equal
    to ["twofactor"] and a [twofactor] field that contains ["googleauth"],
    then, whenever the device answers the three requests of the second
    factor (the probe, the one-time code and the final confirmation, each
    under the session id current at that point), [send_sms] issues them
    and returns normally.  The requests of the send protocol it has then
    issued are five, in this order: apply, confirm, factor probe, factor
    code, final confirm; they are four when the probe is left out of the
    count.  And [send_sms] returns normally only so: from any run that
    returns, those three requests were issued and answered. *)
Theorem send_sms_twofactor_handshake env receiver message st sid1 sid2 uid st3
        items2 methods :
  confirmed env receiver message st sid1 sid2 uid st3 items2 ->
  assoc "twofactor" items2 = Some methods ->
  py_in "googleauth" methods = Ok true ->
  let st4 := record (confirm_request receiver message st sid2 uid) st3 in
  (forall sid3 sid4 sid5 code stF,
      factor_submitted env receiver message st uid st4 sid3 sid4 sid5 code stF ->
      let reqs := [apply_request receiver message st sid1;
                   confirm_request receiver message st sid2 uid;
                   probe_request st sid3;
                   code_request st sid4 code;
                   final_request receiver message st sid5 uid] in
      send_sms env receiver message st = (Ok tt, stF)
      /\ sends (box_url (client st)) st stF reqs
      /\ List.length reqs = 5%nat
      /\ count (fun e => negb (is_probe e)) reqs = 4%nat)
  /\ (forall st',
        send_sms env receiver message st = (Ok tt, st') ->
        exists sid3 sid4 sid5 code,
          factor_submitted env receiver message st uid st4 sid3 sid4 sid5 code st').
Proof.
  intros (st2 & items1 & resp2 & Happlied & Hnored & Huid & Hsid & Hpost & Hdata2 & Hsecond)
         Hmethods Hin st4.
  destruct (send_sms_applied env receiver message st sid1 st2 items1 Happlied)
    as (resp1 & Hdata1 & Hstart & Hsends).
  assert (Hrun : send_sms env receiver message st =
                 send_sms_twofactor env (data_url st) (mfa_url st) receiver message
                                    uid st4).
  { rewrite Hstart, assoc_keys, Hnored.
    now rewrite (send_sms_confirm_run env receiver message st resp1 items1 uid _ sid2
                   st3 resp2 items2 methods true Hdata1 Huid Hsid Hpost Hdata2
                   Hsecond Hmethods Hin). }
  split.
  - intros sid3 sid4 sid5 code stF Hfactor reqs.
    split.
    { rewrite Hrun. now apply send_sms_twofactor_ok with (sid3 := sid3)
        (sid4 := sid4) (sid5 := sid5) (code := code). }
    split; [| split; reflexivity].
    assert (BA : box_url (client (record (apply_request receiver message st sid1) st2))
                 = box_url (client st)) by apply Hsends.
    pose proof (sends_sid env _ _ _ _ BA Hsid) as S3.
    assert (B3 : box_url (client st3) = box_url (client st)) by apply S3.
    pose proof (sends_request _ st3 (confirm_request receiver message st sid2 uid) B3
                              (data_url_is_send_request _ _)) as S4.
    pose proof (factor_submitted_sends env receiver message st uid st4 sid3 sid4 sid5
                                       code stF B3 Hfactor) as S5.
    exact (sends_trans _ _ _ _ _ _ Hsends
             (sends_trans _ _ _ _ _ _ S3 (sends_trans _ _ _ _ _ _ S4 S5))).
  - intros st' Hok. rewrite Hrun in Hok. now apply send_sms_twofactor_inv.
Qed.

Lemma send_sms_twofactor_handshake_witness :
  let env := mock_env [] []
                      [data_answer [("apply", JStr "ok"); ("new_uid", JStr "u1")];
                       data_answer [("second_apply", JStr "twofactor");
                                    ("twofactor", JStr "button,googleauth")];
                       data_answer []; data_answer []; data_answer []] in
  let st := mkSt (logged_in 1140) [] in
  let sid0 := Some demo_sid in
  let stF := mkSt (logged_in 1140)
                  [final_request "0123456" "hello" st sid0 (JStr "u1");
                   EvTime; EvTime;
                   code_request st sid0 "123456";
                   EvTotp;
                   EvTime; EvTime;
                   probe_request st sid0;
                   EvTime; EvTime;
                   confirm_request "0123456" "hello" st sid0 (JStr "u1");
                   EvTime; EvTime;
                   apply_request "0123456" "hello" st sid0;
                   EvTime; EvTime; EvAcquire "sms_send"] in
  send_sms env "0123456" "hello" st = (Ok tt, stF)
  /\ sends (box_url (client st)) st stF
           [apply_request "0123456" "hello" st sid0;
            confirm_request "0123456" "hello" st sid0 (JStr "u1");
            probe_request st sid0;
            code_request st sid0 "123456";
            final_request "0123456" "hello" st sid0 (JStr "u1")]
  /\ exists sid3 sid4 sid5 code,
      factor_submitted env "0123456" "hello" st (JStr "u1")
        (record (confirm_request "0123456" "hello" st sid0 (JStr "u1"))
                (mkSt (logged_in 1140)
                      [EvTime; EvTime;
                       apply_request "0123456" "hello" st sid0;
                       EvTime; EvTime; EvAcquire "sms_send"]))
        sid3 sid4 sid5 code stF.
Proof.
  intros env st sid0 stF.
  pose (st3 := mkSt (logged_in 1140)
                    [EvTime; EvTime;
                     apply_request "0123456" "hello" st sid0;
                     EvTime; EvTime; EvAcquire "sms_send"]).
  assert (Hconfirmed :
            confirmed env "0123456" "hello" st sid0 sid0 (JStr "u1") st3
                      [("second_apply", JStr "twofactor");
                       ("twofactor", JStr "button,googleauth")]).
  { exists (mkSt (logged_in 1140) [EvTime; EvTime; EvAcquire "sms_send"]).
    exists [("apply", JStr "ok"); ("new_uid", JStr "u1")].
    eexists. repeat split; try reflexivity.
    do 2 eexists. repeat split; reflexivity. }
  destruct (send_sms_twofactor_handshake
              env "0123456" "hello" st sid0 sid0 (JStr "u1") st3
              [("second_apply", JStr "twofactor"); ("twofactor", JStr "button,googleauth")]
              (JStr "button,googleauth")
              Hconfirmed eq_refl eq_refl) as [Hissue Honly].
  assert (Hfactor : factor_submitted env "0123456" "hello" st (JStr "u1")
                      (record (confirm_request "0123456" "hello" st sid0 (JStr "u1")) st3)
                      sid0 sid0 sid0 "123456" stF).
  { do 6 eexists. repeat split; reflexivity. }
  destruct (Hissue sid0 sid0 sid0 "123456" stF Hfactor) as (Hrun & Hsends & _).
  split; [exact Hrun |]. split; [exact Hsends |].
  exact (Honly stF Hrun).
Defined.

(** ** Several receivers *)

Section Multiple.

Variable env : Env.
Variable message : string.

Lemma send_sms_each_later id receivers st :
  send_sms_each env (S id) receivers message st =
  run_schedule env message (pause_each receivers) st.
Proof.
  revert id st. induction receivers as [| r rest IH]; intros id st;
    [reflexivity |].
  cbn [send_sms_each pause_each flat_map app run_schedule].
  change (0 <? S id)%nat with true. cbv iota.
  unfold bind at 1 3. unfold bind at 1 2.
  destruct (time_sleep 5 st) as [[[] | e] st1]; [| reflexivity].
  destruct (send_sms env r message st1) as [[[] | e] st2]; [| reflexivity].
  apply IH.
Qed.

Lemma send_sms_each_first receivers st :
  send_sms_each env 0 receivers message st =
  run_schedule env message (schedule receivers) st.
Proof.
  destruct receivers as [| r rest]; [reflexivity |].
  cbn [send_sms_each schedule run_schedule].
  change (0 <? 0)%nat with false. cbv iota.
  rewrite bind_ret. unfold bind.
  destruct (send_sms env r message st) as [[[] | e] st1]; [| reflexivity].
  apply send_sms_each_later.
Qed.

(** Every send asks the limiter once. *)
Lemma send_sms_one_acquire receiver st r st' :
  send_sms env receiver message st = (r, st') ->
  exists evs, trace st' = (evs ++ trace st)%list /\ count is_acquire evs = 1%nat.
Proof.
  unfold send_sms. intros Hrun.
  apply bind_inv in Hrun as [([] & st1 & Hgate & Hsend) | (e & Hgate & ->)];
    rewrite enforce_rate_limit_run in Hgate.
  - assert (Hst1 : st1 = record (EvAcquire "sms_send") st)
      by (now injection Hgate).
    subst st1.
    destruct (send_sms_protocol_keeps env _ receiver message _ _ _ eq_refl Hsend)
      as (_ & evs & Ht & Hp).
    exists (evs ++ [EvAcquire "sms_send"])%list. rewrite <- app_assoc. split.
    + exact Ht.
    + rewrite count_app, (count_none is_acquire evs Hp). reflexivity.
  - assert (Hst' : st' = record (EvAcquire "sms_send") st)
      by (now injection Hgate).
    subst st'. now exists [EvAcquire "sms_send"].
Qed.

Lemma run_schedule_acquires acts st st' :
  run_schedule env message acts st = (Ok tt, st') ->
  exists evs, trace st' = (evs ++ trace st)%list
              /\ count is_acquire evs = List.length (sends_of acts).
Proof.
  revert st. induction acts as [| a rest IH]; intros st Hrun.
  - injection Hrun as <-. now exists [].
  - cbn [run_schedule] in Hrun.
    apply bind_inv in Hrun as [([] & st1 & Hstep & Hrest) | (e & _ & He)];
      [| discriminate].
    destruct (IH _ Hrest) as (evs2 & Ht2 & Hc2).
    destruct a as [r |].
    + destruct (send_sms_one_acquire _ _ _ _ Hstep) as (evs1 & Ht1 & Hc1).
      exists (evs2 ++ evs1)%list. rewrite Ht2, Ht1, app_assoc. split; [reflexivity |].
      rewrite count_app, Hc1, Hc2.
      change (sends_of (Send r :: rest)) with (r :: sends_of rest).
      cbn [List.length]. lia.
    + injection Hstep as <-. exists (evs2 ++ [EvSleep 5])%list.
      rewrite Ht2. cbn [record trace]. rewrite <- app_assoc. split; [reflexivity |].
      rewrite count_app, Hc2.
      change (sends_of (Pause :: rest)) with (sends_of rest).
      change (count is_acquire [EvSleep 5]) with 0%nat. lia.
Qed.

Lemma schedule_sends receivers : sends_of (schedule receivers) = receivers.
Proof.
  destruct receivers as [| r rest]; [reflexivity |].
  unfold schedule, sends_of, pause_each. cbn [flat_map app]. f_equal.
  induction rest as [| r' rest IH]; [reflexivity |].
  cbn [flat_map app]. now rewrite IH.
Qed.

Lemma schedule_pauses receivers :
  pauses_of (schedule receivers) = (List.length receivers - 1)%nat.
Proof.
  destruct receivers as [| r rest]; [reflexivity |].
  unfold pauses_of, schedule, pause_each. cbn [filter List.length].
  rewrite Nat.sub_succ, Nat.sub_0_r.
  induction rest as [| r' rest IH]; [reflexivity |].
  cbn [flat_map app filter List.length]. now rewrite IH.
Qed.

Lemma schedule_between_sends receivers :
  between_sends false (schedule receivers) = true.
Proof.
  destruct receivers as [| r rest]; [reflexivity |].
  unfold schedule, pause_each. cbn [between_sends].
  induction rest as [| r' rest IH]; [reflexivity |].
  cbn [flat_map app between_sends andb]. exact IH.
Qed.

End Multiple.

Lemma run_schedule_stops env message done rest st e st1 :
  run_schedule env message done st = (Raise e, st1) ->
  run_schedule env message (done ++ rest) st = (Raise e, st1).
Proof.
  revert st. induction done as [| a done IH]; intros st Hrun; [discriminate |].
  cbn [app run_schedule] in *.
  apply bind_inv in Hrun as [([] & st2 & Hstep & Hrest) | (e' & Hstep & He)].
  - rewrite (bind_ok _ _ _ _ _ Hstep). now apply IH.
  - injection He as <-. now rewrite (bind_raise _ _ _ _ _ Hstep).
Qed.

(** C9, as amended: [send_sms_multiple] carries out the schedule of its
    receiver list, one action after the other and up to the first action
    that raises.  The schedule holds the receivers in list order, one pause
    fewer than receivers (none for one receiver), and each pause directly
    between two sends, so none before the first.  When the call returns
    normally, the limiter was asked once per receiver: all the sends were
    run. *)
Theorem send_sms_multiple_schedule env receivers message st :
  send_sms_multiple env receivers message st =
  run_schedule env message (schedule receivers) st
  /\ sends_of (schedule receivers) = receivers
  /\ pauses_of (schedule receivers) = (List.length receivers - 1)%nat
  /\ between_sends false (schedule receivers) = true
  /\ (forall done rest e st1,
        schedule receivers = (done ++ rest)%list ->
        run_schedule env message done st = (Raise e, st1) ->
        send_sms_multiple env receivers message st = (Raise e, st1))
  /\ (forall st',
        send_sms_multiple env receivers message st = (Ok tt, st') ->
        exists evs, issued st st' evs
                    /\ count is_acquire evs = List.length receivers).
Proof.
  assert (Hrun : send_sms_multiple env receivers message st =
                 run_schedule env message (schedule receivers) st)
    by apply send_sms_each_first.
  split; [exact Hrun |].
  split; [apply schedule_sends |].
  split; [apply schedule_pauses |].
  split; [apply schedule_between_sends |].
  split.
  - intros done rest e st1 Hsplit Hdone. rewrite Hrun, Hsplit.
    now apply run_schedule_stops.
  - intros st' Hok. rewrite Hrun in Hok.
    destruct (run_schedule_acquires env message _ _ _ Hok) as (evs & Ht & Hc).
    exists (rev evs). unfold issued. rewrite rev_involutive, count_rev.
    split; [exact Ht |]. now rewrite Hc, schedule_sends.
Qed.

Lemma send_sms_multiple_schedule_witness :
  let env := mock_env [] []
                      [data_answer [("apply", JStr "ok"); ("redirect", JStr "/sms")];
                       data_answer [("apply", JStr "ok"); ("redirect", JStr "/sms")]] in
  let c := mkClient [mkRate 10 Duration_HOUR] "http://fritz.box" "smsuser" "secret"
                    "JBSWY3DPEHPK3PXP" (Some demo_sid) (Some 1140) in
  let st := mkSt c [] in
  let done := send_sms_multiple env ["0123456"; "0765432"] "hello" st in
  fst done = Ok tt
  /\ exists evs, issued st (snd done) evs /\ count is_acquire evs = 2%nat.
Proof.
  intros env c st done. split; [reflexivity |].
  destruct (send_sms_multiple_schedule env ["0123456"; "0765432"] "hello" st)
    as (_ & _ & _ & _ & _ & Hall).
  apply (Hall (snd done)). reflexivity.
Defined.

(** C9, as stated, fails.  With two receivers and a device that cannot be
    reached, the send to the first receiver raises after its first request;
    the second receiver is never tried and no pause is made, where the
    claim counts two sends and one pause. *)
Lemma send_sms_multiple_stops_at_failure :
  let env := mock_env [] [] [] in
  let st := mkSt (logged_in 1140) [] in
  let run := send_sms_multiple env ["0123456"; "0765432"] "hello" st in
  fst run = Raise (request_failed "http://fritz.box/data.lua" connection_error)
  /\ issued st (snd run)
            [EvAcquire "sms_send"; EvTime; EvTime;
             apply_request "0123456" "hello" st (Some demo_sid)]
  /\ count is_acquire (trace (snd run)) = 1%nat
  /\ count is_sleep (trace (snd run)) = 0%nat
  /\ List.length ["0123456"; "0765432"] = 2%nat.
Proof.
  cbv zeta. repeat split.
Qed.


(** * Further properties of the code *)

(** ** The login state *)

(** Whatever [get_login_state] does, the one call it makes is the GET of
    the login route, and that call is made: the state it leaves is the
    starting state with that GET recorded.  It returns the login state [ls]
    exactly when the GET is answered with well-formed XML whose [Challenge]
    element has the text of [ls]'s challenge and whose [BlockTime] element
    has text that [int] reads as [ls]'s block time, [ls]'s flag being
    whether the challenge starts with ["2$"]. *)
Theorem get_login_state_spec env st :
  snd (get_login_state env st) = record (EvGet (login_url st)) st
  /\ forall ls,
      fst (get_login_state env st) = Ok ls <->
      exists resp xml bt,
        env_get env (trace st) (login_url st) = Ok resp
        /\ resp_xml resp = Some xml
        /\ assoc "Challenge" xml = Some (Some (challenge ls))
        /\ assoc "BlockTime" xml = Some (Some bt)
        /\ py_int_in env bt = Ok (blocktime ls)
        /\ is_pbkdf2 ls = startswith (challenge ls) "2$".
Proof.
  split; [apply get_login_state_state |].
  intros ls. split.
  - intros Hrun.
    assert (Hrun' : get_login_state env st = (Ok ls, snd (get_login_state env st)))
      by (rewrite <- Hrun; apply surjective_pairing).
    pose proof (get_login_state_is_pbkdf2 env st ls _ Hrun') as Hflag.
    revert Hrun. clear Hrun'.
    unfold get_login_state, bind, get_client, requests_get, lift, login_url,
      fromstring, find_text, py_int_text, LoginState_init.
    destruct (env_get env (trace st) _) as [resp |]; [| discriminate].
    destruct (resp_xml resp) as [xml |] eqn:Hxml; [| discriminate].
    destruct (assoc "Challenge" xml) as [[c |] |] eqn:Hc; try discriminate;
      destruct (assoc "BlockTime" xml) as [[bt |] |] eqn:Hbt; try discriminate;
      destruct (py_int_in env bt) as [n |] eqn:Hint; try discriminate.
    cbn [fst]. intros Hrun. injection Hrun as <-.
    cbn [challenge blocktime is_pbkdf2].
    exists resp, xml, bt. repeat split; try assumption; reflexivity.
  - intros (resp & xml & bt & Hget & Hxml & Hc & Hbt & Hint & Hflag).
    unfold get_login_state, bind, get_client, requests_get, lift, login_url in *.
    rewrite Hget. unfold fromstring, find_text. rewrite Hxml, Hc, Hbt.
    cbn [py_int_text]. rewrite Hint. cbn [LoginState_init fst].
    destruct ls as [c n b]. cbn [challenge blocktime is_pbkdf2] in *.
    now subst b.
Qed.

Lemma get_login_state_spec_witness :
  let env := mock_env [] [login_state_answer "2$1$ab$1$cd" " 12 "] [] in
  let st := mkSt demo_client [] in
  get_login_state env st =
  (Ok (mkLoginState "2$1$ab$1$cd" 12 true), record (EvGet (login_url st)) st)
  /\ snd (get_login_state (mock_env [] [] []) st) = record (EvGet (login_url st)) st.
Proof.
  intros env st.
  destruct (get_login_state_spec env st) as [Hst Hret].
  destruct (get_login_state_spec (mock_env [] [] []) st) as [Hst0 _].
  split; [| exact Hst0].
  assert (Hfst : fst (get_login_state env st) = Ok (mkLoginState "2$1$ab$1$cd" 12 true)).
  { apply Hret.
    exists (xml_response [("SID", Some NO_SESSION); ("Challenge", Some "2$1$ab$1$cd");
                          ("BlockTime", Some " 12 ")]).
    eexists. exists " 12 ". repeat split; reflexivity. }
  rewrite (surjective_pairing (get_login_state env st)), Hst, Hfst.
  reflexivity.
Defined.

(** ** The challenge response *)

Lemma fromhex_raises s e : fromhex s = Raise e -> e = fromhex_error.
Proof.
  remember (String.length s) as n eqn:Hn. revert s Hn.
  induction n as [n IH] using lt_wf_ind. intros s Hn.
  destruct s as [| a [| b r]].
  - discriminate.
  - cbn. destruct (is_hexspace a); [discriminate |].
    destruct (hexval a); intros H; now injection H.
  - rewrite fromhex_pair. destruct (is_hexspace a).
    + apply (IH (String.length (String b r))); [subst n; cbn; lia | reflexivity].
    + destruct (hexval a); [| intros H; now injection H].
      destruct (hexval b); [| intros H; now injection H].
      destruct (fromhex r) as [bs |] eqn:Hr; [discriminate |].
      intros H. injection H as <-.
      apply (IH (String.length r)) with (s := r); [subst n; cbn; lia | reflexivity | exact Hr].
Qed.

Lemma py_index_raises {A} (l : list A) i e :
  py_index l i = Raise e -> exn_cls e = IndexError.
Proof. unfold py_index. destruct (nth_error l i); [discriminate |]. intros H. now injection H as <-. Qed.


(** A response that was computed: the four fields read from the challenge,
    the two hash calls made with them, in order, and the fifth field of the
    challenge, ["$"] and the hexadecimal text of the second hash. *)
Lemma calculate_pbkdf2_response_ok env c st cr st' :
  calculate_pbkdf2_response env c st = (Ok cr, st') ->
  exists f1 f2 f3 f4 iter1 salt1 iter2 salt2 hash1 hash2,
    (nth_error (py_split "$" c) 1 = Some f1
     /\ nth_error (py_split "$" c) 2 = Some f2
     /\ nth_error (py_split "$" c) 3 = Some f3
     /\ nth_error (py_split "$" c) 4 = Some f4)
    /\ (py_int_in env f1 = Ok iter1 /\ fromhex f2 = Ok salt1
        /\ py_int_in env f3 = Ok iter2 /\ fromhex f4 = Ok salt2)
    /\ env_pbkdf2 env (encode (password (client st))) salt1 iter1 = Ok hash1
    /\ env_pbkdf2 env hash1 salt2 iter2 = Ok hash2
    /\ cr = f4 ++ "$" ++ hex hash2
    /\ st' = mkSt (client st)
                  (EvPbkdf2 hash1 salt2 iter2
                     :: EvPbkdf2 (encode (password (client st))) salt1 iter1
                     :: trace st).
Proof.
  unfold calculate_pbkdf2_response, bind, lift, get_client, pbkdf2_hmac_sha256,
    ret, py_index.
  destruct (nth_error (py_split "$" c) 1) as [p1 |]; [| discriminate].
  destruct (py_int_in env p1) as [iter1 |] eqn:Hi1; [| discriminate].
  destruct (nth_error (py_split "$" c) 2) as [p2 |]; [| discriminate].
  destruct (fromhex p2) as [salt1 |] eqn:Hs1; [| discriminate].
  destruct (nth_error (py_split "$" c) 3) as [p3 |]; [| discriminate].
  destruct (py_int_in env p3) as [iter2 |] eqn:Hi2; [| discriminate].
  destruct (nth_error (py_split "$" c) 4) as [p4 |]; [| discriminate].
  destruct (fromhex p4) as [salt2 |] eqn:Hs2; [| discriminate].
  cbn [record client trace].
  destruct (env_pbkdf2 env _ salt1 iter1) as [hash1 |] eqn:H1; [| discriminate].
  destruct (env_pbkdf2 env hash1 salt2 iter2) as [hash2 |] eqn:H2; [| discriminate].
  intros H. injection H as <- <-.
  exists p1, p2, p3, p4, iter1, salt1, iter2, salt2, hash1, hash2.
  repeat split; assumption.
Qed.

(** What [calculate_pbkdf2_response] can raise. *)
Lemma calculate_pbkdf2_response_raises env c st e st' :
  calculate_pbkdf2_response env c st = (Raise e, st') ->
  exn_cls e = IndexError \/ exn_cls e = ValueError
  \/ exists pw salt n, env_pbkdf2 env pw salt n = Raise e.
Proof.
  unfold calculate_pbkdf2_response, bind, lift, get_client, pbkdf2_hmac_sha256, ret.
  repeat match goal with
         | |- context [match py_index ?l ?i with Ok _ => _ | Raise _ => _ end] =>
             let H := fresh "Hidx" in
             destruct (py_index l i) eqn:H;
             [| intros Hr; injection Hr as <- _; left;
                exact (py_index_raises _ _ _ H)]
         | |- context [match py_int_in ?v ?s with Ok _ => _ | Raise _ => _ end] =>
             let H := fresh "Hint" in
             destruct (py_int_in v s) eqn:H;
             [| intros Hr; injection Hr as <- _; right; left;
                exact (py_int_in_raises _ _ _ H)]
         | |- context [match fromhex ?s with Ok _ => _ | Raise _ => _ end] =>
             let H := fresh "Hhex" in
             destruct (fromhex s) eqn:H;
             [| intros Hr; injection Hr as <- _; right; left;
                now rewrite (fromhex_raises _ _ H)]
         | |- context [match env_pbkdf2 ?v ?p ?s ?n with Ok _ => _ | Raise _ => _ end] =>
             let H := fresh "Hhash" in
             destruct (env_pbkdf2 v p s n) eqn:H;
             [| intros Hr; injection Hr as <- _; right; right;
                now exists p, s, n]
         end.
  discriminate.
Qed.

Lemma py_split_nonempty sep s : py_split sep s <> [].
Proof.
  destruct s as [| c s]; cbn; [discriminate |].
  destruct (Ascii.eqb c sep); [discriminate |].
  destruct (py_split sep s); discriminate.
Qed.

Lemma py_split_parts_lack sep s p :
  In p (py_split sep s) -> lacks sep p = true.
Proof.
  revert p. induction s as [| c s IH]; intros p Hin.
  - destruct Hin as [<- | []]. reflexivity.
  - cbn [py_split] in Hin. destruct (Ascii.eqb c sep) eqn:Hc.
    + destruct Hin as [<- | Hin]; [reflexivity | now apply IH].
    + destruct (py_split sep s) as [| q qs] eqn:Hs.
      * now destruct (py_split_nonempty sep s).
      * destruct Hin as [<- | Hin].
        -- cbn [lacks]. rewrite Hc. cbn [negb andb]. apply IH. now left.
        -- apply IH. now right.
Qed.

Lemma hex_lower bs : lower_hex (hex bs) = true.
Proof.
  induction bs as [| b bs IH]; [reflexivity |].
  rewrite hex_cons. cbn [lower_hex]. rewrite IH, andb_true_r.
  destruct b; reflexivity.
Qed.

Lemma hex_length bs : String.length (hex bs) = (2 * List.length bs)%nat.
Proof.
  induction bs as [| b bs IH]; [reflexivity |].
  rewrite hex_cons. cbn [String.length List.length]. lia.
Qed.

Lemma lower_hex_lacks_dollar s : lower_hex s = true -> lacks "$" s = true.
Proof.
  induction s as [| c s IH]; [reflexivity |].
  cbn [lower_hex lacks]. intros H. apply andb_prop in H as [Hc Hs].
  rewrite (IH Hs), andb_true_r.
  destruct c as [[] [] [] [] [] [] [] []]; try reflexivity; discriminate Hc.
Qed.

(** Every response [calculate_pbkdf2_response] returns is built from the
    challenge it was given: the second to fifth ["$"]-separated fields of
    the challenge read as [iter1], [salt1], [iter2] and [salt2]; [hash1] is
    what the hash function returned for the encoded password under [salt1]
    and [iter1], [hash2] what it returned for [hash1] under [salt2] and
    [iter2]; these two hash calls, in this order, are all the run did; and
    the response has exactly two ["$"]-separated fields, the fifth field of
    the challenge and the hexadecimal text of [hash2]. *)
Theorem calculate_pbkdf2_response_shape env c st cr st' :
  calculate_pbkdf2_response env c st = (Ok cr, st') ->
  exists f1 f2 f3 f4 iter1 salt1 iter2 salt2 hash1 hash2,
    (nth_error (py_split "$" c) 1 = Some f1
     /\ nth_error (py_split "$" c) 2 = Some f2
     /\ nth_error (py_split "$" c) 3 = Some f3
     /\ nth_error (py_split "$" c) 4 = Some f4)
    /\ (py_int_in env f1 = Ok iter1 /\ fromhex f2 = Ok salt1
        /\ py_int_in env f3 = Ok iter2 /\ fromhex f4 = Ok salt2)
    /\ env_pbkdf2 env (encode (password (client st))) salt1 iter1 = Ok hash1
    /\ env_pbkdf2 env hash1 salt2 iter2 = Ok hash2
    /\ issued st st' [EvPbkdf2 (encode (password (client st))) salt1 iter1;
                      EvPbkdf2 hash1 salt2 iter2]
    /\ client st' = client st
    /\ cr = f4 ++ "$" ++ hex hash2
    /\ py_split "$" cr = [f4; hex hash2].
Proof.
  intros Hrun.
  destruct (calculate_pbkdf2_response_ok env c st cr st' Hrun)
    as (f1 & f2 & f3 & f4 & iter1 & salt1 & iter2 & salt2 & hash1 & hash2
        & Hfields & Hread & Hh1 & Hh2 & -> & ->).
  exists f1, f2, f3, f4, iter1, salt1, iter2, salt2, hash1, hash2.
  split; [exact Hfields |]. split; [exact Hread |].
  split; [exact Hh1 |]. split; [exact Hh2 |].
  split; [reflexivity |]. split; [reflexivity |]. split; [reflexivity |].
  change (f4 ++ "$" ++ hex hash2) with (f4 ++ String "$" (hex hash2)).
  rewrite py_split_field.
  - now rewrite py_split_lacks by (apply lower_hex_lacks_dollar, hex_lower).
  - apply py_split_parts_lack with (s := c). eapply nth_error_In.
    exact (proj2 (proj2 (proj2 Hfields))).
Qed.

Lemma calculate_pbkdf2_response_shape_witness :
  let env := mock_env [] [] [] in
  let c := "2$60000$ab01$6000$CD02$rest" in
  let st := mkSt demo_client [] in
  let cr := "CD02$cd02ab01736563726574" in
  exists f1 f2 f3 f4 iter1 salt1 iter2 salt2 hash1 hash2,
    (nth_error (py_split "$" c) 1 = Some f1
     /\ nth_error (py_split "$" c) 2 = Some f2
     /\ nth_error (py_split "$" c) 3 = Some f3
     /\ nth_error (py_split "$" c) 4 = Some f4)
    /\ (py_int_in env f1 = Ok iter1 /\ fromhex f2 = Ok salt1
        /\ py_int_in env f3 = Ok iter2 /\ fromhex f4 = Ok salt2)
    /\ env_pbkdf2 env (encode (password (client st))) salt1 iter1 = Ok hash1
    /\ env_pbkdf2 env hash1 salt2 iter2 = Ok hash2
    /\ issued st (snd (calculate_pbkdf2_response env c st))
              [EvPbkdf2 (encode (password (client st))) salt1 iter1;
               EvPbkdf2 hash1 salt2 iter2]
    /\ client (snd (calculate_pbkdf2_response env c st)) = client st
    /\ cr = f4 ++ "$" ++ hex hash2
    /\ py_split "$" cr = [f4; hex hash2].
Proof.
  intros env c st cr.
  apply (calculate_pbkdf2_response_shape env c st cr
           (snd (calculate_pbkdf2_response env c st))).
  reflexivity.
Defined.

(** A challenge with fewer than five ["$"]-separated fields makes
    [calculate_pbkdf2_response] raise [IndexError] or [ValueError] before
    anything is hashed: the state is left as it was. *)
Theorem calculate_pbkdf2_response_short_challenge env c st :
  (List.length (py_split "$" c) < 5)%nat ->
  exists e,
    calculate_pbkdf2_response env c st = (Raise e, st)
    /\ (exn_cls e = IndexError \/ exn_cls e = ValueError).
Proof.
  intros Hlen.
  unfold calculate_pbkdf2_response, bind, lift, get_client, pbkdf2_hmac_sha256, ret.
  destruct (py_split "$" c) as [| p0 [| p1 [| p2 [| p3 [| p4 rest]]]]];
    cbn [List.length] in Hlen; try lia; cbn [py_index nth_error];
    repeat match goal with
           | |- context [match py_int_in ?v ?s with Ok _ => _ | Raise _ => _ end] =>
               let H := fresh "Hint" in
               destruct (py_int_in v s) eqn:H;
               [| eexists; split;
                  [reflexivity | right; exact (py_int_in_raises _ _ _ H)]]
           | |- context [match fromhex ?s with Ok _ => _ | Raise _ => _ end] =>
               let H := fresh "Hhex" in
               destruct (fromhex s) eqn:H;
               [| eexists; split;
                  [reflexivity | right; now rewrite (fromhex_raises _ _ H)]]
           end;
    eexists; (split; [reflexivity | left; reflexivity]).
Qed.

Lemma calculate_pbkdf2_response_short_challenge_witness :
  exists e,
    calculate_pbkdf2_response (mock_env [] [] []) "2$60000$ab01" (mkSt demo_client [])
    = (Raise e, mkSt demo_client [])
    /\ (exn_cls e = IndexError \/ exn_cls e = ValueError).
Proof.
  apply (calculate_pbkdf2_response_short_challenge
           (mock_env [] [] []) "2$60000$ab01" (mkSt demo_client [])).
  cbn. lia.
Defined.

(** ** The authentication exchange *)

(** An exchange that returns [s] has made, in this order, the GET for the
    login state, the two hash calls, a sleep of [blocktime] seconds when
    the block time is positive, and one POST to the login route, under the
    client's user name, of the response it computed: the fifth field of the
    device's challenge, ["$"] and the hexadecimal text of the second hash,
    the hashes being those of the password under the salts and iteration
    counts read from the challenge.  The sleep, when there is one, was
    accepted; [s] is the text of the [SID] element of the device's answer
    to that POST, it is not the session id of sixteen zeros, and the client
    is as before. *)
Theorem get_sid_success env st s st' :
  _get_sid env st = (Ok s, st') ->
  exists ls f1 f2 f3 f4 iter1 salt1 iter2 salt2 hash1 hash2 h resp xml,
    get_login_state env st = (Ok ls, record (EvGet (login_url st)) st)
    /\ is_pbkdf2 ls = true
    /\ (nth_error (py_split "$" (challenge ls)) 1 = Some f1
        /\ nth_error (py_split "$" (challenge ls)) 2 = Some f2
        /\ nth_error (py_split "$" (challenge ls)) 3 = Some f3
        /\ nth_error (py_split "$" (challenge ls)) 4 = Some f4)
    /\ (py_int_in env f1 = Ok iter1 /\ fromhex f2 = Ok salt1
        /\ py_int_in env f3 = Ok iter2 /\ fromhex f4 = Ok salt2)
    /\ env_pbkdf2 env (encode (password (client st))) salt1 iter1 = Ok hash1
    /\ env_pbkdf2 env hash1 salt2 iter2 = Ok hash2
    /\ cooldown_result ls = Ok tt
    /\ issued st st'
              ([EvGet (login_url st);
                EvPbkdf2 (encode (password (client st))) salt1 iter1;
                EvPbkdf2 hash1 salt2 iter2]
                 ++ (if 0 <? blocktime ls then [EvSleep (blocktime ls)] else [])
                 ++ [EvPost (login_url st)
                            [("username", JStr (username (client st)));
                             ("response", JStr (f4 ++ "$" ++ hex hash2))]
                            (Some [("Content-Type", "application/x-www-form-urlencoded")])])%list
    /\ trace st' =
       EvPost (login_url st)
              [("username", JStr (username (client st)));
               ("response", JStr (f4 ++ "$" ++ hex hash2))]
              (Some [("Content-Type", "application/x-www-form-urlencoded")]) :: h
    /\ env_post env h (login_url st)
                [("username", JStr (username (client st)));
                 ("response", JStr (f4 ++ "$" ++ hex hash2))]
                (Some [("Content-Type", "application/x-www-form-urlencoded")]) = Ok resp
    /\ resp_xml resp = Some xml
    /\ assoc "SID" xml = Some s
    /\ s <> Some NO_SESSION
    /\ client st' = client st.
Proof.
  intros Hrun. rewrite get_sid_unfold in Hrun.
  pose proof (get_login_state_state env st) as Hst.
  destruct (get_login_state env st) as [[ls | e] st1] eqn:Hls; [| discriminate].
  cbn [snd] in Hst. subst st1.
  destruct (is_pbkdf2 ls) eqn:Hflag; [| discriminate].
  destruct (calculate_pbkdf2_response env (challenge ls) _) as [[cr | e] st2] eqn:Hcalc;
    [| discriminate].
  destruct (calculate_pbkdf2_response_ok env _ _ _ _ Hcalc)
    as (f1 & f2 & f3 & f4 & iter1 & salt1 & iter2 & salt2 & hash1 & hash2
        & Hfields & Hread & Hh1 & Hh2 & -> & ->).
  cbn [record client trace] in *.
  destruct (cooldown_result ls) as [[] | e] eqn:Hcool; [| discriminate].
  rewrite send_response_run in Hrun.
  set (data := [("username", JStr (username (client st)));
                ("response", JStr (f4 ++ "$" ++ hex hash2))]) in *.
  set (hdrs := Some [("Content-Type", "application/x-www-form-urlencoded")]) in *.
  assert (Hcl : client (cooldown ls
                  (mkSt (client st)
                        (EvPbkdf2 hash1 salt2 iter2
                           :: EvPbkdf2 (encode (password (client st))) salt1 iter1
                           :: EvGet (login_url st) :: trace st))) = client st)
    by (unfold cooldown; destruct (0 <? blocktime ls); reflexivity).
  assert (Hurl : forall st0, client st0 = client st -> login_url st0 = login_url st)
    by (intros st0 H0; unfold login_url; now rewrite H0).
  rewrite (Hurl _ Hcl), Hcl in Hrun. fold data hdrs in Hrun.
  destruct (env_post env _ (login_url st) data hdrs) as [resp |] eqn:Hpost;
    [| discriminate].
  unfold fromstring, find_text in Hrun.
  destruct (resp_xml resp) as [xml |] eqn:Hxml; [| discriminate].
  destruct (assoc "SID" xml) as [s0 |] eqn:Hsid; [| discriminate].
  injection Hrun as Hs <-.
  exists ls, f1, f2, f3, f4, iter1, salt1, iter2, salt2, hash1, hash2.
  eexists. exists resp, xml.
  split; [reflexivity |]. split; [exact Hflag |].
  split; [exact Hfields |]. split; [exact Hread |].
  split; [exact Hh1 |]. split; [exact Hh2 |]. split; [exact Hcool |].
  assert (Hs0 : s0 = s /\ s <> Some NO_SESSION).
  { unfold check_session in Hs. destruct s0 as [x |]; [| now injection Hs as <-].
    destruct (String.eqb x NO_SESSION) eqn:Hx; [discriminate |].
    injection Hs as <-. split; [reflexivity |].
    intros Hbad. injection Hbad as ->. now rewrite String.eqb_refl in Hx. }
  destruct Hs0 as [-> Hgood].
  split; [unfold cooldown, issued; destruct (0 <? blocktime ls); reflexivity |].
  split; [reflexivity |]. split; [exact Hpost |].
  split; [exact Hxml |]. split; [exact Hsid |]. split; [exact Hgood |].
  cbn [record client]. exact Hcl.
Qed.

Lemma get_sid_success_witness :
  let env := mock_env [] [login_state_answer "2$1$ab$1$cd" "3"]
                      [session_answer (Some demo_sid)] in
  let st := mkSt demo_client [] in
  let s := Some demo_sid in
  let st' := snd (_get_sid env st) in
  exists ls f1 f2 f3 f4 iter1 salt1 iter2 salt2 hash1 hash2 h resp xml,
    get_login_state env st = (Ok ls, record (EvGet (login_url st)) st)
    /\ is_pbkdf2 ls = true
    /\ (nth_error (py_split "$" (challenge ls)) 1 = Some f1
        /\ nth_error (py_split "$" (challenge ls)) 2 = Some f2
        /\ nth_error (py_split "$" (challenge ls)) 3 = Some f3
        /\ nth_error (py_split "$" (challenge ls)) 4 = Some f4)
    /\ (py_int_in env f1 = Ok iter1 /\ fromhex f2 = Ok salt1
        /\ py_int_in env f3 = Ok iter2 /\ fromhex f4 = Ok salt2)
    /\ env_pbkdf2 env (encode (password (client st))) salt1 iter1 = Ok hash1
    /\ env_pbkdf2 env hash1 salt2 iter2 = Ok hash2
    /\ cooldown_result ls = Ok tt
    /\ issued st st'
              ([EvGet (login_url st);
                EvPbkdf2 (encode (password (client st))) salt1 iter1;
                EvPbkdf2 hash1 salt2 iter2]
                 ++ (if 0 <? blocktime ls then [EvSleep (blocktime ls)] else [])
                 ++ [EvPost (login_url st)
                            [("username", JStr (username (client st)));
                             ("response", JStr (f4 ++ "$" ++ hex hash2))]
                            (Some [("Content-Type", "application/x-www-form-urlencoded")])])%list
    /\ trace st' =
       EvPost (login_url st)
              [("username", JStr (username (client st)));
               ("response", JStr (f4 ++ "$" ++ hex hash2))]
              (Some [("Content-Type", "application/x-www-form-urlencoded")]) :: h
    /\ env_post env h (login_url st)
                [("username", JStr (username (client st)));
                 ("response", JStr (f4 ++ "$" ++ hex hash2))]
                (Some [("Content-Type", "application/x-www-form-urlencoded")]) = Ok resp
    /\ resp_xml resp = Some xml
    /\ assoc "SID" xml = Some s
    /\ s <> Some NO_SESSION
    /\ client st' = client st.
Proof.
  intros env st s st'.
  apply (get_sid_success env st s st').
  reflexivity.
Defined.

(** What an exchange can raise, and when.  If the login state cannot be
    fetched, the exception for a failed challenge fetch, with the failure
    of the fetch as its cause.  If the challenge is not a PBKDF2 one, the
    exception for missing PBKDF2 support.  If computing the response
    raises, that exception unwrapped: an [IndexError] or [ValueError] for a
    malformed challenge, or an exception of the hash function.  If the
    block time is more than [time.sleep] takes, its [OverflowError],
    unwrapped, with nothing submitted.  If the submission raises, the
    exception for a failed login, with the failure of the submission as its
    cause.  If the submission returns the sixteen zeros, the exception for
    wrong credentials.  There is no other case. *)
Theorem get_sid_raises env st e st' :
  _get_sid env st = (Raise e, st') ->
  (exists cause,
      get_login_state env st = (Raise cause, st')
      /\ e = failed_to_get_challenge cause)
  \/ exists ls st1,
      get_login_state env st = (Ok ls, st1)
      /\ ((is_pbkdf2 ls = false /\ e = no_pbkdf2_support /\ st' = st1)
          \/ (is_pbkdf2 ls = true
              /\ calculate_pbkdf2_response env (challenge ls) st1 = (Raise e, st')
              /\ (exn_cls e = IndexError \/ exn_cls e = ValueError
                  \/ exists pw salt n, env_pbkdf2 env pw salt n = Raise e))
          \/ exists cr st2,
              is_pbkdf2 ls = true
              /\ calculate_pbkdf2_response env (challenge ls) st1 = (Ok cr, st2)
              /\ ((SLEEP_LIMIT < blocktime ls
                   /\ exn_cls e = OverflowError
                   /\ st' = record (EvSleep (blocktime ls)) st2)
                  \/ (blocktime ls <= SLEEP_LIMIT
                      /\ exists cause,
                          send_response env cr (cooldown ls st2) = (Raise cause, st')
                          /\ e = failed_to_login cause)
                  \/ (blocktime ls <= SLEEP_LIMIT
                      /\ send_response env cr (cooldown ls st2)
                         = (Ok (Some NO_SESSION), st')
                      /\ e = wrong_credentials))).
Proof.
  intros Hrun. rewrite get_sid_unfold in Hrun.
  destruct (get_login_state env st) as [[ls | cause] st1] eqn:Hls.
  2:{ left. exists cause. injection Hrun as <- <-. split; reflexivity. }
  right. exists ls, st1. split; [reflexivity |].
  destruct (is_pbkdf2 ls).
  2:{ left. injection Hrun as <- <-. repeat split. }
  right.
  destruct (calculate_pbkdf2_response env (challenge ls) st1) as [[cr | e'] st2] eqn:Hcalc.
  2:{ left. injection Hrun as <- <-. split; [reflexivity |]. split; [reflexivity |].
      destruct (calculate_pbkdf2_response_raises env _ _ _ _ Hcalc) as [H | [H | H]];
        tauto. }
  right. exists cr, st2. split; [reflexivity |]. split; [reflexivity |].
  unfold cooldown_result, sleep_result in Hrun.
  assert (Hlim : cooldown ls st2 = (if 0 <? blocktime ls
                                    then record (EvSleep (blocktime ls)) st2 else st2))
    by reflexivity.
  destruct (0 <? blocktime ls) eqn:Hpos.
  - apply Z.ltb_lt in Hpos.
    destruct (blocktime ls <? 0) eqn:Hneg; [apply Z.ltb_lt in Hneg; lia |].
    destruct (SLEEP_LIMIT <? blocktime ls) eqn:Hbig.
    + left. apply Z.ltb_lt in Hbig. injection Hrun as <- <-.
      split; [exact Hbig |]. split; [reflexivity | exact Hlim].
    + right. apply Z.ltb_ge in Hbig.
      destruct (send_response env cr (cooldown ls st2)) as [[s | cause] st3].
      * right. split; [exact Hbig |].
        unfold check_session in Hrun. destruct s as [x |]; [| discriminate].
        destruct (String.eqb x NO_SESSION) eqn:Hx; [| discriminate].
        apply String.eqb_eq in Hx. subst x. injection Hrun as <- <-.
        split; reflexivity.
      * left. split; [exact Hbig |]. exists cause. injection Hrun as <- <-.
        split; reflexivity.
  - right. apply Z.ltb_ge in Hpos.
    assert (Hbig : blocktime ls <= SLEEP_LIMIT) by (unfold SLEEP_LIMIT; lia).
    destruct (send_response env cr (cooldown ls st2)) as [[s | cause] st3].
    + right. split; [exact Hbig |].
      unfold check_session in Hrun. destruct s as [x |]; [| discriminate].
      destruct (String.eqb x NO_SESSION) eqn:Hx; [| discriminate].
      apply String.eqb_eq in Hx. subst x. injection Hrun as <- <-.
      split; reflexivity.
    + left. split; [exact Hbig |]. exists cause. injection Hrun as <- <-.
      split; reflexivity.
Qed.

Lemma get_sid_raises_witness :
  let env := mock_env [] [login_state_answer "2$1$ab$1$cd" "9223372037"] [] in
  let st := mkSt demo_client [] in
  let e := Exn OverflowError [Lit "timestamp too large to convert to C _PyTime_t"] None in
  let st' := snd (_get_sid env st) in
  (exists cause,
      get_login_state env st = (Raise cause, st')
      /\ e = failed_to_get_challenge cause)
  \/ exists ls st1,
      get_login_state env st = (Ok ls, st1)
      /\ ((is_pbkdf2 ls = false /\ e = no_pbkdf2_support /\ st' = st1)
          \/ (is_pbkdf2 ls = true
              /\ calculate_pbkdf2_response env (challenge ls) st1 = (Raise e, st')
              /\ (exn_cls e = IndexError \/ exn_cls e = ValueError
                  \/ exists pw salt n, env_pbkdf2 env pw salt n = Raise e))
          \/ exists cr st2,
              is_pbkdf2 ls = true
              /\ calculate_pbkdf2_response env (challenge ls) st1 = (Ok cr, st2)
              /\ ((SLEEP_LIMIT < blocktime ls
                   /\ exn_cls e = OverflowError
                   /\ st' = record (EvSleep (blocktime ls)) st2)
                  \/ (blocktime ls <= SLEEP_LIMIT
                      /\ exists cause,
                          send_response env cr (cooldown ls st2) = (Raise cause, st')
                          /\ e = failed_to_login cause)
                  \/ (blocktime ls <= SLEEP_LIMIT
                      /\ send_response env cr (cooldown ls st2)
                         = (Ok (Some NO_SESSION), st')
                      /\ e = wrong_credentials))).
Proof.
  intros env st e st'.
  apply (get_sid_raises env st e st').
  reflexivity.
Defined.

(** ** The cached session *)

Lemma get_sid_client env st r st' : _get_sid env st = (r, st') -> client st' = client st.
Proof. intros H. now destruct (get_sid_exchange env st r st' H). Qed.

(** A call of [get_current_sid] that raises leaves the client exactly as
    it was, session id and deadline included; a call that returns hands out
    the session id it has stored and has set the deadline nineteen minutes
    after its last clock reading.  No call changes what the constructor was
    given. *)
Theorem get_current_sid_outcome env st r st' :
  get_current_sid env st = (r, st') ->
  same_config (client st) (client st')
  /\ (forall e, r = Raise e -> client st' = client st)
  /\ (forall s, r = Ok s ->
        sid (client st') = s
        /\ exists older,
            trace st' = EvTime :: older
            /\ sid_timeout (client st') = Some (env_time env older + 19 * 60)).
Proof.
  rewrite get_current_sid_unfold. unfold renew, stamp.
  destruct (sid (client st)) as [s0 |] eqn:Hsid.
  - destruct (sid_timeout (client st)) as [d |].
    + destruct (d <? env_time env (trace st)).
      * destruct (_get_sid env (record EvTime st)) as [[s1 | e1] st1] eqn:Hg;
          pose proof (get_sid_client env _ _ _ Hg) as Hc; cbn [record client] in Hc;
          intros H; injection H as <- <-; cbn [client trace];
          unfold same_config; rewrite ?Hc;
          repeat split; try discriminate;
          try (cbn [sid with_sid with_sid_timeout]; congruence);
          try (eexists; split; reflexivity).
      * intros H. injection H as <- <-. cbn [client trace record].
        repeat split; try discriminate;
          try (cbn [sid with_sid with_sid_timeout]; congruence);
          try (eexists; split; reflexivity).
    + intros H. injection H as <- <-. repeat split; discriminate.
  - destruct (_get_sid env st) as [[s1 | e1] st1] eqn:Hg;
      pose proof (get_sid_client env _ _ _ Hg) as Hc;
      intros H; injection H as <- <-; cbn [client trace];
      unfold same_config; rewrite ?Hc;
      repeat split; try discriminate;
      try (cbn [sid with_sid with_sid_timeout]; congruence);
      try (eexists; split; reflexivity).
Qed.

Lemma get_current_sid_outcome_witness :
  let env := mock_env [2000; 2001] [] [] in
  let st := mkSt (logged_in 1140) [] in
  let st' := mkSt (logged_in 1140) [EvGet (login_url st); EvTime] in
  same_config (client st) (client st')
  /\ (forall e, Raise (A := option string) (failed_to_get_challenge connection_error)
                = Raise e -> client st' = client st)
  /\ (forall s, Raise (failed_to_get_challenge connection_error) = Ok s ->
        sid (client st') = s
        /\ exists older,
            trace st' = EvTime :: older
            /\ sid_timeout (client st') = Some (env_time env older + 19 * 60)).
Proof.
  intros env st st'.
  apply (get_current_sid_outcome env st). reflexivity.
Defined.

(** A client that has a deadline whenever it has a session id keeps that
    property through [get_current_sid], and then every exception of
    [get_current_sid] is one an authentication exchange raised: the
    comparison of the clock with a missing deadline does not occur. *)
Theorem get_current_sid_deadline_set env st r st' :
  deadline_set (client st) ->
  get_current_sid env st = (r, st') ->
  deadline_set (client st')
  /\ (forall e, r = Raise e -> exists st0, _get_sid env st0 = (Raise e, st')).
Proof.
  intros Hinv. rewrite get_current_sid_unfold. unfold renew, stamp, deadline_set in *.
  destruct (sid (client st)) as [s0 |] eqn:Hsid.
  - destruct (sid_timeout (client st)) as [d |] eqn:Hd.
    + destruct (d <? env_time env (trace st)).
      * destruct (_get_sid env (record EvTime st)) as [[s1 | e1] st1] eqn:Hg;
          pose proof (get_sid_client env _ _ _ Hg) as Hc; cbn [record client] in Hc;
          intros H; injection H as <- <-; cbn [client]; split; try discriminate.
        -- rewrite Hc, Hd. discriminate.
        -- intros e He. injection He as <-. now exists (record EvTime st).
      * intros H. injection H as <- <-. split; discriminate.
    + now destruct Hinv.
  - destruct (_get_sid env st) as [[s1 | e1] st1] eqn:Hg;
      pose proof (get_sid_client env _ _ _ Hg) as Hc;
      intros H; injection H as <- <-; cbn [client]; split; try discriminate.
    + rewrite Hc, Hsid. intros Hbad. now destruct Hbad.
    + intros e He. injection He as <-. now exists st.
Qed.

Lemma get_current_sid_deadline_set_witness :
  let env := mock_env [2000; 2001] [] [] in
  let st := mkSt (logged_in 1140) [] in
  let st' := mkSt (logged_in 1140) [EvGet (login_url st); EvTime] in
  deadline_set (client st')
  /\ (forall e, Raise (A := option string) (failed_to_get_challenge connection_error)
                = Raise e -> exists st0, _get_sid env st0 = (Raise e, st')).
Proof.
  intros env st st'.
  apply (get_current_sid_deadline_set env st); [discriminate | reflexivity].
Defined.

(** ** Invariants of the client through the operations *)

Section Holds.

Variable env : Env.
Variable I : Client -> Prop.
Variable P : Event -> bool.

Lemma holds_ret {A} (a : A) : holds I P (ret a).
Proof. intros st r st' Hi H. injection H as <- <-. split; [exact Hi |]. now exists []. Qed.

Lemma holds_raise {A} e : holds I P (@raise A e).
Proof. intros st r st' Hi H. injection H as <- <-. split; [exact Hi |]. now exists []. Qed.

Lemma holds_lift {A} (x : Result A) : holds I P (lift x).
Proof. intros st r st' Hi H. injection H as <- <-. split; [exact Hi |]. now exists []. Qed.

Lemma holds_bind {A B} (m : M A) (k : A -> M B) :
  holds I P m -> (forall a, holds I P (k a)) -> holds I P (bind m k).
Proof.
  intros Hm Hk st r st' Hi H.
  apply bind_inv in H as [(a & st1 & H1 & H2) | (e & H1 & ->)].
  - destruct (Hm _ _ _ Hi H1) as (Hi1 & evs1 & Ht1 & Hp1).
    destruct (Hk a _ _ _ Hi1 H2) as (Hi2 & evs2 & Ht2 & Hp2).
    split; [exact Hi2 |]. exists (evs2 ++ evs1)%list.
    rewrite Ht2, Ht1, app_assoc, forallb_app, Hp1, Hp2. now split.
  - exact (Hm _ _ _ Hi H1).
Qed.

Lemma holds_get_client {B} (k : Client -> M B) :
  (forall c, holds I P (k c)) -> holds I P (bind get_client k).
Proof. intros Hk st r st' Hi H. exact (Hk (client st) st r st' Hi H). Qed.

Lemma holds_try_except_if {A} c (m : M A) h :
  holds I P m -> (forall e, holds I P (h e)) -> holds I P (try_except_if c m h).
Proof.
  intros Hm Hh st r st' Hi H. unfold try_except_if in H.
  destruct (m st) as [[a | e] st1] eqn:H1.
  - injection H as <- <-. exact (Hm _ _ _ Hi H1).
  - destruct (c (exn_cls e)).
    + destruct (Hm _ _ _ Hi H1) as (Hi1 & evs1 & Ht1 & Hp1).
      destruct (Hh e _ _ _ Hi1 H) as (Hi2 & evs2 & Ht2 & Hp2).
      split; [exact Hi2 |]. exists (evs2 ++ evs1)%list.
      rewrite Ht2, Ht1, app_assoc, forallb_app, Hp1, Hp2. now split.
    + injection H as <- <-. exact (Hm _ _ _ Hi H1).
Qed.

Lemma holds_try_except {A} (m : M A) h :
  holds I P m -> (forall e, holds I P (h e)) -> holds I P (try_except m h).
Proof.
  intros Hm Hh st r st' Hi H. unfold try_except in H.
  destruct (m st) as [[a | e] st1] eqn:H1.
  - injection H as <- <-. exact (Hm _ _ _ Hi H1).
  - destruct (Hm _ _ _ Hi H1) as (Hi1 & evs1 & Ht1 & Hp1).
    destruct (Hh e _ _ _ Hi1 H) as (Hi2 & evs2 & Ht2 & Hp2).
    split; [exact Hi2 |]. exists (evs2 ++ evs1)%list.
    rewrite Ht2, Ht1, app_assoc, forallb_app, Hp1, Hp2. now split.
Qed.

Lemma holds_call {A} (e : Event) (answer : Trace -> Result A) :
  P e = true -> holds I P (fun st => (answer (trace st), record e st)).
Proof.
  intros He st r st' Hi H. injection H as <- <-. split; [exact Hi |].
  exists [e]. cbn. now rewrite He.
Qed.

Lemma holds_safe_post_request url data :
  P (EvPost url data None) = true -> holds I P (safe_post_request env url data).
Proof.
  intros H. unfold safe_post_request. apply holds_try_except_if.
  - exact (holds_call (EvPost url data None) (fun tr => env_post env tr url data None) H).
  - intros e. apply holds_raise.
Qed.

Hypothesis sid_holds : holds I P (get_current_sid env).
Hypothesis posts_allowed : forall url data, P (EvPost url data None) = true.

Ltac holds_step :=
  first
    [ exact sid_holds
    | apply holds_safe_post_request; apply posts_allowed
    | apply holds_ret
    | apply holds_raise
    | apply holds_lift
    | apply holds_get_client; intros ?
    | apply holds_bind; [| intros ?]
    | match goal with
      | |- holds _ _ (match ?x with _ => _ end) => destruct x
      end ].

(** Reading the messages. *)
Lemma get_sms_incoming_holds : holds I P (get_sms_incoming env).
Proof.
  unfold get_sms_incoming, get_sms.
  repeat first
         [ holds_step
         | apply holds_try_except_if;
           [exact (holds_call (EvPost _ _ None)
                              (fun tr => env_post env tr _ _ None)
                              (posts_allowed _ _))
           | intros ?] ].
Qed.

Hypothesis acquire_allowed : P (EvAcquire "sms_send") = true.
Hypothesis totp_allowed : P EvTotp = true.

(** Sending one message. *)
Lemma send_sms_holds receiver message : holds I P (send_sms env receiver message).
Proof.
  unfold send_sms, enforce_rate_limit, send_sms_protocol, send_sms_confirm,
    send_sms_twofactor.
  repeat first
         [ holds_step
         | apply holds_try_except; [| intros ?]
         | exact (holds_call (EvAcquire "sms_send")
                             (fun tr => env_try_acquire env _ tr "sms_send")
                             acquire_allowed)
         | exact (holds_call EvTotp (fun tr => env_totp env tr _) totp_allowed) ].
Qed.

Hypothesis pause_allowed : P (EvSleep 5) = true.

(** Sending to several receivers. *)
Lemma send_sms_multiple_holds receivers message :
  holds I P (send_sms_multiple env receivers message).
Proof.
  unfold send_sms_multiple. generalize 0%nat.
  induction receivers as [| r rest IH]; intros id; cbn [send_sms_each].
  - apply holds_ret.
  - apply holds_bind.
    + destruct (0 <? id)%nat; [| apply holds_ret].
      exact (holds_call (EvSleep 5) (fun _ => Ok tt) pause_allowed).
    + intros _. apply holds_bind; [apply send_sms_holds |]. intros _. apply IH.
Qed.

End Holds.

Lemma forallb_anything (evs : list Event) : forallb anything evs = true.
Proof. induction evs; [reflexivity | exact IHevs]. Qed.

Lemma get_current_sid_trace env st r st' :
  get_current_sid env st = (r, st') ->
  exists evs, trace st' = (evs ++ trace st)%list.
Proof.
  intros H.
  destruct (get_current_sid_keeps env _ st r st' eq_refl H) as (_ & evs & Ht & _).
  now exists evs.
Qed.

Lemma get_current_sid_same_config env st r st' :
  get_current_sid env st = (r, st') -> same_config (client st) (client st').
Proof.
  rewrite get_current_sid_unfold. unfold renew, stamp, same_config.
  destruct (sid (client st)) as [s0 |].
  - destruct (sid_timeout (client st)) as [d |].
    + destruct (d <? env_time env (trace st)).
      * destruct (_get_sid env (record EvTime st)) as [[s1 | e1] st1] eqn:Hg;
          pose proof (get_sid_client env _ _ _ Hg) as Hc; cbn [record client] in Hc;
          intros H; injection H as _ <-; cbn [client]; rewrite ?Hc; repeat split.
      * intros H. injection H as _ <-. repeat split.
    + intros H. injection H as _ <-. repeat split.
  - destruct (_get_sid env st) as [[s1 | e1] st1] eqn:Hg;
      pose proof (get_sid_client env _ _ _ Hg) as Hc;
      intros H; injection H as _ <-; cbn [client]; rewrite ?Hc; repeat split.
Qed.

Lemma get_current_sid_deadline_kept env st r st' :
  deadline_set (client st) ->
  get_current_sid env st = (r, st') -> deadline_set (client st').
Proof.
  intros Hinv. rewrite get_current_sid_unfold. unfold renew, stamp, deadline_set in *.
  destruct (sid (client st)) as [s0 |] eqn:Hsid.
  - destruct (sid_timeout (client st)) as [d |] eqn:Hd.
    + destruct (d <? env_time env (trace st)).
      * destruct (_get_sid env (record EvTime st)) as [[s1 | e1] st1] eqn:Hg;
          pose proof (get_sid_client env _ _ _ Hg) as Hc; cbn [record client] in Hc;
          intros H; injection H as _ <-; cbn [client]; try discriminate.
        rewrite Hc, Hd. discriminate.
      * intros H. injection H as _ <-. discriminate.
    + now destruct Hinv.
  - destruct (_get_sid env st) as [[s1 | e1] st1] eqn:Hg;
      pose proof (get_sid_client env _ _ _ Hg) as Hc;
      intros H; injection H as _ <-; cbn [client]; try discriminate.
    rewrite Hc, Hsid. intros Hbad. now destruct Hbad.
Qed.

Lemma same_config_trans c1 c2 c3 :
  same_config c1 c2 -> same_config c2 c3 -> same_config c1 c3.
Proof. unfold same_config. intuition congruence. Qed.

Lemma same_config_refl c : same_config c c.
Proof. repeat split. Qed.

Lemma get_current_sid_holds_config env c0 :
  holds (same_config c0) anything (get_current_sid env).
Proof.
  intros st r st' Hi H. split.
  - eapply same_config_trans; [exact Hi |]. eapply get_current_sid_same_config; eauto.
  - destruct (get_current_sid_trace env st r st' H) as (evs & Ht).
    exists evs. split; [exact Ht | apply forallb_anything].
Qed.

Lemma get_current_sid_holds_deadline env :
  holds deadline_set anything (get_current_sid env).
Proof.
  intros st r st' Hi H. split.
  - eapply get_current_sid_deadline_kept; eauto.
  - destruct (get_current_sid_trace env st r st' H) as (evs & Ht).
    exists evs. split; [exact Ht | apply forallb_anything].
Qed.

(** Sending, to one receiver or to several, and reading the incoming
    messages change nothing the constructor was given (rates, address, user
    name, password, secret), and keep a deadline beside every session id. *)
Theorem operations_keep_client env st :
  (forall receiver message r st',
      send_sms env receiver message st = (r, st') ->
      same_config (client st) (client st')
      /\ (deadline_set (client st) -> deadline_set (client st')))
  /\ (forall receivers message r st',
         send_sms_multiple env receivers message st = (r, st') ->
         same_config (client st) (client st')
         /\ (deadline_set (client st) -> deadline_set (client st')))
  /\ (forall r st',
         get_sms_incoming env st = (r, st') ->
         same_config (client st) (client st')
         /\ (deadline_set (client st) -> deadline_set (client st'))).
Proof.
  split; [| split].
  - intros rc msg r st' H. split.
    + exact (proj1 (send_sms_holds env _ anything
                      (get_current_sid_holds_config env (client st))
                      (fun _ _ => eq_refl) eq_refl eq_refl rc msg
                      st r st' (same_config_refl _) H)).
    + intros Hd.
      exact (proj1 (send_sms_holds env _ anything (get_current_sid_holds_deadline env)
                      (fun _ _ => eq_refl) eq_refl eq_refl rc msg st r st' Hd H)).
  - intros rcs msg r st' H. split.
    + exact (proj1 (send_sms_multiple_holds env _ anything
                      (get_current_sid_holds_config env (client st))
                      (fun _ _ => eq_refl) eq_refl eq_refl eq_refl rcs msg
                      st r st' (same_config_refl _) H)).
    + intros Hd.
      exact (proj1 (send_sms_multiple_holds env _ anything
                      (get_current_sid_holds_deadline env)
                      (fun _ _ => eq_refl) eq_refl eq_refl eq_refl rcs msg
                      st r st' Hd H)).
  - intros r st' H. split.
    + exact (proj1 (get_sms_incoming_holds env _ anything
                      (get_current_sid_holds_config env (client st))
                      (fun _ _ => eq_refl) st r st' (same_config_refl _) H)).
    + intros Hd.
      exact (proj1 (get_sms_incoming_holds env _ anything
                      (get_current_sid_holds_deadline env)
                      (fun _ _ => eq_refl) st r st' Hd H)).
Qed.

Lemma operations_keep_client_witness :
  let env := mock_env [] []
                      [data_answer [("apply", JStr "ok"); ("redirect", JStr "/sms")]] in
  let st := mkSt (logged_in 1140) [] in
  let st' := snd (send_sms env "0123456" "hello" st) in
  same_config (client st) (client st')
  /\ (deadline_set (client st) -> deadline_set (client st')).
Proof.
  intros env st st'.
  destruct (operations_keep_client env st) as (Hsend & _ & _).
  apply (Hsend "0123456" "hello" (fst (send_sms env "0123456" "hello" st)) st').
  reflexivity.
Defined.

(** ** A session that stays fresh *)

Lemma get_current_sid_holds_session env s horizon :
  (forall h, horizon - 19 * 60 <= env_time env h <= horizon) ->
  holds (session_until s horizon) no_login_call (get_current_sid env).
Proof.
  intros Hclock st r st' (Hsid & d & Hd & Hle) H.
  rewrite get_current_sid_unfold, Hsid, Hd in H.
  assert (Hfresh : (d <? env_time env (trace st)) = false).
  { apply Z.ltb_ge. pose proof (Hclock (trace st)). lia. }
  rewrite Hfresh in H. injection H as <- <-. unfold stamp, session_until.
  cbn [record client trace sid sid_timeout with_sid_timeout]. split.
  - split; [exact Hsid |]. eexists. split; [reflexivity |].
    pose proof (Hclock (EvTime :: trace st)). lia.
  - now exists [EvTime; EvTime].
Qed.

(** While every clock reading lies in one span of nineteen minutes that
    ends no later than the deadline of the cached session, a send, to one
    receiver or to several, never calls the login endpoint: the session is
    neither fetched nor renewed, and it is still cached, with a deadline
    past the span, when the send is over. *)
Theorem send_sms_within_session env s horizon st :
  (forall h, horizon - 19 * 60 <= env_time env h <= horizon) ->
  session_until s horizon (client st) ->
  (forall receiver message r st',
      send_sms env receiver message st = (r, st') ->
      session_until s horizon (client st')
      /\ exists evs, issued st st' evs /\ forallb no_login_call evs = true)
  /\ (forall receivers message r st',
         send_sms_multiple env receivers message st = (r, st') ->
         session_until s horizon (client st')
         /\ exists evs, issued st st' evs /\ forallb no_login_call evs = true).
Proof.
  intros Hclock Hsession.
  assert (Hrev : forall st' evs,
             trace st' = (evs ++ trace st)%list ->
             forallb no_login_call evs = true ->
             exists evs', issued st st' evs' /\ forallb no_login_call evs' = true).
  { intros st' evs Ht Hp. exists (rev evs). unfold issued.
    rewrite rev_involutive. split; [exact Ht |].
    rewrite forallb_forall in *. intros e He. apply Hp. now apply in_rev. }
  split.
  - intros rc msg r st' H.
    destruct (send_sms_holds env _ no_login_call
                (get_current_sid_holds_session env s horizon Hclock)
                (fun _ _ => eq_refl) eq_refl eq_refl rc msg st r st' Hsession H)
      as (Hs & evs & Ht & Hp).
    split; [exact Hs | now apply (Hrev st' evs)].
  - intros rcs msg r st' H.
    destruct (send_sms_multiple_holds env _ no_login_call
                (get_current_sid_holds_session env s horizon Hclock)
                (fun _ _ => eq_refl) eq_refl eq_refl eq_refl rcs msg st r st'
                Hsession H)
      as (Hs & evs & Ht & Hp).
    split; [exact Hs | now apply (Hrev st' evs)].
Qed.

Lemma send_sms_within_session_witness :
  let env := mock_env [] []
                      [data_answer [("apply", JStr "ok"); ("new_uid", JStr "u1")];
                       data_answer [("second_apply", JStr "twofactor");
                                    ("twofactor", JStr "button,googleauth")];
                       data_answer []; data_answer []; data_answer []] in
  let st := mkSt (logged_in 1140) [] in
  let st' := snd (send_sms env "0123456" "hello" st) in
  session_until demo_sid 1140 (client st')
  /\ exists evs, issued st st' evs /\ forallb no_login_call evs = true.
Proof.
  intros env st st'.
  assert (Hclock : forall h, 1140 - 19 * 60 <= env_time env h <= 1140).
  { intros h. cbn [env env_time mock_env]. unfold scripted.
    destruct (count is_time h); cbn; lia. }
  assert (Hsession : session_until demo_sid 1140 (client st)).
  { split; [reflexivity |]. exists 1140. split; [reflexivity | lia]. }
  destruct (send_sms_within_session env demo_sid 1140 st Hclock Hsession)
    as [Hone _].
  apply (Hone "0123456" "hello" (fst (send_sms env "0123456" "hello" st)) st').
  reflexivity.
Defined.

(** ** The constructor *)

Lemma get_sid_not_null env st s st' :
  _get_sid env st = (Ok s, st') -> s <> Some NO_SESSION.
Proof.
  rewrite get_sid_unfold.
  destruct (get_login_state env st) as [[ls | e] st1]; [| discriminate].
  destruct (is_pbkdf2 ls); [| discriminate].
  destruct (calculate_pbkdf2_response env _ st1) as [[cr | e] st2]; [| discriminate].
  destruct (cooldown_result ls); [| discriminate].
  destruct (send_response env cr _) as [[[x |] | e] st3]; try discriminate;
    cbn [check_session].
  - destruct (String.eqb x NO_SESSION) eqn:E; [discriminate |].
    intros H Hbad. assert (x = NO_SESSION) by congruence. subst x.
    discriminate E.
  - intros H Hbad. congruence.
Qed.

Lemma get_sid_no_acquire env st r st' :
  _get_sid env st = (r, st') ->
  exists evs, trace st' = (evs ++ trace st)%list /\ count is_acquire evs = 0%nat.
Proof.
  intros Hg.
  assert (Hk : keeps (box_url (client st)) not_acquire (_get_sid env)).
  { unfold _get_sid, get_login_state, calculate_pbkdf2_response, send_response.
    repeat keeps_step;
      first [ apply keeps_time_sleep | apply keeps_pbkdf2
            | apply keeps_requests_get | apply keeps_requests_post ];
      reflexivity. }
  destruct (Hk st r st' eq_refl Hg) as (_ & evs & Ht & Hp).
  exists evs. split; [exact Ht | now apply count_none].
Qed.

(** The constructor sets up the client from its arguments, with the rate
    it is given or else ten per hour and with no session, and runs one
    authentication exchange from there: one GET and at most one POST, and no
    call to the limiter.  If the exchange raises, the constructor raises the
    same exception and has done nothing more.  If the exchange returns, the
    constructor reads the clock once more and returns the client whose
    session id is what the exchange returned and whose deadline is nineteen
    minutes after that clock reading, the other fields being the arguments.
    What the exchange returned is the text of the device's [SID] element:
    it is never the sixteen zeros, and it is [None] when that element is
    empty. *)
Theorem FBSMSLib_init_authenticates env url user pw secret rate0 tr r tr' :
  FBSMSLib_init env url user pw secret rate0 tr = (r, tr') ->
  let rates := match rate0 with
               | Some x => [x]
               | None => [mkRate 10 Duration_HOUR]
               end in
  let self := mkClient rates url user pw secret None None in
  (exists evs,
      tr' = (rev evs ++ tr)%list
      /\ count is_get evs = 1%nat
      /\ (count is_post evs <= 1)%nat
      /\ count is_acquire evs = 0%nat)
  /\ (forall e, r = Raise e ->
        exists st', _get_sid env (mkSt self tr) = (Raise e, st')
                    /\ tr' = trace st')
  /\ (forall c, r = Ok c ->
        exists st',
          _get_sid env (mkSt self tr) = (Ok (sid c), st')
          /\ tr' = EvTime :: trace st'
          /\ c = mkClient rates url user pw secret (sid c)
                          (Some (env_time env (trace st') + 19 * 60))
          /\ sid c <> Some NO_SESSION).
Proof.
  rewrite FBSMSLib_init_run. cbv zeta.
  set (self := mkClient _ url user pw secret None None).
  destruct (_get_sid env (mkSt self tr)) as [[s | e] st'] eqn:Hg;
    destruct (get_sid_exchange env _ _ _ Hg) as (Hc & evs & Hiss & Hget & Hpost & _);
    destruct (get_sid_no_acquire env _ _ _ Hg) as (evs' & Ht' & Hacq');
    unfold issued in Hiss; cbn [trace] in Hiss, Ht';
    assert (Hacq : count is_acquire evs = 0%nat)
      by (rewrite Hiss in Ht'; apply app_inv_tail in Ht'; rewrite <- Ht' in Hacq';
          rewrite count_rev in Hacq'; exact Hacq');
    intros H; injection H as <- <-.
  - split.
    + exists (EvGet (login_url (mkSt self tr)) :: evs ++ [EvTime])%list.
      cbn [rev]. rewrite rev_app_distr. cbn [rev app]. rewrite Hiss.
      cbn [rev]. rewrite <- !app_assoc. cbn [app]. split; [reflexivity |].
      change (EvGet (login_url (mkSt self tr)) :: evs ++ [EvTime])%list
        with ([EvGet (login_url (mkSt self tr))] ++ evs ++ [EvTime])%list.
      rewrite !count_app, Hget, Hacq. repeat split; cbn; lia.
    + split; [discriminate |].
      intros c Hc'. injection Hc' as <-. exists st'.
      rewrite Hc.
      cbn [box_url username password totpsecret rate sid sid_timeout
                   with_sid with_sid_timeout client self].
      split; [reflexivity |]. split; [reflexivity |]. split; [reflexivity |].
      now apply (get_sid_not_null env _ _ _ Hg).
  - split.
    + exists (EvGet (login_url (mkSt self tr)) :: evs)%list.
      split; [exact Hiss |].
      change (EvGet (login_url (mkSt self tr)) :: evs)%list
        with ([EvGet (login_url (mkSt self tr))] ++ evs)%list.
      rewrite !count_app, Hget, Hacq. repeat split; cbn; lia.
    + split; [| discriminate].
      intros e0 He0. injection He0 as <-. now exists st'.
Qed.

Lemma FBSMSLib_init_authenticates_witness :
  let env := mock_env [7] [login_state_answer "2$1$ab$1$cd" "0"]
                      [session_answer (Some demo_sid)] in
  let self := mkClient [mkRate 3 1000] "http://fritz.box" "smsuser" "secret"
                       "JBSWY3DPEHPK3PXP" None None in
  let made := FBSMSLib_init env "http://fritz.box" "smsuser" "secret"
                            "JBSWY3DPEHPK3PXP" (Some (mkRate 3 1000)) [] in
  let c := mkClient [mkRate 3 1000] "http://fritz.box" "smsuser" "secret"
                    "JBSWY3DPEHPK3PXP" (Some demo_sid) (Some (7 + 19 * 60)) in
  exists st',
    _get_sid env (mkSt self []) = (Ok (sid c), st')
    /\ snd made = EvTime :: trace st'
    /\ c = mkClient [mkRate 3 1000] "http://fritz.box" "smsuser" "secret"
                    "JBSWY3DPEHPK3PXP" (sid c)
                    (Some (env_time env (trace st') + 19 * 60))
    /\ sid c <> Some NO_SESSION.
Proof.
  intros env self made c.
  destruct (FBSMSLib_init_authenticates
              env "http://fritz.box" "smsuser" "secret" "JBSWY3DPEHPK3PXP"
              (Some (mkRate 3 1000)) [] (fst made) (snd made) eq_refl)
    as (_ & _ & Hok).
  apply (Hok c). reflexivity.
Defined.

(** ** Answers that end a send *)

Lemma lift_inv {A} (x : Result A) st a st' :
  lift x st = (Ok a, st') -> x = Ok a /\ st' = st.
Proof. intros H. injection H as -> <-. now split. Qed.

Lemma json_is_str_eq v s : json_is_str v s = true -> v = JStr s.
Proof.
  destruct v; try discriminate. cbn. intros H. apply String.eqb_eq in H. now subst.
Qed.

Lemma data_field_ok r k v :
  data_field r k = Ok v ->
  exists items, json_data r = Ok (JObj items) /\ assoc k items = Some v.
Proof.
  unfold data_field. destruct (json_data r) as [d |]; [| discriminate].
  destruct d; try discriminate. cbn [py_getitem].
  destruct (assoc k items) as [x |] eqn:Hk; [| discriminate].
  intros H. injection H as <-. now exists items.
Qed.

Lemma data_field_missing r items k :
  json_data r = Ok (JObj items) -> assoc k items = None ->
  data_field r k = Raise (Exn KeyError [Lit k] None).
Proof. intros Hd Hk. unfold data_field. rewrite Hd. cbn. now rewrite Hk. Qed.

Lemma data_field_raises r k e :
  data_field r k = Raise e ->
  exn_cls e = JSONDecodeError \/ exn_cls e = KeyError \/ exn_cls e = TypeError.
Proof.
  unfold data_field, json_data, response_json.
  destruct (resp_json r) as [j |]; [| intros H; injection H as <-; now left].
  assert (Hget : forall v key x, py_getitem v key = Raise x ->
                                 exn_cls x = KeyError \/ exn_cls x = TypeError).
  { intros v key x. destruct v; cbn; try (intros H; injection H as <-; now right).
    destruct (assoc key items); [discriminate |].
    intros H; injection H as <-; now left. }
  destruct (py_getitem j "data") as [d |] eqn:Hd.
  - intros H. right. exact (Hget _ _ _ H).
  - intros H. injection H as <-. right. exact (Hget _ _ _ Hd).
Qed.

Lemma bind_assoc {A B C} (m : M A) (f : A -> M B) (k : B -> M C) st :
  bind (bind m f) k st = bind m (fun x => bind (f x) k) st.
Proof. unfold bind. destruct (m st) as [[a | e] st1]; reflexivity. Qed.

Lemma bind_raise_now {A B} e (k : A -> M B) st : bind (raise e) k st = (Raise e, st).
Proof. reflexivity. Qed.

Ltac inv_bind H :=
  let a := fresh "a" in
  let st1 := fresh "st" in
  let H1 := fresh "Hstep" in
  let e := fresh "e" in
  let He := fresh "He" in
  apply bind_inv in H as [(a & st1 & H1 & H) | (e & H1 & He)];
  [| discriminate He].

Section Endings.

Variable env : Env.
Variables receiver message : string.
Variable st : St.

(** The run of [send_sms] up to the answer to its first request. *)
Lemma send_sms_first_answer_run sid1 st2 resp1 :
  first_answer env receiver message st sid1 st2 resp1 ->
  exists st1,
    enforce_rate_limit env st = (Ok tt, st1)
    /\ client st1 = client st
    /\ get_current_sid env st1 = (Ok sid1, st2)
    /\ safe_post_request env (data_url st) (apply_form sid1 receiver message) st2
       = (Ok resp1, record (apply_request receiver message st sid1) st2).
Proof.
  intros (st1 & Hgate & Hsid & Hpost). exists st1.
  assert (Hst1 : st1 = record (EvAcquire "sms_send") st).
  { rewrite enforce_rate_limit_run in Hgate. now injection Hgate. }
  repeat split; try assumption; [now subst st1 |].
  cbn [answered apply_request] in Hpost.
  exact (safe_post_request_ok env _ _ _ _ Hpost).
Qed.

(** An answer whose [apply] is not ["ok"] ends the send after its first
    request: with the validation error the device reports when [apply] is
    ["valerror"] (a [KeyError] when the device reports none), otherwise
    with the error that quotes the whole answer. *)
Theorem send_sms_apply_rejected sid1 st2 resp1 items1 a :
  first_answer env receiver message st sid1 st2 resp1 ->
  json_data resp1 = Ok (JObj items1) ->
  assoc "apply" items1 = Some a ->
  json_is_str a "ok" = false ->
  send_sms env receiver message st =
  (Raise (if json_is_str a "valerror"
          then match assoc "valerror" items1 with
               | Some detail =>
                   Exn RuntimeError [Lit "Validation error: "; Val detail] None
               | None => Exn KeyError [Lit "valerror"] None
               end
          else Exn RuntimeError
                   [Lit "Failed to initiate SMS sending. Response: "; Val (JObj items1)]
                   None),
   record (apply_request receiver message st sid1) st2).
Proof.
  intros Hfirst Hdata Happly Hnot.
  destruct (send_sms_first_answer_run sid1 st2 resp1 Hfirst)
    as (st1 & Hgate & Hc1 & Hsid & Hpost).
  unfold send_sms. run_ok Hgate. unfold send_sms_protocol.
  rewrite bind_get_client. cbv zeta. run_ok Hsid. rewrite Hc1.
  fold (data_url st). run_ok Hpost.
  run_lift (data_field_items _ _ _ _ Hdata Happly). rewrite Hnot. cbn [negb].
  rewrite bind_assoc.
  run_lift (data_field_items _ _ _ _ Hdata Happly). rewrite bind_assoc.
  destruct (json_is_str a "valerror").
  - rewrite bind_assoc.
    destruct (assoc "valerror" items1) as [detail |] eqn:Hdetail.
    + run_lift (data_field_items _ _ _ _ Hdata Hdetail). reflexivity.
    + unfold bind at 1. unfold lift at 1.
      now rewrite (data_field_missing _ _ _ Hdata Hdetail).
  - rewrite bind_ret, bind_assoc. run_lift Hdata. reflexivity.
Qed.

(** An answer to the first request that is not JSON, or has no [data]
    object with an [apply] entry, ends the send after that request with
    the [JSONDecodeError], [KeyError] or [TypeError] of the failed
    access. *)
Theorem send_sms_apply_unreadable sid1 st2 resp1 e :
  first_answer env receiver message st sid1 st2 resp1 ->
  data_field resp1 "apply" = Raise e ->
  send_sms env receiver message st =
  (Raise e, record (apply_request receiver message st sid1) st2)
  /\ (exn_cls e = JSONDecodeError \/ exn_cls e = KeyError \/ exn_cls e = TypeError).
Proof.
  intros Hfirst Hfield. split; [| exact (data_field_raises _ _ _ Hfield)].
  destruct (send_sms_first_answer_run sid1 st2 resp1 Hfirst)
    as (st1 & Hgate & Hc1 & Hsid & Hpost).
  unfold send_sms. run_ok Hgate. unfold send_sms_protocol.
  rewrite bind_get_client. cbv zeta. run_ok Hsid. rewrite Hc1.
  fold (data_url st). run_ok Hpost.
  unfold bind, lift. now rewrite Hfield.
Qed.

(** An accepted first answer that carries neither a redirect nor a
    [new_uid] ends the send with a [KeyError] right after the first
    request: no confirming request is made. *)
Theorem send_sms_apply_without_uid sid1 st2 items1 :
  applied env receiver message st sid1 st2 items1 ->
  assoc "redirect" items1 = None ->
  assoc "new_uid" items1 = None ->
  send_sms env receiver message st =
  (Raise (Exn KeyError [Lit "new_uid"] None),
   record (apply_request receiver message st sid1) st2).
Proof.
  intros Happlied Hnored Hnouid.
  destruct (send_sms_applied env receiver message st sid1 st2 items1 Happlied)
    as (resp1 & Hdata1 & Hrun & _).
  rewrite Hrun, assoc_keys, Hnored. unfold send_sms_confirm, bind, lift.
  now rewrite (data_field_missing _ _ _ Hdata1 Hnouid).
Qed.

(** When the answer to the confirming request does not have [second_apply]
    equal to ["twofactor"], the send ends right after the confirming
    request: with the not-implemented error that quotes the value, or with
    the error of the failed access when there is no such value.  The second
    factor is not tried. *)
Theorem send_sms_second_apply_unexpected sid1 sid2 uid st3 resp2 :
  second_answer env receiver message st sid1 sid2 uid st3 resp2 ->
  (forall v, data_field resp2 "second_apply" = Ok v ->
             json_is_str v "twofactor" = false) ->
  send_sms env receiver message st =
  (Raise match data_field resp2 "second_apply" with
         | Ok v => second_apply_unexpected v
         | Raise e => e
         end,
   record (confirm_request receiver message st sid2 uid) st3).
Proof.
  intros (st2 & items1 & Happlied & Hnored & Huid & Hsid & Hpost) Hnot.
  destruct (send_sms_applied env receiver message st sid1 st2 items1 Happlied)
    as (resp1 & Hdata1 & Hrun & _).
  rewrite Hrun, assoc_keys, Hnored. unfold send_sms_confirm.
  run_lift (data_field_items _ _ _ _ Hdata1 Huid). run_ok Hsid.
  cbn [answered confirm_request] in Hpost.
  run_ok (safe_post_request_ok env _ _ _ _ Hpost).
  destruct (data_field resp2 "second_apply") as [v | e] eqn:Hsecond.
  - rewrite (bind_lift_ok _ _ _ _ eq_refl). cbv beta.
    rewrite (Hnot v eq_refl).
    rewrite (bind_lift_ok _ _ _ _ eq_refl). reflexivity.
  - reflexivity.
Qed.

End Endings.

(** ** Sends that return *)

Section Returns.

Variable env : Env.
Variables receiver message : string.
Variable st : St.

(** A send that returns has passed the gate and had its first request
    accepted; then either that answer carried a redirect, or the
    confirming phase returned. *)
Lemma send_sms_ok_inv st' :
  send_sms env receiver message st = (Ok tt, st') ->
  exists sid1 st2 items1 resp1,
    applied env receiver message st sid1 st2 items1
    /\ json_data resp1 = Ok (JObj items1)
    /\ ((exists target, assoc "redirect" items1 = Some target)
        /\ st' = record (apply_request receiver message st sid1) st2
        \/ assoc "redirect" items1 = None
           /\ send_sms_confirm env (data_url st) (mfa_url st) receiver message resp1
                               (record (apply_request receiver message st sid1) st2)
              = (Ok tt, st')).
Proof.
  intros H. unfold send_sms in H. inv_bind H.
  assert (Hst0 : st0 = record (EvAcquire "sms_send") st).
  { rewrite enforce_rate_limit_run in Hstep. now injection Hstep. }
  unfold send_sms_protocol in H. rewrite bind_get_client in H. cbv zeta in H.
  subst st0. cbn [record client] in H.
  inv_bind H. rename a0 into sid1, st0 into st2, Hstep0 into Hsid.
  inv_bind H. rename a0 into resp1, Hstep0 into Hpost.
  apply safe_post_request_inv in Hpost as [Hpost ->].
  inv_bind H. apply lift_inv in Hstep0 as [Hfield ->].
  destruct (data_field_ok _ _ _ Hfield) as (items1 & Hdata & Happly).
  destruct (json_is_str a0 "ok") eqn:Hok; cbn [negb] in H.
  2:{ rewrite bind_assoc in H. rewrite (bind_lift_ok _ _ _ _ Hfield) in H.
      cbv beta in H. exfalso.
      rewrite bind_assoc in H.
      destruct (json_is_str a0 "valerror").
      - rewrite bind_assoc in H. inv_bind H. discriminate H.
      - rewrite bind_ret, bind_assoc in H. inv_bind H. discriminate H. }
  rewrite bind_ret in H. apply json_is_str_eq in Hok. subst a0.
  rewrite (bind_lift_ok _ _ _ _ Hdata) in H. cbv beta in H.
  change (py_keys (JObj items1)) with (Ok (map fst items1)) in H.
  rewrite (bind_lift_ok _ _ _ _ eq_refl) in H. cbv beta in H.
  rewrite assoc_keys in H.
  exists sid1, st2, items1, resp1. split; [| split; [exact Hdata |]].
  - exists (record (EvAcquire "sms_send") st), resp1. destruct a.
    repeat split; assumption.
  - destruct (assoc "redirect" items1) as [target |].
    + left. split; [now exists target | now injection H].
    + right. now split.
Qed.

(** A confirming phase that returns had its request answered with
    [second_apply] equal to ["twofactor"] and a method list containing
    ["googleauth"], and then the second factor went through. *)
Lemma send_sms_confirm_ok_inv resp1 items1 stA st' :
  json_data resp1 = Ok (JObj items1) ->
  send_sms_confirm env (data_url st) (mfa_url st) receiver message resp1 stA
  = (Ok tt, st') ->
  exists uid sid2 st3 resp2 sid3 sid4 sid5 code,
    assoc "new_uid" items1 = Some uid
    /\ get_current_sid env stA = (Ok sid2, st3)
    /\ answered env st3 (confirm_request receiver message st sid2 uid) resp2
    /\ factor_submitted env receiver message st uid
                        (record (confirm_request receiver message st sid2 uid) st3)
                        sid3 sid4 sid5 code st'.
Proof.
  intros Hdata1 H. unfold send_sms_confirm in H.
  inv_bind H. apply lift_inv in Hstep as [Huid ->].
  destruct (data_field_ok _ _ _ Huid) as (items1' & Hdata1' & Huid').
  assert (items1' = items1) by congruence. subst items1'.
  inv_bind H. rename a0 into sid2, st0 into st3, Hstep into Hsid.
  inv_bind H. rename a0 into resp2, Hstep into Hpost.
  apply safe_post_request_inv in Hpost as [Hpost ->].
  inv_bind H. apply lift_inv in Hstep as [Hsecond ->].
  destruct (json_is_str a0 "twofactor").
  2:{ inv_bind H. discriminate H. }
  inv_bind H. apply lift_inv in Hstep as [Hmethods ->].
  inv_bind H. apply lift_inv in Hstep as [Hin ->].
  destruct a2.
  2:{ inv_bind H. discriminate H. }
  destruct (send_sms_twofactor_inv env receiver message st a _ st' H)
    as (sid3 & sid4 & sid5 & code & Hfactor).
  exists a, sid2, st3, resp2, sid3, sid4, sid5, code.
  repeat split; assumption.
Qed.

(** [send_sms] returns normally only after one request of the send
    protocol, the first one, or after all five of them in their order:
    never after two, three or four. *)
Theorem send_sms_returns_after_one_or_five st' :
  send_sms env receiver message st = (Ok tt, st') ->
  exists sid1,
    sends (box_url (client st)) st st' [apply_request receiver message st sid1]
    \/ exists sid2 uid sid3 sid4 sid5 code,
        sends (box_url (client st)) st st'
              [apply_request receiver message st sid1;
               confirm_request receiver message st sid2 uid;
               probe_request st sid3;
               code_request st sid4 code;
               final_request receiver message st sid5 uid].
Proof.
  intros H.
  destruct (send_sms_ok_inv st' H)
    as (sid1 & st2 & items1 & resp1 & Happlied & Hdata1 & Hcase).
  destruct (send_sms_applied env receiver message st sid1 st2 items1 Happlied)
    as (_ & _ & _ & Hsends).
  exists sid1. destruct Hcase as [[_ ->] | [_ Hconfirm]]; [now left | right].
  destruct (send_sms_confirm_ok_inv resp1 items1 _ st' Hdata1 Hconfirm)
    as (uid & sid2 & st3 & resp2 & sid3 & sid4 & sid5 & code
        & _ & Hsid & _ & Hfactor).
  exists sid2, uid, sid3, sid4, sid5, code.
  assert (BA : box_url (client (record (apply_request receiver message st sid1) st2))
               = box_url (client st)) by apply Hsends.
  pose proof (sends_sid env _ _ _ _ BA Hsid) as S3.
  assert (B3 : box_url (client st3) = box_url (client st)) by apply S3.
  pose proof (sends_request _ st3 (confirm_request receiver message st sid2 uid) B3
                            (data_url_is_send_request _ _)) as S4.
  pose proof (factor_submitted_sends
                env receiver message st uid
                (record (confirm_request receiver message st sid2 uid) st3)
                sid3 sid4 sid5 code st' B3 Hfactor) as S5.
  exact (sends_trans _ _ _ _ _ _ Hsends
           (sends_trans _ _ _ _ _ _ S3 (sends_trans _ _ _ _ _ _ S4 S5))).
Qed.

End Returns.

Lemma send_sms_apply_rejected_witness :
  let env := mock_env [] []
                      [data_answer [("apply", JStr "valerror");
                                    ("valerror", JStr "recipient")]] in
  let st := mkSt (logged_in 1140) [] in
  let st2 := mkSt (logged_in 1140) [EvTime; EvTime; EvAcquire "sms_send"] in
  send_sms env "12" "hello" st =
  (Raise (Exn RuntimeError [Lit "Validation error: "; Val (JStr "recipient")] None),
   record (apply_request "12" "hello" st (Some demo_sid)) st2).
Proof.
  intros env st st2.
  apply (send_sms_apply_rejected
           env "12" "hello" st (Some demo_sid) st2
           (json_response (JObj [("data", JObj [("apply", JStr "valerror");
                                                ("valerror", JStr "recipient")])]))
           [("apply", JStr "valerror"); ("valerror", JStr "recipient")]
           (JStr "valerror")).
  - eexists. repeat split; reflexivity.
  - reflexivity.
  - reflexivity.
  - reflexivity.
Defined.

Lemma send_sms_apply_unreadable_witness :
  let env := mock_env [] [] [session_answer (Some demo_sid)] in
  let st := mkSt (logged_in 1140) [] in
  let st2 := mkSt (logged_in 1140) [EvTime; EvTime; EvAcquire "sms_send"] in
  let e := Exn JSONDecodeError [Lit "Expecting value"] None in
  send_sms env "12" "hello" st =
  (Raise e, record (apply_request "12" "hello" st (Some demo_sid)) st2)
  /\ (exn_cls e = JSONDecodeError \/ exn_cls e = KeyError \/ exn_cls e = TypeError).
Proof.
  intros env st st2 e.
  apply (send_sms_apply_unreadable
           env "12" "hello" st (Some demo_sid) st2
           (xml_response [("SID", Some demo_sid); ("BlockTime", Some "0")])).
  - eexists. repeat split; reflexivity.
  - reflexivity.
Defined.

Lemma send_sms_apply_without_uid_witness :
  let env := mock_env [] [] [data_answer [("apply", JStr "ok")]] in
  let st := mkSt (logged_in 1140) [] in
  let st2 := mkSt (logged_in 1140) [EvTime; EvTime; EvAcquire "sms_send"] in
  send_sms env "12" "hello" st =
  (Raise (Exn KeyError [Lit "new_uid"] None),
   record (apply_request "12" "hello" st (Some demo_sid)) st2).
Proof.
  intros env st st2.
  apply (send_sms_apply_without_uid env "12" "hello" st (Some demo_sid) st2
                                    [("apply", JStr "ok")]).
  - do 2 eexists. repeat split; reflexivity.
  - reflexivity.
  - reflexivity.
Defined.

Lemma send_sms_second_apply_unexpected_witness :
  let env := mock_env [] []
                      [data_answer [("apply", JStr "ok"); ("new_uid", JStr "u1")];
                       data_answer [("second_apply", JStr "done")]] in
  let st := mkSt (logged_in 1140) [] in
  let st3 := mkSt (logged_in 1140)
                  [EvTime; EvTime;
                   apply_request "12" "hello" st (Some demo_sid);
                   EvTime; EvTime; EvAcquire "sms_send"] in
  send_sms env "12" "hello" st =
  (Raise (second_apply_unexpected (JStr "done")),
   record (confirm_request "12" "hello" st (Some demo_sid) (JStr "u1")) st3).
Proof.
  intros env st st3.
  apply (send_sms_second_apply_unexpected
           env "12" "hello" st (Some demo_sid) (Some demo_sid) (JStr "u1") st3
           (json_response (JObj [("data", JObj [("second_apply", JStr "done")])]))).
  - exists (mkSt (logged_in 1140) [EvTime; EvTime; EvAcquire "sms_send"]).
    exists [("apply", JStr "ok"); ("new_uid", JStr "u1")].
    repeat split; try reflexivity.
    do 2 eexists. repeat split; reflexivity.
  - intros v Hv. injection Hv as <-. reflexivity.
Defined.

Lemma send_sms_returns_after_one_or_five_witness :
  let env := mock_env [] []
                      [data_answer [("apply", JStr "ok"); ("redirect", JStr "/sms")]] in
  let st := mkSt (logged_in 1140) [] in
  let st' := snd (send_sms env "12" "hello" st) in
  exists sid1,
    sends (box_url (client st)) st st' [apply_request "12" "hello" st sid1]
    \/ exists sid2 uid sid3 sid4 sid5 code,
        sends (box_url (client st)) st st'
              [apply_request "12" "hello" st sid1;
               confirm_request "12" "hello" st sid2 uid;
               probe_request st sid3;
               code_request st sid4 code;
               final_request "12" "hello" st sid5 uid].
Proof.
  intros env st st'.
  apply (send_sms_returns_after_one_or_five env "12" "hello" st st').
  reflexivity.
Defined.

(** The calls [get_current_sid] can make: clock readings, the GET and the
    POST of the login endpoint, hash calls and a sleep. *)
Lemma get_current_sid_calls env base (P : Event -> bool) :
  P EvTime = true ->
  (forall n, P (EvSleep n) = true) ->
  (forall url, P (EvGet url) = true) ->
  (forall pw salt n, P (EvPbkdf2 pw salt n) = true) ->
  (forall data hdrs, P (EvPost (base ++ LOGIN_SID_ROUTE) data (Some hdrs)) = true) ->
  keeps base P (get_current_sid env).
Proof.
  intros Htime Hsleep Hget Hhash Hpost.
  unfold get_current_sid, _get_sid, get_login_state, calculate_pbkdf2_response,
    send_response.
  repeat keeps_step;
    first [ apply keeps_time_time; exact Htime
          | apply keeps_time_sleep; apply Hsleep
          | apply keeps_pbkdf2; apply Hhash
          | apply keeps_requests_get; apply Hget
          | apply keeps_requests_post ].
  match goal with
  | H : box_url ?c = base |- _ => rewrite H
  end.
  apply Hpost.
Qed.

(** ** Reading messages *)

Section Reading.

Variable env : Env.

(** [get_sms], by what the device answers. *)
Lemma get_sms_run st :
  get_sms env st =
  match get_current_sid env st with
  | (Raise e, st2) => (Raise e, st2)
  | (Ok sid0, st2) =>
      (match env_post env (trace st2) (data_url st) (sms_list_form sid0) None with
       | Ok resp => messages_of resp
       | Raise e =>
           if is_request_exception (exn_cls e)
           then Raise (Exn RuntimeError (exn_msg e) None)
           else Raise e
       end,
       record (list_request st sid0) st2)
  end.
Proof.
  unfold get_sms. rewrite bind_get_client. cbv zeta. unfold bind at 1.
  destruct (get_current_sid env st) as [[sid0 | e] st2]; [| reflexivity].
  unfold bind, try_except_if, requests_post, raise, lift, list_request, data_url.
  destruct (env_post env (trace st2) _ _ None) as [resp | e]; [reflexivity |].
  destruct (is_request_exception (exn_cls e)); reflexivity.
Qed.

Lemma get_sms_incoming_run st :
  get_sms_incoming env st =
  match get_sms env st with
  | (Raise e, st') => (Raise e, st')
  | (Ok messages, st') =>
      (match py_iter messages with
       | Ok items => received_only items
       | Raise e => Raise e
       end, st')
  end.
Proof.
  unfold get_sms_incoming, bind, lift.
  destruct (get_sms env st) as [[messages | e] st']; [| reflexivity].
  destruct (py_iter messages); reflexivity.
Qed.

Lemma received_only_ok items kept :
  received_only items = Ok kept ->
  kept = filter is_received items
  /\ Forall (fun i => is_ok (py_getitem i "status_name") = true) items.
Proof.
  revert kept. induction items as [| i rest IH]; intros kept H.
  - injection H as <-. now split.
  - cbn [received_only] in H.
    destruct (py_getitem i "status_name") as [status |] eqn:Hi; [| discriminate].
    destruct (received_only rest) as [kept' |]; [| discriminate].
    destruct (IH kept' eq_refl) as [-> Hall].
    assert (Hk : kept = if json_is_str status "received"
                        then i :: filter is_received rest
                        else filter is_received rest) by congruence.
    split; [| constructor; [now rewrite Hi | exact Hall]].
    cbn [filter].
    assert (Hr : is_received i = json_is_str status "received")
      by (unfold is_received; now rewrite Hi).
    now rewrite Hr.
Qed.

Lemma received_only_raises good bad rest e :
  Forall (fun i => is_ok (py_getitem i "status_name") = true) good ->
  py_getitem bad "status_name" = Raise e ->
  received_only (good ++ bad :: rest) = Raise e.
Proof.
  intros Hgood Hbad. induction Hgood as [| i good Hi _ IH]; cbn [app received_only].
  - now rewrite Hbad.
  - destruct (py_getitem i "status_name"); [| discriminate Hi]. now rewrite IH.
Qed.

(** What [get_sms_incoming] returns is the list of the messages whose
    [status_name] is ["received"], in the order of the device's list, and
    it returns only when every message of that list has a [status_name];
    the state is the one [get_sms] left. *)
Theorem get_sms_incoming_filters st kept st' :
  get_sms_incoming env st = (Ok kept, st') ->
  exists messages items,
    get_sms env st = (Ok messages, st')
    /\ py_iter messages = Ok items
    /\ kept = filter is_received items
    /\ Forall (fun i => is_ok (py_getitem i "status_name") = true) items.
Proof.
  rewrite get_sms_incoming_run.
  destruct (get_sms env st) as [[messages | e] st1]; [| discriminate].
  destruct (py_iter messages) as [items |] eqn:Hiter; [| discriminate].
  intros H. assert (Hrec : received_only items = Ok kept) by congruence.
  assert (st1 = st') by congruence. subst st1.
  destruct (received_only_ok items kept Hrec) as [Hk Hall].
  now exists messages, items.
Qed.

(** One message without a [status_name] makes the whole listing fail, with
    the error of the first such message; nothing is returned for the
    messages before it. *)
Theorem get_sms_incoming_malformed_message st st' good bad rest e :
  get_sms env st = (Ok (JArr (good ++ bad :: rest)), st') ->
  Forall (fun i => is_ok (py_getitem i "status_name") = true) good ->
  py_getitem bad "status_name" = Raise e ->
  get_sms_incoming env st = (Raise e, st')
  /\ (exn_cls e = KeyError \/ exn_cls e = TypeError).
Proof.
  intros Hsms Hgood Hbad. split.
  - rewrite get_sms_incoming_run, Hsms. cbn [py_iter].
    now rewrite (received_only_raises good bad rest e Hgood Hbad).
  - destruct bad; cbn in Hbad; try (injection Hbad as <-; now right).
    destruct (assoc "status_name" items); [discriminate |].
    injection Hbad as <-. now left.
Qed.

(** Reading the messages never asks the limiter and never asks for a
    one-time code, whatever happens; of the send protocol's endpoints it
    calls at most the data endpoint, once, with the list form. *)
Theorem get_sms_incoming_calls st r st' :
  get_sms_incoming env st = (r, st') ->
  (exists evs, issued st st' evs
               /\ count is_acquire evs = 0%nat /\ count is_totp evs = 0%nat)
  /\ (sends (box_url (client st)) st st' []
      \/ exists sid0, sends (box_url (client st)) st st' [list_request st sid0]).
Proof.
  intros H. split.
  - pose (quiet := fun e => negb (is_acquire e) && negb (is_totp e)).
    assert (Hsid : holds (fun _ => True) quiet (get_current_sid env)).
    { intros s0 r0 s0' _ H0. split; [exact Logic.I |].
      destruct (get_current_sid_calls env (box_url (client s0)) quiet
                  eq_refl (fun _ => eq_refl) (fun _ => eq_refl)
                  (fun _ _ _ => eq_refl) (fun _ _ => eq_refl)
                  s0 r0 s0' eq_refl H0)
        as (_ & evs & Ht & Hp).
      now exists evs. }
    destruct (get_sms_incoming_holds env _ quiet Hsid (fun _ _ => eq_refl)
                                     st r st' Logic.I H) as (_ & evs & Ht & Hp).
    exists (rev evs). unfold issued. rewrite rev_involutive, !count_rev.
    split; [exact Ht |]. split; apply count_none; rewrite forallb_forall in *;
      intros x Hx; specialize (Hp x Hx); unfold quiet in Hp;
      apply andb_prop in Hp as [Ha Hb]; assumption.
  - rewrite get_sms_incoming_run, get_sms_run in H.
    destruct (get_current_sid env st) as [[sid0 | e] st2] eqn:Hsid.
    + right. exists sid0.
      pose proof (sends_sid env _ st _ st2 eq_refl Hsid) as S1.
      assert (B2 : box_url (client st2) = box_url (client st)) by apply S1.
      pose proof (sends_request _ st2 (list_request st sid0) B2
                                (data_url_is_send_request _ _)) as S2.
      assert (Hst' : st' = record (list_request st sid0) st2).
      { destruct (env_post env (trace st2) _ _ None) as [resp | e].
        - destruct (messages_of resp) as [m | e]; [| congruence].
          destruct (py_iter m); congruence.
        - destruct (is_request_exception (exn_cls e)); congruence. }
      subst st'. exact (sends_trans _ _ _ _ _ _ S1 S2).
    + left. injection H as _ <-. exact (sends_sid env _ st _ st2 eq_refl Hsid).
Qed.

End Reading.

(** ** The rate budget of several receivers *)

Lemma run_schedule_acquires_at_most env message acts st r st' :
  run_schedule env message acts st = (r, st') ->
  exists evs, trace st' = (evs ++ trace st)%list
              /\ (count is_acquire evs <= List.length (sends_of acts))%nat.
Proof.
  revert st. induction acts as [| a rest IH]; intros st Hrun.
  - injection Hrun as <- <-. exists []. split; [reflexivity | cbn; lia].
  - cbn [run_schedule] in Hrun.
    assert (Hstep : forall r1 st1,
               match a with
               | Send x => send_sms env x message
               | Pause => time_sleep 5
               end st = (r1, st1) ->
               exists evs1, trace st1 = (evs1 ++ trace st)%list
                            /\ (count is_acquire evs1
                                + List.length (sends_of rest)
                                <= List.length (sends_of (a :: rest)))%nat).
    { intros r1 st1 H1. destruct a as [x |].
      - destruct (send_sms_one_acquire env message x st r1 st1 H1) as (evs1 & Ht1 & Hc1).
        exists evs1. split; [exact Ht1 |]. rewrite Hc1.
        change (sends_of (Send x :: rest)) with (x :: sends_of rest).
        cbn [List.length]. lia.
      - injection H1 as _ <-. exists [EvSleep 5]. split; [reflexivity |].
        change (sends_of (Pause :: rest)) with (sends_of rest). cbn. lia. }
    apply bind_inv in Hrun as [([] & st1 & H1 & Hrest) | (e & H1 & ->)].
    + destruct (Hstep _ _ H1) as (evs1 & Ht1 & Hc1).
      destruct (IH _ Hrest) as (evs2 & Ht2 & Hc2).
      exists (evs2 ++ evs1)%list. rewrite Ht2, Ht1, app_assoc.
      split; [reflexivity |]. rewrite count_app. lia.
    + destruct (Hstep _ _ H1) as (evs1 & Ht1 & Hc1).
      exists evs1. split; [exact Ht1 | lia].
Qed.

(** Whatever the outcome, [send_sms_multiple] asks the limiter at most once
    per receiver, and at least once when there is a receiver; with no
    receiver it returns at once without any call. *)
Theorem send_sms_multiple_budget env receivers message st r st' :
  send_sms_multiple env receivers message st = (r, st') ->
  (exists evs,
      issued st st' evs
      /\ (count is_acquire evs <= List.length receivers)%nat
      /\ (receivers <> [] -> (1 <= count is_acquire evs)%nat))
  /\ (receivers = [] -> r = Ok tt /\ st' = st).
Proof.
  intros H. split.
  - pose proof H as H0. unfold send_sms_multiple in H0.
    rewrite send_sms_each_first in H0.
    destruct (run_schedule_acquires_at_most env message _ _ _ _ H0)
      as (evs & Ht & Hc).
    rewrite schedule_sends in Hc.
    exists (rev evs). unfold issued. rewrite rev_involutive, count_rev.
    split; [exact Ht |]. split; [exact Hc |].
    intros Hne. destruct receivers as [| x rest]; [now destruct Hne |].
    cbn [schedule run_schedule] in H0.
    apply bind_inv in H0 as [([] & st1 & H1 & Hrest) | (e & H1 & ->)].
    + destruct (send_sms_one_acquire env message x st _ st1 H1) as (evs1 & Ht1 & Hc1).
      destruct (run_schedule_acquires_at_most env message _ _ _ _ Hrest)
        as (evs2 & Ht2 & _).
      rewrite Ht2, Ht1, app_assoc in Ht. apply app_inv_tail in Ht. subst evs.
      rewrite count_app. lia.
    + destruct (send_sms_one_acquire env message x st _ st' H1) as (evs1 & Ht1 & Hc1).
      rewrite Ht1 in Ht. apply app_inv_tail in Ht. subst evs. lia.
  - intros ->. injection H as <- <-. now split.
Qed.

Lemma send_sms_multiple_budget_witness :
  let env := mock_env [] [] [] in
  let st := mkSt (logged_in 1140) [] in
  let run := send_sms_multiple env ["0123456"; "0765432"] "hello" st in
  (exists evs,
      issued st (snd run) evs
      /\ (count is_acquire evs <= 2)%nat
      /\ (["0123456"; "0765432"] <> [] -> (1 <= count is_acquire evs)%nat))
  /\ (["0123456"; "0765432"] = [] -> fst run = Ok tt /\ snd run = st).
Proof.
  intros env st run.
  apply (send_sms_multiple_budget env ["0123456"; "0765432"] "hello" st
                                  (fst run) (snd run)).
  reflexivity.
Defined.

Lemma get_sms_incoming_filters_witness :
  let env := mock_env [] []
                      [messages_answer [demo_message "1" "received";
                                        demo_message "2" "sent";
                                        demo_message "3" "received"]] in
  let st := mkSt (logged_in 1140) [] in
  exists messages items,
    get_sms env st = (Ok messages, snd (get_sms_incoming env st))
    /\ py_iter messages = Ok items
    /\ [demo_message "1" "received"; demo_message "3" "received"]
       = filter is_received items
    /\ Forall (fun i => is_ok (py_getitem i "status_name") = true) items.
Proof.
  intros env st.
  apply (get_sms_incoming_filters env st). reflexivity.
Defined.

Lemma get_sms_incoming_malformed_message_witness :
  let env := mock_env [] []
                      [messages_answer [demo_message "1" "received";
                                        JObj [("id", JStr "2")];
                                        demo_message "3" "received"]] in
  let st := mkSt (logged_in 1140) [] in
  let e := Exn KeyError [Lit "status_name"] None in
  get_sms_incoming env st = (Raise e, snd (get_sms env st))
  /\ (exn_cls e = KeyError \/ exn_cls e = TypeError).
Proof.
  intros env st e.
  apply (get_sms_incoming_malformed_message
           env st (snd (get_sms env st))
           [demo_message "1" "received"] (JObj [("id", JStr "2")])
           [demo_message "3" "received"] e).
  - reflexivity.
  - repeat constructor.
  - reflexivity.
Defined.

Lemma get_sms_incoming_calls_witness :
  let env := mock_env [] [] [messages_answer [demo_message "1" "received"]] in
  let st := mkSt (logged_in 1140) [EvAcquire "sms_send"] in
  let st' := snd (get_sms_incoming env st) in
  (exists evs, issued st st' evs
               /\ count is_acquire evs = 0%nat /\ count is_totp evs = 0%nat)
  /\ (sends (box_url (client st)) st st' []
      \/ exists sid0, sends (box_url (client st)) st st' [list_request st sid0]).
Proof.
  intros env st st'.
  apply (get_sms_incoming_calls env st (fst (get_sms_incoming env st)) st').
  reflexivity.
Defined.

(** ** Requests that are not answered *)

(** When the first request of a send ends with an exception, the send ends
    with it: a transport error of [requests] comes back as a
    [RuntimeError] that names the address and quotes the error, any other
    exception comes back as it is.  The unit of the rate budget is spent
    and the request is the only one of the send protocol. *)
Theorem send_sms_first_request_fails env receiver message st st1 sid1 st2 e :
  enforce_rate_limit env st = (Ok tt, st1) ->
  get_current_sid env st1 = (Ok sid1, st2) ->
  env_post env (trace st2) (data_url st) (apply_form sid1 receiver message) None
  = Raise e ->
  send_sms env receiver message st =
  (Raise (if is_request_exception (exn_cls e)
          then request_failed (data_url st) e
          else e),
   record (apply_request receiver message st sid1) st2)
  /\ sends (box_url (client st)) st
           (record (apply_request receiver message st sid1) st2)
           [apply_request receiver message st sid1]
  /\ exists evs, issued st st2 (EvAcquire "sms_send" :: evs).
Proof.
  intros Hgate Hsid Hpost.
  assert (Hst1 : st1 = record (EvAcquire "sms_send") st).
  { rewrite enforce_rate_limit_run in Hgate. now injection Hgate. }
  assert (B1 : box_url (client st1) = box_url (client st)) by now subst st1.
  pose proof (sends_sid env _ st1 _ st2 B1 Hsid) as S2.
  assert (B2 : box_url (client st2) = box_url (client st)) by apply S2.
  split; [| split].
  - unfold send_sms. run_ok Hgate. unfold send_sms_protocol.
    rewrite bind_get_client. cbv zeta. run_ok Hsid. rewrite B1.
    fold (data_url st).
    assert (Hsafe : safe_post_request env (data_url st)
                                      (apply_form sid1 receiver message) st2
                    = (Raise (if is_request_exception (exn_cls e)
                              then request_failed (data_url st) e else e),
                       record (apply_request receiver message st sid1) st2)).
    { rewrite safe_post_request_run, Hpost.
      destruct (is_request_exception (exn_cls e)); reflexivity. }
    now rewrite (bind_raise _ _ _ _ _ Hsafe).
  - change [apply_request receiver message st sid1]
      with ([] ++ [] ++ [apply_request receiver message st sid1])%list.
    apply sends_trans with (st2 := st1).
    { subst st1. apply sends_other; reflexivity. }
    apply sends_trans with (st2 := st2); [exact S2 |].
    apply sends_request; [exact B2 | apply data_url_is_send_request].
  - destruct (get_current_sid_trace env st1 _ st2 Hsid) as (evs & Ht).
    exists (rev evs). unfold issued. cbn [rev].
    rewrite rev_involutive, <- app_assoc, Ht. now subst st1.
Qed.

Lemma send_sms_first_request_fails_witness :
  let env := mock_env [] [] [] in
  let st := mkSt (logged_in 1140) [] in
  let st2 := mkSt (logged_in 1140) [EvTime; EvTime; EvAcquire "sms_send"] in
  send_sms env "12" "hello" st =
  (Raise (request_failed "http://fritz.box/data.lua" connection_error),
   record (apply_request "12" "hello" st (Some demo_sid)) st2)
  /\ sends (box_url (client st)) st
           (record (apply_request "12" "hello" st (Some demo_sid)) st2)
           [apply_request "12" "hello" st (Some demo_sid)]
  /\ exists evs, issued st st2 (EvAcquire "sms_send" :: evs).
Proof.
  intros env st st2.
  apply (send_sms_first_request_fails
           env "12" "hello" st (record (EvAcquire "sms_send") st) (Some demo_sid) st2
           connection_error); reflexivity.
Defined.

(** [get_sms] makes its request only once a session id is at hand: when
    [get_current_sid] raises, so does [get_sms], in the same state.  When
    the request ends with a transport error of [requests], [get_sms] raises
    a [RuntimeError] with that error's text; any other exception of the
    request comes back as it is.  [get_sms_incoming] fails in the same
    way. *)
Theorem get_sms_failures env st :
  (forall e st2,
      get_current_sid env st = (Raise e, st2) ->
      get_sms env st = (Raise e, st2)
      /\ get_sms_incoming env st = (Raise e, st2))
  /\ (forall sid0 st2 e,
         get_current_sid env st = (Ok sid0, st2) ->
         env_post env (trace st2) (data_url st) (sms_list_form sid0) None = Raise e ->
         let raised := if is_request_exception (exn_cls e)
                       then Exn RuntimeError (exn_msg e) None
                       else e in
         get_sms env st = (Raise raised, record (list_request st sid0) st2)
         /\ get_sms_incoming env st = (Raise raised, record (list_request st sid0) st2)).
Proof.
  split.
  - intros e st2 Hsid. rewrite get_sms_incoming_run, get_sms_run, Hsid. now split.
  - intros sid0 st2 e Hsid Hpost raised.
    rewrite get_sms_incoming_run, get_sms_run, Hsid, Hpost. unfold raised.
    destruct (is_request_exception (exn_cls e)); now split.
Qed.

Lemma get_sms_failures_witness :
  let env := mock_env [] [] [] in
  let st := mkSt (logged_in 1140) [] in
  let st2 := mkSt (logged_in 1140) [EvTime; EvTime] in
  get_sms env st =
  (Raise (Exn RuntimeError [Lit "Connection refused"] None),
   record (list_request st (Some demo_sid)) st2)
  /\ get_sms_incoming env st =
     (Raise (Exn RuntimeError [Lit "Connection refused"] None),
      record (list_request st (Some demo_sid)) st2).
Proof.
  intros env st st2.
  destruct (get_sms_failures env st) as [_ Hpost].
  apply (Hpost (Some demo_sid) st2 connection_error); reflexivity.
Defined.
